(** * Africure Pharma backend: the form-submission pipeline

    A shallow embedding of the contact and career-application flows of the
    Express backend (rate limiter, sanitizer, express-validator chains,
    controllers, services, health check), with the properties of the
    specification stated and settled against it.

    Character model: a JavaScript string is modelled as a [string] whose
    characters are UTF-16 code units below 256 (the Latin-1 range).  Values
    of the remote backend and of the third-party libraries that are not part
    of the repository are inputs of the model. *)

From Stdlib Require Import Ascii String ZArith NArith Lia Bool.
From stdpp Require Import base option list strings pretty gmap.

Open Scope string_scope.

(** ** Characters and JavaScript string primitives *)

Module Js.

Definition code (c : ascii) : N := N_of_ascii c.

Definition in_range (lo hi : N) (c : ascii) : bool :=
  ((lo <=? code c) && (code c <=? hi))%N.

Definition is_digit (c : ascii) : bool := in_range 48 57 c.
Definition is_upper (c : ascii) : bool := in_range 65 90 c.
Definition is_lower (c : ascii) : bool := in_range 97 122 c.
Definition is_alpha (c : ascii) : bool := is_upper c || is_lower c.

(** [\w] is [A-Za-z0-9_]. *)
Definition is_word (c : ascii) : bool :=
  is_alpha c || is_digit c || (code c =? 95)%N.

(** [\s]: tab, line feed, vertical tab, form feed, carriage return, space
    and the no-break space, the white space of the Latin-1 range. *)
Definition is_space (c : ascii) : bool :=
  in_range 9 13 c || (code c =? 32)%N || (code c =? 160)%N.

Definition chr_eqb (a b : ascii) : bool := (code a =? code b)%N.

(** [String.prototype.toLowerCase] on one code unit of the Latin-1 range. *)
Definition lower_chr (c : ascii) : ascii :=
  if is_upper c then ascii_of_N (code c + 32)
  else if in_range 192 222 c && negb (code c =? 215)%N
       then ascii_of_N (code c + 32)
  else c.

(** [String.prototype.toUpperCase] on one ASCII letter (used on identifiers
    made of hexadecimal digits and dashes only). *)
Definition upper_chr (c : ascii) : ascii :=
  if is_lower c then ascii_of_N (code c - 32) else c.

Fixpoint map_chars (f : ascii -> ascii) (s : string) : string :=
  match s with
  | EmptyString => EmptyString
  | String c t => String (f c) (map_chars f t)
  end.

Definition toLowerCase : string -> string := map_chars lower_chr.
Definition toUpperCase : string -> string := map_chars upper_chr.

Fixpoint ltrim (s : string) : string :=
  match s with
  | String c t => if is_space c then ltrim t else s
  | EmptyString => EmptyString
  end.

(** Right trim: a character is dropped when it is white space and what
    follows it has been dropped entirely. *)
Fixpoint rtrim (s : string) : string :=
  match s with
  | EmptyString => EmptyString
  | String c t =>
      match rtrim t with
      | EmptyString => if is_space c then EmptyString else String c EmptyString
      | t' => String c t'
      end
  end.

(** [String.prototype.trim], and validator.js's [trim] without a character
    list, which strips [\s] on both sides. *)
Definition trim (s : string) : string := rtrim (ltrim s).

Definition len (s : string) : nat := String.length s.

Fixpoint drop (n : nat) (s : string) : string :=
  match n, s with
  | O, _ => s
  | S n', String _ t => drop n' t
  | S _, EmptyString => EmptyString
  end.

(** [s.slice(-k)]: the last [k] code units (the whole string when it is
    shorter). *)
Definition slice_last (k : nat) (s : string) : string :=
  drop (len s - k) s.

Fixpoint replicate_chr (n : nat) (c : ascii) : string :=
  match n with
  | O => EmptyString
  | S n' => String c (replicate_chr n' c)
  end.

(** [s.padStart(n, '0')]. *)
Definition padStart0 (n : nat) (s : string) : string :=
  replicate_chr (n - len s) "0"%char +:+ s.

(** Every character of [s] satisfies [p]. *)
Fixpoint all (p : ascii -> bool) (s : string) : bool :=
  match s with
  | EmptyString => true
  | String c t => p c && all p t
  end.

(** [s.includes(t)]. *)
Fixpoint includes (t s : string) : bool :=
  String.prefix t s ||
  match s with
  | EmptyString => false
  | String _ s' => includes t s'
  end.

End Js.

(** ** Regular expressions

    The patterns of the source are transcribed into a small syntax and run
    by a backtracking matcher in continuation-passing style, the evaluation
    order of ECMAScript: alternatives left to right, greedy repetition, an
    iteration of a repetition that consumes nothing is not taken. *)

Module Re.

Inductive regex : Type :=
| Eps
| Chr (p : ascii -> bool)
| Cat (r1 r2 : regex)
| Alt (r1 r2 : regex)
| Star (r : regex)
| NotAhead (r : regex)
| Bos
| Eos
| WordB.

Definition orelse {A} (x y : option A) : option A :=
  match x with
  | Some _ => x
  | None => y
  end.

Definition word_before (prev : option ascii) : bool :=
  match prev with
  | Some c => Js.is_word c
  | None => false
  end.

Definition word_after (s : string) : bool :=
  match s with
  | String c _ => Js.is_word c
  | EmptyString => false
  end.

(** The loop of a greedy repetition of [step]: one more iteration first,
    which must consume something, then the continuation [k].  [fuel] bounds
    the iterations by the length of the input. *)
Fixpoint star_loop (A : Type)
    (step : option ascii -> string ->
            (option ascii -> string -> option A) -> option A)
    (k : option ascii -> string -> option A)
    (fuel : nat) (prev : option ascii) (s : string) : option A :=
  match fuel with
  | O => k prev s
  | S fuel' =>
      orelse
        (step prev s (fun prev' s' =>
           if (Js.len s' <? Js.len s)%nat
           then star_loop A step k fuel' prev' s'
           else None))
        (k prev s)
  end.

(** [rmatch r prev s k]: match [r] at the current position, where [prev]
    is the character before it ([None] at the start of the input) and [s]
    the rest of the input; [k] continues after the match. *)
Fixpoint rmatch (A : Type) (r : regex) (prev : option ascii) (s : string)
    (k : option ascii -> string -> option A) {struct r} : option A :=
  match r with
  | Eps => k prev s
  | Chr p =>
      match s with
      | String c t => if p c then k (Some c) t else None
      | EmptyString => None
      end
  | Cat r1 r2 => rmatch A r1 prev s (fun prev' s' => rmatch A r2 prev' s' k)
  | Alt r1 r2 => orelse (rmatch A r1 prev s k) (rmatch A r2 prev s k)
  | Star r1 => star_loop A (rmatch A r1) k (Js.len s) prev s
  | NotAhead r1 =>
      match rmatch unit r1 prev s (fun _ _ => Some tt) with
      | Some _ => None
      | None => k prev s
      end
  | Bos => match prev with None => k prev s | Some _ => None end
  | Eos => match s with EmptyString => k prev s | String _ _ => None end
  | WordB => if xorb (word_before prev) (word_after s) then k prev s else None
  end.

Arguments star_loop {A} step k fuel prev s.
Arguments rmatch {A} r prev s k.

(** The match of [r] starting exactly here: the position after it. *)
Definition match_here (r : regex) (prev : option ascii) (s : string)
  : option (option ascii * string) :=
  rmatch r prev s (fun prev' s' => Some (prev', s')).

(** [RegExp.prototype.test] for a pattern without the sticky flag: is there
    a match starting at some position. *)
Fixpoint test_from (r : regex) (prev : option ascii) (s : string) : bool :=
  match match_here r prev s with
  | Some _ => true
  | None =>
      match s with
      | String c t => test_from r (Some c) t
      | EmptyString => false
      end
  end.

Definition test (r : regex) (s : string) : bool := test_from r None s.

(** [s.replace(r, '')] for a pattern with the global flag: matches are
    found left to right, each search resuming where the last match ended. *)
Fixpoint remove_from (fuel : nat) (r : regex) (prev : option ascii)
    (s : string) : string :=
  match fuel with
  | O => s
  | S fuel' =>
      let keep :=
        match s with
        | String c t => String c (remove_from fuel' r (Some c) t)
        | EmptyString => EmptyString
        end in
      match match_here r prev s with
      | Some (prev', s') =>
          if (Js.len s' <? Js.len s)%nat then remove_from fuel' r prev' s'
          else keep
      | None => keep
      end
  end.

Definition remove_all (r : regex) (s : string) : string :=
  remove_from (S (Js.len s)) r None s.

(** *** Pattern syntax *)

Definition chr (c : ascii) : regex := Chr (Js.chr_eqb c).

(** A character under the [i] flag. *)
Definition chr_ci (c : ascii) : regex :=
  Chr (fun x => Js.chr_eqb (Js.lower_chr x) (Js.lower_chr c)).

Definition not_chr (c : ascii) : regex := Chr (fun x => negb (Js.chr_eqb c x)).

Fixpoint lit (s : string) : regex :=
  match s with
  | EmptyString => Eps
  | String c EmptyString => chr c
  | String c t => Cat (chr c) (lit t)
  end.

Fixpoint lit_ci (s : string) : regex :=
  match s with
  | EmptyString => Eps
  | String c EmptyString => chr_ci c
  | String c t => Cat (chr_ci c) (lit_ci t)
  end.

Definition plus (r : regex) : regex := Cat r (Star r).
Definition opt (r : regex) : regex := Alt r Eps.

(** [r{0,n}]. *)
Fixpoint upto (n : nat) (r : regex) : regex :=
  match n with
  | O => Eps
  | S n' => opt (Cat r (upto n' r))
  end.

Fixpoint seq (rs : list regex) : regex :=
  match rs with
  | [] => Eps
  | [r] => r
  | r :: rs' => Cat r (seq rs')
  end.

End Re.

(** ** Sanitizers (middleware/validation.js and routes/careerRoutes.js) *)

Module Sanitizer.
Import Re.

(** A greedy run of characters other than the less-than sign. *)
Definition not_lt_star : regex := Star (not_chr "<").

(** The tag pattern of the source, flags g and i, for [tag] = script or
    iframe: the opening [<tag] at a word boundary, a run of non-[<], any
    number of groups made of a [<] that does not start the closing tag and a
    run of non-[<], then the closing tag [</tag>]. *)
Definition tag_block (tag : string) : regex :=
  let close := lit_ci ("</" +:+ tag +:+ ">") in
  seq [ lit_ci ("<" +:+ tag); WordB; not_lt_star;
        Star (seq [NotAhead close; chr "<"; not_lt_star]);
        close ].

Definition script_re : regex := tag_block "script".
Definition iframe_re : regex := tag_block "iframe".

(** [/javascript:/gi] *)
Definition javascript_re : regex := lit_ci "javascript:".

(** The inline handler pattern, flags g and i: [on], one or more word
    characters, optional white space, an equals sign. *)
Definition handler_re : regex :=
  seq [ lit_ci "on"; plus (Chr Js.is_word); Star (Chr Js.is_space); chr "=" ].

(** The replacement chain of [sanitizeInput] (contact flow). *)
Definition sanitize_contact_string (s : string) : string :=
  remove_all handler_re
    (remove_all javascript_re
       (remove_all iframe_re
          (remove_all script_re s))).

(** The replacement chain of [sanitizeCareerInput] (career flow): the
    source has no iframe step here. *)
Definition sanitize_career_string (s : string) : string :=
  remove_all handler_re
    (remove_all javascript_re
       (remove_all script_re s)).

(** [Object.keys(req.body).forEach(key => ...)] over the string-valued
    fields of the body. *)
Definition sanitizeInput (body : gmap string string) : gmap string string :=
  sanitize_contact_string <$> body.

Definition sanitizeCareerInput (body : gmap string string)
  : gmap string string :=
  sanitize_career_string <$> body.

End Sanitizer.


(** ** JSON values

    Objects that cross a boundary (rows sent to and returned by the remote
    backend, response bodies) are JavaScript values of dynamic shape. *)

Module Json.

#[local] Set Warnings "-register-all".

Inductive json : Type :=
| JUndef
| JNull
| JBool (b : bool)
| JNum (z : Z)
| JStr (s : string)
| JArr (items : list json)
| JObj (fields : list (string * json)).

Fixpoint assoc (k : string) (fields : list (string * json)) : json :=
  match fields with
  | [] => JUndef
  | (k', v) :: rest => if String.eqb k k' then v else assoc k rest
  end.

(** Property read [v.k]; on anything but an object the property is
    undefined (reading a property of undefined or null itself throws, see
    [Effects.prop_of]). *)
Definition get (k : string) (v : json) : json :=
  match v with
  | JObj fields => assoc k fields
  | _ => JUndef
  end.

(** Truthiness. *)
Definition truthy (v : json) : bool :=
  match v with
  | JUndef | JNull => false
  | JBool b => b
  | JNum z => negb (z =? 0)%Z
  | JStr s => negb (String.eqb s "")
  | JArr _ | JObj _ => true
  end.

Definition of_option (o : option string) : json :=
  match o with
  | Some s => JStr s
  | None => JUndef
  end.

Definition has (k : string) (v : json) : bool :=
  match get k v with
  | JUndef => false
  | _ => true
  end.

End Json.

Export Json.

(** ** Effects: calls to the remote backend

    Every remote call is awaited before its result is used, so a handler is
    a sequential computation.  The remote backend is an input of the model:
    an oracle that answers each call either with a result object
    [{data, error, count}] or by throwing.  A computation threads the trace
    of the calls it issued and either returns or throws. *)

Module Effects.

(** A thrown JavaScript error: its constructor name and its message. *)
Record thrown : Type := Thrown { err_name : string; err_message : string }.

Record pg_error : Type := PgError { pg_code : string; pg_message : string }.

(** The result object of a supabase-js call. *)
Record result : Type := Result {
  data : json;
  error : option pg_error;
  count : json
}.

Inductive reply : Type :=
| Resolved (r : result)
| Rejected (e : thrown).

(** [.from(table).select(columns, {count, head}).order(..).range(..).eq(..)] *)
Record select_query : Type := Select {
  sel_table : string;
  sel_columns : string;
  sel_count_exact : bool;
  sel_head : bool;
  sel_order : option (string * bool);
  sel_range : option (Z * Z);
  sel_eq : list (string * string)
}.

Inductive call : Type :=
| InsertRow (table : string) (row : json)
| Rpc (fn : string) (args : json)
| StorageUpload (bucket path contentType : string) (size : Z)
| Query (q : select_query).

Definition backend : Type := call -> reply.

Inductive outcome (A : Type) : Type :=
| Ok (a : A)
| Throw (e : thrown).
Arguments Ok {A} a.
Arguments Throw {A} e.

Definition Eff (A : Type) : Type := list call -> outcome A * list call.

Definition ret {A} (a : A) : Eff A := fun tr => (Ok a, tr).

Definition throw {A} (e : thrown) : Eff A := fun tr => (Throw e, tr).

Definition bind {A B} (m : Eff A) (f : A -> Eff B) : Eff B :=
  fun tr =>
    match m tr with
    | (Ok a, tr') => f a tr'
    | (Throw e, tr') => (Throw e, tr')
    end.

(** [try { m } catch (e) { h e }] *)
Definition try_catch {A} (m : Eff A) (h : thrown -> Eff A) : Eff A :=
  fun tr =>
    match m tr with
    | (Ok a, tr') => (Ok a, tr')
    | (Throw e, tr') => h e tr'
    end.

(** [await] of one remote call. *)
Definition await (B : backend) (c : call) : Eff result :=
  fun tr =>
    match B c with
    | Resolved r => (Ok r, (tr ++ [c])%list)
    | Rejected e => (Throw e, (tr ++ [c])%list)
    end.

Definition run {A} (m : Eff A) : outcome A * list call := m [].

Definition new_Error (message : string) : thrown := Thrown "Error" message.

Definition type_error_read_of (base k : string) : thrown :=
  Thrown "TypeError"
    ("Cannot read properties of " +:+ base +:+ " (reading '" +:+ k +:+ "')").

Definition type_error_read (k : string) : thrown :=
  type_error_read_of "undefined" k.

Definition type_error_call (what : string) : thrown :=
  Thrown "TypeError" (what +:+ " is not a function").

(** [v.k] where [v] may be undefined or null. *)
Definition prop_of {A : Type} (k : string) (v : json) (f : json -> Eff A)
  : Eff A :=
  match v with
  | JUndef => throw (type_error_read k)
  | JNull => throw (type_error_read_of "null" k)
  | _ => f (get k v)
  end.

End Effects.

Export Effects.

Declare Scope eff_scope.
Delimit Scope eff_scope with eff.
Notation "x <~ m ;; k" := (bind m (fun x => k))
  (at level 100, m at next level, right associativity) : eff_scope.

(** ** express-validator chains

    A chain [body(field).trim().notEmpty().withMessage(m)...] is a list of
    steps run in order on the field's value: a sanitizer replaces the value
    (and writes it back to the request body), a validator records an error
    with the message attached to it and lets the chain go on (no chain of
    the source bails).  An optional chain is skipped when the field is
    undefined. *)

Module ExpressValidator.

(** The two functions of validator.js whose definition is not part of the
    repository. *)
Record validatorjs : Type := ValidatorJs {
  isEmail : string -> bool;
  normalizeEmail : string -> string
}.

Inductive step : Type :=
| Sanitize (f : string -> string)
| Check (p : string -> bool) (message : string).

Record chain : Type := Chain {
  chain_field : string;
  chain_optional : bool;
  chain_steps : list step
}.

(** One entry of [validationResult(req).array()]. *)
Record verror : Type := VError {
  path : string;
  msg : string;
  value : option string
}.

(** The library's [toString] of a field value. *)
Definition toString (v : option string) : string := default "" v.

Fixpoint run_steps (field : string) (steps : list step) (v : option string)
  : option string * list verror :=
  match steps with
  | [] => (v, [])
  | Sanitize f :: rest => run_steps field rest (Some (f (toString v)))
  | Check p message :: rest =>
      let '(v', errs) := run_steps field rest v in
      (v', if p (toString v) then errs else VError field message v :: errs)
  end.

Definition run_chain (c : chain) (body : gmap string string)
  : gmap string string * list verror :=
  let v := body !! chain_field c in
  if chain_optional c && negb (bool_decide (is_Some v)) then (body, [])
  else
    let '(v', errs) := run_steps (chain_field c) (chain_steps c) v in
    (match v' with
     | Some x => <[chain_field c := x]> body
     | None => body
     end, errs).

(** The chains of a route run one after the other as middleware. *)
Fixpoint run_chains (cs : list chain) (body : gmap string string)
  : gmap string string * list verror :=
  match cs with
  | [] => (body, [])
  | c :: rest =>
      let '(body1, errs1) := run_chain c body in
      let '(body2, errs2) := run_chains rest body1 in
      (body2, (errs1 ++ errs2)%list)
  end.

(** *** Validators and sanitizers of validator.js *)

Definition notEmpty (s : string) : bool := negb (String.eqb s "").

Definition isLength (min : nat) (max : option nat) (s : string) : bool :=
  (min <=? Js.len s)%nat &&
  match max with
  | Some m => (Js.len s <=? m)%nat
  | None => true
  end.

Definition matches (r : Re.regex) (s : string) : bool := Re.test r s.

Definition isIn (values : list string) (s : string) : bool :=
  existsb (String.eqb s) values.

Definition dquote : ascii := ascii_of_N 34.

(** [escape]: the HTML-entity replacement of validator.js. *)
Definition escape_chr (c : ascii) : string :=
  if Js.chr_eqb c "&" then "&amp;"
  else if Js.chr_eqb c dquote then "&quot;"
  else if Js.chr_eqb c "'" then "&#x27;"
  else if Js.chr_eqb c "<" then "&lt;"
  else if Js.chr_eqb c ">" then "&gt;"
  else if Js.chr_eqb c "/" then "&#x2F;"
  else if Js.chr_eqb c "\" then "&#x5C;"
  else if Js.chr_eqb c "`" then "&#96;"
  else String c EmptyString.

Fixpoint escape (s : string) : string :=
  match s with
  | EmptyString => EmptyString
  | String c t => escape_chr c +:+ escape t
  end.

(** [errors.array().map(error => ({field, message, value}))] *)
Definition error_entry (e : verror) : json :=
  JObj [("field", JStr (path e)); ("message", JStr (msg e));
        ("value", of_option (value e))].

End ExpressValidator.

Export ExpressValidator.

(** ** Patterns of the validation rules *)

Module Patterns.
Import Re.

Definition one_of (cs : string) (c : ascii) : bool :=
  existsb (Js.chr_eqb c) (list_ascii_of_string cs).

(** Letters, white space, hyphen, dot, apostrophe: the class of both name
    patterns of the route validators. *)
Definition name_chr (c : ascii) : bool :=
  Js.is_alpha c || Js.is_space c || one_of "-.'" c.

(** Anchored [+] of the name class (middleware/validation.js, contact). *)
Definition contact_name_re : regex := seq [Bos; plus (Chr name_chr); Eos].

(** The same class, written in another order (routes/careerRoutes.js). *)
Definition career_name_re : regex := seq [Bos; plus (Chr name_chr); Eos].

(** Optional plus sign, one digit 1-9, at most fifteen digits. *)
Definition contact_number_re : regex :=
  seq [Bos; opt (chr "+"); Chr (Js.in_range 49 57); upto 15 (Chr Js.is_digit);
       Eos].

(** Digits, white space, hyphen, parentheses. *)
Definition phone_chr (c : ascii) : bool :=
  Js.is_digit c || Js.is_space c || one_of "-()" c.

(** Optional plus sign, then one or more characters of the phone class
    (career phone; also [config.validation.contact.contact.pattern]). *)
Definition phone_re : regex :=
  seq [Bos; opt (chr "+"); plus (Chr phone_chr); Eos].

(** [config.validation.contact.fullName.pattern]: letters and white space. *)
Definition config_name_chr (c : ascii) : bool := Js.is_alpha c || Js.is_space c.
Definition config_name_re : regex := seq [Bos; plus (Chr config_name_chr); Eos].

(** Neither white space nor an at sign. *)
Definition email_chr (c : ascii) : bool :=
  negb (Js.is_space c) && negb (Js.chr_eqb c "@").

(** [config.validation.contact.email.pattern], also [emailRegex] of
    [CareerService.validateApplicationData]: local part, at sign, domain,
    dot, top level, each a non-empty run of [email_chr]. *)
Definition email_re : regex :=
  seq [Bos; plus (Chr email_chr); chr "@"; plus (Chr email_chr); chr ".";
       plus (Chr email_chr); Eos].

End Patterns.


(** ** Configuration (config/index.js) and the request environment *)

Module Config.

Record length_rule : Type := LengthRule {
  minLength : nat;
  maxLength : nat
}.

(** [config.validation.contact] *)
Definition fullName_rule : length_rule := LengthRule 2 50.
Definition fullName_pattern : Re.regex := Patterns.config_name_re.
Definition email_pattern : Re.regex := Patterns.email_re.
Definition contact_rule : length_rule := LengthRule 10 15.
Definition contact_pattern : Re.regex := Patterns.phone_re.
Definition message_rule : length_rule := LengthRule 10 1000.

(** What a handler reads from its surroundings: the clock
    ([new Date().toISOString()], [Date.now()]), the random token of a
    storage key, [process.env.NODE_ENV], and the public URL the storage
    client derives, without a remote call, from a bucket and a path
    ([getPublicUrl]). *)
Record env : Type := Env {
  now_iso : string;
  now_ms : string;
  random_token : string;
  node_env : option string;
  publicUrl : string -> string -> string
}.

(** [config.server.environment]: [process.env.NODE_ENV || 'development']. *)
Definition environment (E : env) : string :=
  match node_env E with
  | Some name => if String.eqb name "" then "development" else name
  | None => "development"
  end.

End Config.

Export Config.

(** An HTTP response: [res.status(code).json(body)]. *)
Record response : Type := Response {
  status : nat;
  body : json
}.

(** A field of a JavaScript object whose value may be undefined. *)
Definition field_truthy (v : option string) : bool :=
  match v with
  | Some s => notEmpty s
  | None => false
  end.

(** ** Contact flow *)

Module ContactService.

Definition table : string := "Contact_Us".

(** [ContactService.validateContactData] *)
Definition validateContactData (contactData : gmap string string)
  : list string :=
  let fullName := contactData !! "fullName" in
  let email := contactData !! "email" in
  let contact := contactData !! "contact" in
  let message := contactData !! "message" in
  let when (b : bool) (m : string) : list string := if b then [m] else [] in
  (when (negb (field_truthy fullName) ||
         (Js.len (Js.trim (toString fullName)) <? minLength fullName_rule)%nat)
        ("Full name must be at least " +:+ pretty (minLength fullName_rule)
         +:+ " characters long")
   ++ when (field_truthy fullName &&
            (maxLength fullName_rule <? Js.len (toString fullName))%nat)
        ("Full name must not exceed " +:+ pretty (maxLength fullName_rule)
         +:+ " characters")
   ++ when (field_truthy fullName &&
            negb (Re.test fullName_pattern (toString fullName)))
        "Full name can only contain letters and spaces"
   ++ when (negb (field_truthy email) ||
            negb (Re.test email_pattern (toString email)))
        "Please provide a valid email address"
   ++ when (negb (field_truthy contact) ||
            (Js.len (toString contact) <? minLength contact_rule)%nat)
        ("Contact number must be at least " +:+ pretty (minLength contact_rule)
         +:+ " digits long")
   ++ when (field_truthy contact &&
            negb (Re.test contact_pattern (toString contact)))
        "Please provide a valid contact number"
   ++ when (negb (field_truthy message) ||
            (Js.len (Js.trim (toString message)) <? minLength message_rule)%nat)
        ("Message must be at least " +:+ pretty (minLength message_rule)
         +:+ " characters long")
   ++ when (field_truthy message &&
            (maxLength message_rule <? Js.len (toString message))%nat)
        ("Message must not exceed " +:+ pretty (maxLength message_rule)
         +:+ " characters"))%list.

(** [x.trim()] and the like on a destructured field: a method call on
    undefined throws. *)
Definition on_field {A} (method : string) (v : option string)
    (f : string -> Eff A) : Eff A :=
  match v with
  | Some s => f s
  | None => throw (type_error_read method)
  end.

(** The [insertData] object of [createContact]. *)
Definition insertData (fullName email contact message : string) : json :=
  JObj [("Full_Name", JStr (Js.trim fullName));
        ("Email_id", JStr (Js.trim (Js.toLowerCase email)));
        ("Contact", JStr (Js.trim contact));
        ("Enter_Message", JStr (Js.trim message))].

Section WithBackend.
Variable B : backend.
Variable E : env.

Open Scope eff_scope.

(** [ContactService.createContact]; its catch block logs and rethrows. *)
Definition createContact (contactData : gmap string string) : Eff json :=
  on_field "trim" (contactData !! "fullName") (fun fullName =>
  on_field "toLowerCase" (contactData !! "email") (fun email =>
  on_field "trim" (contactData !! "contact") (fun contact =>
  on_field "trim" (contactData !! "message") (fun message =>
    r <~ await B (InsertRow table (insertData fullName email contact message)) ;;
    match error r with
    | Some e =>
        throw (new_Error ("Database insertion failed: " +:+ pg_message e))
    | None =>
        prop_of "id" (data r) (fun id =>
          let created := get "created_at" (data r) in
          ret (JObj [("id", id);
                     ("submittedAt",
                      if truthy created then created else JStr (now_iso E));
                     ("fullName", get "Full_Name" (data r));
                     ("email", get "Email_id" (data r))]))
    end)))).

End WithBackend.

End ContactService.

Module ContactController.

Section WithBackend.
Variable B : backend.
Variable E : env.

Open Scope eff_scope.

(** [contactRecord.id.slice(-8).toUpperCase()]: [slice] is a method of
    strings only. *)
Definition reference_of (id : json) : Eff string :=
  match id with
  | JStr s => ret ("AF-" +:+ Js.toUpperCase (Js.slice_last 8 s))
  | JUndef => throw (type_error_read "slice")
  | JNull => throw (type_error_read_of "null" "slice")
  | _ => throw (type_error_call "contactRecord.id.slice")
  end.

Definition validation_failed (errors : list json) : response :=
  Response 400
    (JObj [("success", JBool false); ("message", JStr "Validation failed");
           ("errors", JArr errors)]).

(** The catch block of [createContact]. *)
Definition on_error (e : thrown) : response :=
  let isDevelopment := String.eqb (environment E) "development" in
  Response (if Js.includes "Database" (err_message e) then 503 else 500)
    (JObj ([("success", JBool false);
            ("message", JStr "We apologize, but there was an issue submitting your contact form. Please try again later.")]
           ++ (if isDevelopment then [("error", JStr (err_message e))] else []))%list).

(** [ContactController.createContact]; [errors] is
    [validationResult(req).array()] and [req_body] the body as the
    validation chains left it. *)
Definition createContact (req_body : gmap string string)
    (errors : list verror) : Eff response :=
  try_catch
    (match errors with
     | _ :: _ => ret (validation_failed (error_entry <$> errors))
     | [] =>
         match ContactService.validateContactData req_body with
         | (_ :: _) as errs => ret (validation_failed (JStr <$> errs))
         | [] =>
             contactRecord <~ ContactService.createContact B E req_body ;;
             reference <~ reference_of (get "id" contactRecord) ;;
             ret (Response 201
                    (JObj [("success", JBool true);
                           ("message", JStr "Thank you for contacting Africure Pharma! We will get back to you soon.");
                           ("data",
                            JObj [("id", get "id" contactRecord);
                                  ("submittedAt", get "submittedAt" contactRecord);
                                  ("reference", JStr reference)])]))
         end
     end)
    (fun e => ret (on_error e)).

End WithBackend.

End ContactController.

(** ** Career flow *)

(** A file of a multipart request as multer presents it ([req.file]); the
    bytes themselves play no role in the handlers. *)
Record upload_file : Type := UploadFile {
  fieldname : string;
  originalname : string;
  mimetype : string;
  size : Z
}.

Module NodePath.

(** Index-free reading of [path.extname]: the part of the last path segment
    from its last dot on, empty when the segment has no dot or only a
    leading one. *)
Fixpoint last_segment (acc s : string) : string :=
  match s with
  | EmptyString => acc
  | String c t =>
      if Js.chr_eqb c "/" then last_segment t t else last_segment acc t
  end.

Fixpoint from_last_dot (acc : option string) (s : string) : option string :=
  match s with
  | EmptyString => acc
  | String c t =>
      if Js.chr_eqb c "." then from_last_dot (Some s) t
      else from_last_dot acc t
  end.

Definition extname (p : string) : string :=
  match last_segment p p with
  | EmptyString => ""
  | String _ rest as segment =>
      if String.eqb segment ".." then ""
      else default "" (from_last_dot None rest)
  end.

End NodePath.

Module CareerService.

Definition table : string := "Career_Applications".
Definition bucket : string := "career-applications".

(** [x.toString()] of a value that is neither undefined nor null. *)
Fixpoint js_toString (v : json) : string :=
  match v with
  | JUndef | JNull => ""
  | JBool true => "true"
  | JBool false => "false"
  | JNum z => pretty z
  | JStr s => s
  | JArr items =>
      (fix join (l : list json) : string :=
         match l with
         | [] => ""
         | [x] => js_toString x
         | x :: rest => js_toString x +:+ "," +:+ join rest
         end) items
  | JObj _ => "[object Object]"
  end.

(** [field.replace(/([A-Z])/g, ' $1').toLowerCase()] *)
Fixpoint decamel (s : string) : string :=
  match s with
  | EmptyString => EmptyString
  | String c t =>
      if Js.is_upper c then String " " (String (Js.lower_chr c) (decamel t))
      else String (Js.lower_chr c) (decamel t)
  end.

Definition requiredFields : list string :=
  ["fullName"; "email"; "phone"; "location"; "position"; "experience";
   "qualification"].

(** [CareerService.validateApplicationData] *)
Definition validateApplicationData (applicationData : gmap string string)
  : list string :=
  let when (b : bool) (m : string) : list string := if b then [m] else [] in
  let email := applicationData !! "email" in
  let phone := applicationData !! "phone" in
  (concat ((fun field =>
              let v := applicationData !! field in
              when (negb (field_truthy v) ||
                    (Js.len (Js.trim (toString v)) =? 0)%nat)
                   (decamel field +:+ " is required")) <$> requiredFields)
   ++ when (field_truthy email &&
            negb (Re.test Patterns.email_re (toString email)))
        "Please provide a valid email address"
   ++ when (field_truthy phone &&
            negb (Re.test Patterns.phone_re (toString phone)))
        "Please provide a valid phone number"
   ++ when (negb (field_truthy (applicationData !! "consent")))
        "You must agree to the terms and conditions")%list.

(** The [insertData] object of [createApplication].  The form fields are
    strings, so [consent === 'on' || consent === true] holds exactly for the
    string [on]. *)
Definition insertData (E : env)
    (fullName email phone location : string)
    (position experience qualification coverLetter consent : option string)
    (resumeUrl resumeFileName : json) : json :=
  JObj [("full_name", JStr (Js.trim fullName));
        ("email", JStr (Js.trim (Js.toLowerCase email)));
        ("phone", JStr (Js.trim phone));
        ("location", JStr (Js.trim location));
        ("position", of_option position);
        ("experience", of_option experience);
        ("qualification", of_option qualification);
        ("cover_letter",
         if field_truthy coverLetter then JStr (Js.trim (toString coverLetter))
         else JNull);
        ("resume_url", resumeUrl);
        ("resume_file_name", resumeFileName);
        ("consent_given",
         JBool (match consent with
                | Some c => String.eqb c "on"
                | None => false
                end));
        ("application_status", JStr "pending");
        ("application_date", JStr (now_iso E))].

Section WithBackend.
Variable B : backend.
Variable E : env.

Open Scope eff_scope.

(** [CareerService.uploadResume]; its catch block logs and rethrows. *)
Definition uploadResume (file : upload_file) : Eff json :=
  let fileExtension := NodePath.extname (originalname file) in
  let fileName :=
    "resume_" +:+ now_ms E +:+ "_" +:+ random_token E +:+ fileExtension in
  let filePath := "resumes/" +:+ fileName in
  r <~ await B (StorageUpload bucket filePath (mimetype file) (size file)) ;;
  match error r with
  | Some e => throw (new_Error ("File upload failed: " +:+ pg_message e))
  | None =>
      ret (JObj [("url", JStr (publicUrl E bucket filePath));
                 ("fileName", JStr (originalname file));
                 ("storagePath", JStr filePath)])
  end.

(** The insert of [createApplication]: the direct insert inside [try], the
    call of the stored procedure inside its [catch], then the test of
    [error]. *)
Definition insertApplication (row : json) : Eff json :=
  r <~ try_catch
         (await B (InsertRow table row))
         (fun insertError =>
            raw <~ await B (Rpc "insert_career_application"
                              (JObj [("application_data", row)])) ;;
            match error raw with
            | Some rawError =>
                throw (new_Error ("Database insertion failed: "
                                  +:+ pg_message rawError))
            | None => ret (Result (data raw) None JNull)
            end) ;;
  match error r with
  | Some e => throw (new_Error ("Database insertion failed: " +:+ pg_message e))
  | None => ret (data r)
  end.

(** [CareerService.createApplication]; its outer catch block logs and
    rethrows. *)
Definition createApplication (applicationData : gmap string string)
    (resumeFile : option upload_file) : Eff json :=
  let f := fun k => applicationData !! k in
  uploaded <~ match resumeFile with
              | Some file =>
                  uploadResult <~ uploadResume file ;;
                  ret (get "url" uploadResult, get "fileName" uploadResult)
              | None => ret (JNull, JNull)
              end ;;
  ContactService.on_field "trim" (f "fullName") (fun fullName =>
  ContactService.on_field "toLowerCase" (f "email") (fun email =>
  ContactService.on_field "trim" (f "phone") (fun phone =>
  ContactService.on_field "trim" (f "location") (fun location =>
    let row :=
      insertData E fullName email phone location (f "position")
        (f "experience") (f "qualification") (f "coverLetter") (f "consent")
        uploaded.1 uploaded.2 in
    data <~ insertApplication row ;;
    prop_of "id" data (fun id =>
      match id with
      | JUndef => throw (type_error_read "toString")
      | JNull => throw (type_error_read_of "null" "toString")
      | _ =>
          ret (JObj [("id", id);
                     ("applicationNumber",
                      JStr ("AC-" +:+ Js.padStart0 6 (js_toString id)));
                     ("submittedAt", get "application_date" data);
                     ("fullName", get "full_name" data);
                     ("email", get "email" data);
                     ("position", get "position" data);
                     ("status", get "application_status" data)])
      end))))).

End WithBackend.

End CareerService.

Module CareerController.

Definition allowedTypes : list string :=
  ["application/pdf"; "application/msword";
   "application/vnd.openxmlformats-officedocument.wordprocessingml.document"].

(** 5 * 1024 * 1024 *)
Definition maxSize : Z := 5 * 1024 * 1024.

Definition bad_request (message : string) (errors : list json) : response :=
  Response 400
    (JObj [("success", JBool false); ("message", JStr message);
           ("errors", JArr errors)]).

Section WithBackend.
Variable B : backend.
Variable E : env.

Open Scope eff_scope.

(** The catch block of [submitApplication]. *)
Definition on_error (e : thrown) : response :=
  let isDevelopment := String.eqb (environment E) "development" in
  Response (if Js.includes "Database" (err_message e)
               || Js.includes "upload" (err_message e)
            then 503 else 500)
    (JObj ([("success", JBool false);
            ("message", JStr "We apologize, but there was an issue submitting your application. Please try again later.")]
           ++ (if isDevelopment then [("error", JStr (err_message e))] else []))%list).

(** [CareerController.submitApplication]; [errors] is
    [validationResult(req).array()], [req_body] the body as the validation
    chains left it, [req_file] the file multer stored in memory. *)
Definition submitApplication (req_body : gmap string string)
    (req_file : option upload_file) (errors : list verror) : Eff response :=
  try_catch
    (match errors with
     | _ :: _ =>
         ret (bad_request "Validation failed" (error_entry <$> errors))
     | [] =>
         match CareerService.validateApplicationData req_body with
         | (_ :: _) as errs => ret (bad_request "Validation failed" (JStr <$> errs))
         | [] =>
             match req_file with
             | None =>
                 ret (bad_request "Resume file is required"
                        [JStr "Please upload your resume (PDF, DOC, or DOCX format)"])
             | Some resumeFile =>
                 if negb (existsb (String.eqb (mimetype resumeFile)) allowedTypes)
                 then ret (bad_request "Invalid file type"
                             [JStr "Please upload a PDF, DOC, or DOCX file"])
                 else if (maxSize <? size resumeFile)%Z
                 then ret (bad_request "File too large"
                             [JStr "Resume file must be less than 5MB"])
                 else
                   application <~
                     CareerService.createApplication B E req_body
                       (Some resumeFile) ;;
                   ret (Response 201
                          (JObj [("success", JBool true);
                                 ("message", JStr "Thank you for your application! We have received your details and will get back to you soon.");
                                 ("data",
                                  JObj [("applicationNumber", get "applicationNumber" application);
                                        ("id", get "id" application);
                                        ("submittedAt", get "submittedAt" application);
                                        ("position", get "position" application);
                                        ("status", get "status" application)])]))
             end
         end
     end)
    (fun e => ret (on_error e)).

End WithBackend.

(** The list of [getAvailablePositions] (the dash of the label of
    manager-procurement is outside the character model and written as a
    hyphen). *)
Definition positions : list (string * string) :=
  [("supply-chain", "Supply Chain Dy. Managers");
   ("executive-ceo", "Executive Assistant to CEO");
   ("executive-directors", "Executive Assistant to Directors");
   ("manager-ehs", "Manager - EHS");
   ("manager-hrd", "Manager HRD");
   ("manager-accounts", "Manager Accounts");
   ("manager-regulatory", "Manager Regulatory Affairs");
   ("manager-procurement", "Manager - API Procurement");
   ("trainee-procurement", "Trainee- Procurement");
   ("business-development", "Business Development Manager");
   ("manager-engineering", "Manager-Engineering");
   ("deputy-qa", "Deputy Manager-QA Validation");
   ("other", "Other")].

(** [CareerController.getAvailablePositions]: nothing in its [try] block
    can throw. *)
Definition getAvailablePositions : response :=
  Response 200
    (JObj [("success", JBool true);
           ("message", JStr "Available positions retrieved successfully");
           ("data",
            JArr ((fun p => JObj [("value", JStr p.1); ("label", JStr p.2)])
                  <$> positions))]).

End CareerController.

(** ** Validation rules of the routes *)

Module Rules.

Section WithValidator.
Variable V : validatorjs.

Definition required (field : string) (steps : list step) : chain :=
  Chain field false steps.

(** [validateContactForm] (middleware/validation.js) *)
Definition validateContactForm : list chain :=
  [ required "fullName"
      [ Sanitize Js.trim;
        Check notEmpty "Full name is required";
        Check (isLength 2 (Some 255))
          "Full name must be between 2 and 255 characters";
        Check (matches Patterns.contact_name_re)
          "Full name can only contain letters, spaces, hyphens, dots, and apostrophes" ];
    required "email"
      [ Sanitize Js.trim;
        Check notEmpty "Email is required";
        Check (isEmail V) "Please provide a valid email address";
        Sanitize (normalizeEmail V);
        Check (isLength 0 (Some 255)) "Email must not exceed 255 characters" ];
    required "contact"
      [ Sanitize Js.trim;
        Check notEmpty "Contact number is required";
        Check (matches Patterns.contact_number_re)
          "Please provide a valid contact number (10-16 digits)";
        Check (isLength 10 (Some 16))
          "Contact number must be between 10 and 16 digits" ];
    required "message"
      [ Sanitize Js.trim;
        Check notEmpty "Message is required";
        Check (isLength 10 (Some 2000))
          "Message must be between 10 and 2000 characters";
        Sanitize escape ] ].

Definition validPositions : list string :=
  ["supply-chain"; "executive-ceo"; "executive-directors"; "manager-ehs";
   "manager-hrd"; "manager-accounts"; "manager-regulatory";
   "manager-procurement"; "trainee-procurement"; "business-development";
   "manager-engineering"; "deputy-qa"; "other"].

Definition validExperience : list string :=
  ["0-1"; "2-3"; "4-5"; "6-7"; "8-10"; "10+"].

Definition validQualifications : list string :=
  ["bpharm"; "mpharm"; "mba"; "bsc"; "msc"; "bcom"; "mcom"; "ca";
   "engineering"; "other"].

Definition position_chain : chain :=
  required "position"
    [ Check notEmpty "Position is required";
      Check (isIn validPositions) "Please select a valid position" ].

(** [validateCareerApplication] (routes/careerRoutes.js) *)
Definition validateCareerApplication : list chain :=
  [ required "fullName"
      [ Sanitize Js.trim;
        Check notEmpty "Full name is required";
        Check (isLength 2 (Some 100))
          "Full name must be between 2 and 100 characters";
        Check (matches Patterns.career_name_re)
          "Full name can only contain letters, spaces, dots, hyphens, and apostrophes" ];
    required "email"
      [ Sanitize Js.trim;
        Check notEmpty "Email is required";
        Check (isEmail V) "Please provide a valid email address";
        Sanitize (normalizeEmail V) ];
    required "phone"
      [ Sanitize Js.trim;
        Check notEmpty "Phone number is required";
        Check (isLength 10 (Some 15))
          "Phone number must be between 10 and 15 digits";
        Check (matches Patterns.phone_re) "Please provide a valid phone number" ];
    required "location"
      [ Sanitize Js.trim;
        Check notEmpty "Current location is required";
        Check (isLength 2 (Some 100))
          "Location must be between 2 and 100 characters" ];
    position_chain;
    required "experience"
      [ Check notEmpty "Experience is required";
        Check (isIn validExperience) "Please select a valid experience range" ];
    required "qualification"
      [ Check notEmpty "Qualification is required";
        Check (isIn validQualifications) "Please select a valid qualification" ];
    Chain "coverLetter" true
      [ Sanitize Js.trim;
        Check (isLength 0 (Some 2000))
          "Cover letter must not exceed 2000 characters" ];
    required "consent"
      [ Check notEmpty "You must agree to the terms and conditions" ] ].

End WithValidator.

End Rules.

(** ** Rate limiter *)

Module RateLimit.

(** The options the routes pass to express-rate-limit. *)
Record options : Type := Options {
  windowMs : Z;
  max : nat;
  retryAfter : Z;
  message : string
}.

(** [contactRateLimit]: 15 minutes, 3 requests. *)
Definition contactOptions : options :=
  Options (15 * 60 * 1000) 3 900
    "Too many contact form submissions from this IP, please try again after 15 minutes.".

(** [careerApplicationRateLimit]: one hour, 3 requests. *)
Definition careerOptions : options :=
  Options (60 * 60 * 1000) 3 (60 * 60)
    "Too many career applications from this IP. Please try again later.".

(** [skip] of [contactRateLimit]: no limiting in development. *)
Definition contactSkip (E : env) : bool :=
  bool_decide (node_env E = Some "development").

(** The career limiter has no [skip]. *)
Definition careerSkip (E : env) : bool := false.

(** The counter of one client address. *)
Record client : Type := Client {
  totalHits : nat;
  resetTime : Z
}.

(** Modelled from the spec: the counter store of express-rate-limit is not
    part of the repository.  Section 4.3 of the specification: a mapping
    from client address to a fixed-size time window and a counter of the
    requests in that window, with fixed-bucket accounting: the first request
    of a client opens a window of [windowMs], a request that arrives once the
    window has elapsed opens a new one. *)
Definition increment (o : options) (now : Z) (key : string)
    (store : gmap string client) : gmap string client * client :=
  let fresh := Client 1 (now + windowMs o) in
  let c :=
    match store !! key with
    | Some c =>
        if (now <? resetTime c)%Z then Client (S (totalHits c)) (resetTime c)
        else fresh
    | None => fresh
    end in
  (<[key := c]> store, c).

Inductive decision : Type :=
| Admit
| Reject (c : client).

(** Modelled from the spec: a request is admitted if the counter is below
    the ceiling, otherwise it is rejected; a skipped request is admitted
    and not counted. *)
Definition limit (o : options) (skip : bool) (now : Z) (key : string)
    (store : gmap string client) : gmap string client * decision :=
  if skip then (store, Admit)
  else
    let '(store', c) := increment o now key store in
    (store', if (max o <? totalHits c)%nat then Reject c else Admit).

(** The body sent for a rejected contact request: the [message] option. *)
Definition contactTooMany : response :=
  Response 429
    (JObj [("success", JBool false); ("message", JStr (message contactOptions));
           ("retryAfter", JNum (retryAfter contactOptions))]).

(** [handler] of [careerApplicationRateLimit]. *)
Definition careerTooMany (E : env) : response :=
  Response 429
    (JObj [("success", JBool false); ("message", JStr (message careerOptions));
           ("retryAfter", JNum (retryAfter careerOptions));
           ("timestamp", JStr (now_iso E))]).

(** Time left in the window of a rejected request, in seconds, rounded
    up. *)
Definition remaining_seconds (now : Z) (c : client) : Z :=
  (resetTime c - now + 999) / 1000.

(** A client's requests at the given instants, in order: the decisions. *)
Fixpoint serve (o : options) (skip : bool) (key : string) (times : list Z)
    (store : gmap string client) : list decision :=
  match times with
  | [] => []
  | now :: rest =>
      let '(store', d) := limit o skip now key store in
      d :: serve o skip key rest store'
  end.

Definition admitted (d : decision) : bool :=
  match d with
  | Admit => true
  | Reject _ => false
  end.

End RateLimit.

(** ** File intake (multer, as configured in routes/careerRoutes.js) *)

Module Multer.

Inductive intake_error : Type :=
| LIMIT_FILE_SIZE
| LIMIT_FILE_COUNT
| LIMIT_UNEXPECTED_FILE
| FilterError (message : string).

Definition fileSizeLimit : Z := 5 * 1024 * 1024.

(** [fileFilter] *)
Definition fileFilter (file : upload_file) : option string :=
  if existsb (String.eqb (mimetype file)) CareerController.allowedTypes
  then None
  else Some "Invalid file type. Please upload PDF, DOC, or DOCX files only.".

(** [upload.single('resume')] with [limits: {fileSize, files: 1}] on the
    file parts of the request, in the order they arrive.  These are the
    refusals multer raises for file parts; its errors for the field parts
    of the body (a field name or value that is too long, too many fields or
    parts) and the errors of the multipart parser depend on the bytes of
    the request and are not produced here: the fields of a request are
    those multer accepted. *)
Definition single (parts : list upload_file)
  : intake_error + option upload_file :=
  match parts with
  | [] => inr None
  | file :: more =>
      if negb (String.eqb (fieldname file) "resume") then inl LIMIT_UNEXPECTED_FILE
      else match fileFilter file with
           | Some m => inl (FilterError m)
           | None =>
               if (fileSizeLimit <? size file)%Z then inl LIMIT_FILE_SIZE
               else match more with
                    | [] => inr (Some file)
                    | _ :: _ => inl LIMIT_FILE_COUNT
                    end
           end
  end.

Definition error_message (e : intake_error) : string :=
  match e with
  | LIMIT_FILE_SIZE => "File too large"
  | LIMIT_FILE_COUNT => "Too many files"
  | LIMIT_UNEXPECTED_FILE => "Unexpected field"
  | FilterError m => m
  end.

(** The error-handling middleware at the end of routes/careerRoutes.js;
    [None] stands for [next(error)], the application's error handler. *)
Definition handle_error (e : intake_error) : option response :=
  match e with
  | LIMIT_FILE_SIZE =>
      Some (CareerController.bad_request "File too large"
              [JStr "Resume file must be less than 5MB"])
  | LIMIT_FILE_COUNT =>
      Some (CareerController.bad_request "Too many files"
              [JStr "Please upload only one resume file"])
  | _ =>
      if Js.includes "Invalid file type" (error_message e)
      then Some (CareerController.bad_request "Invalid file type"
                   [JStr "Please upload a PDF, DOC, or DOCX file"])
      else None
  end.

End Multer.

(** ** Routes *)

Module Routes.

(** What a route produces: a response, or an error passed on to the
    application's error handler. *)
Inductive served : Type :=
| Sent (r : response)
| PassedOn (message : string).

(** A request: the client address, the time of arrival, the fields of the
    parsed body and the file parts.  [req_body] holds the body of a request
    whose fields are all strings; a body in which a field holds an array, an
    object or another JSON value ([express.json] delivers those, multer for
    repeated or bracketed field names) is not a request of this type. *)
Record request : Type := Request {
  ip : string;
  at_time : Z;
  req_body : gmap string string;
  files : list upload_file
}.

Section WithEnvironment.
Variable V : validatorjs.
Variable B : backend.
Variable E : env.

(** [POST /api/contact]: contactRateLimit, sanitizeInput,
    validateContactForm, ContactController.createContact. *)
Definition post_contact (store : gmap string RateLimit.client) (req : request)
  : gmap string RateLimit.client * served * list call :=
  match RateLimit.limit RateLimit.contactOptions (RateLimit.contactSkip E)
          (at_time req) (ip req) store with
  | (store', RateLimit.Reject _) => (store', Sent RateLimit.contactTooMany, [])
  | (store', RateLimit.Admit) =>
      let body1 := Sanitizer.sanitizeInput (req_body req) in
      let '(body2, errors) := run_chains (Rules.validateContactForm V) body1 in
      match run (ContactController.createContact B E body2 errors) with
      | (Ok r, trace) => (store', Sent r, trace)
      | (Throw e, trace) => (store', PassedOn (err_message e), trace)
      end
  end.

(** [POST /api/careers/apply]: careerApplicationRateLimit,
    upload.single('resume'), sanitizeCareerInput, validateCareerApplication,
    CareerController.submitApplication, and the router's error middleware. *)
Definition post_careers_apply (store : gmap string RateLimit.client)
    (req : request) : gmap string RateLimit.client * served * list call :=
  match RateLimit.limit RateLimit.careerOptions (RateLimit.careerSkip E)
          (at_time req) (ip req) store with
  | (store', RateLimit.Reject _) => (store', Sent (RateLimit.careerTooMany E), [])
  | (store', RateLimit.Admit) =>
      match Multer.single (files req) with
      | inl e =>
          (store',
           match Multer.handle_error e with
           | Some r => Sent r
           | None => PassedOn (Multer.error_message e)
           end, [])
      | inr req_file =>
          let body1 := Sanitizer.sanitizeCareerInput (req_body req) in
          let '(body2, errors) :=
            run_chains (Rules.validateCareerApplication V) body1 in
          match run (CareerController.submitApplication B E body2 req_file errors) with
          | (Ok r, trace) => (store', Sent r, trace)
          | (Throw e, trace) => (store', PassedOn (err_message e), trace)
          end
      end
  end.

End WithEnvironment.

End Routes.

(** ** Admin list operations *)

Module Listing.

(** The options of a list operation after the defaults of the
    destructuring ([page = 1], [limit = 10], ...). *)
Record list_options : Type := ListOptions {
  page : Z;
  limit : Z;
  sortBy : string;
  sortOrder : string;
  filter_status : option string;
  filter_position : option string
}.

(** [ToNumber] on the values a count can take; [None] is NaN. *)
Definition to_number (v : json) : option Z :=
  match v with
  | JNum z => Some z
  | JNull => Some 0%Z
  | JBool b => Some (if b then 1 else 0)%Z
  | _ => None
  end.

(** [Math.ceil(count / limit)]; NaN and the infinities of a division by
    zero are the values JSON writes as null. *)
Definition ceil_div (count : json) (limit : Z) : json :=
  match to_number count with
  | Some c => if (limit =? 0)%Z then JNull else JNum (- ((- c) / limit))
  | None => JNull
  end.

Definition or_empty (data : json) : json :=
  if truthy data then data else JArr [].

Definition pagination (o : list_options) (count : json) : json :=
  JObj [("page", JNum (page o)); ("limit", JNum (limit o));
        ("total", count); ("totalPages", ceil_div count (limit o))].

Definition eq_filter (column : string) (v : option string)
  : list (string * string) :=
  if field_truthy v then [(column, toString v)] else [].

Section WithBackend.
Variable B : backend.

Open Scope eff_scope.

(** The query of [CareerService.getAllApplications]. *)
Definition applications_query (o : list_options) : select_query :=
  let offset := ((page o - 1) * limit o)%Z in
  Select CareerService.table "*" false false
    (Some (sortBy o, String.eqb (sortOrder o) "asc"))
    (Some (offset, offset + limit o - 1)%Z)
    (eq_filter "application_status" (filter_status o)
     ++ eq_filter "position" (filter_position o))%list.

(** [CareerService.getAllApplications] *)
Definition getAllApplications (o : list_options) : Eff json :=
  r <~ await B (Query (applications_query o)) ;;
  match error r with
  | Some e => throw (new_Error ("Failed to fetch applications: " +:+ pg_message e))
  | None =>
      ret (JObj [("applications", or_empty (data r));
                 ("pagination", pagination o (count r))])
  end.

(** The query of [ContactService.getAllContacts]. *)
Definition contacts_query (o : list_options) : select_query :=
  let offset := ((page o - 1) * limit o)%Z in
  Select ContactService.table "*" false false
    (Some (sortBy o, String.eqb (sortOrder o) "asc"))
    (Some (offset, offset + limit o - 1)%Z)
    [].

(** [ContactService.getAllContacts] *)
Definition getAllContacts (o : list_options) : Eff json :=
  r <~ await B (Query (contacts_query o)) ;;
  match error r with
  | Some e => throw (new_Error ("Failed to fetch contacts: " +:+ pg_message e))
  | None =>
      ret (JObj [("contacts", or_empty (data r));
                 ("pagination", pagination o (count r))])
  end.

End WithBackend.

(** The query of the count of [getApplicationStats], the sibling that asks
    the backend for a total. *)
Definition stats_count_query : select_query :=
  Select CareerService.table "*" true true None None [].

(** The rows of an inclusive range. *)
Definition rows_in_range (rows : list json) (range : option (Z * Z))
  : list json :=
  match range with
  | Some (from, to) =>
      take (Z.to_nat (to - from + 1)) (drop (Z.to_nat from) rows)
  | None => rows
  end.

(** A backend holding the rows of one table, already in the order a query
    asks for.  It answers a query as the client library reports a PostgREST
    answer: the rows of the requested inclusive range (none for a head
    request), and the total only when the query carries the count option;
    without it the [count] of the result is null. *)
Definition table_backend (rows : list json) : backend :=
  fun c =>
    match c with
    | Query q =>
        Resolved
          (Result
             (if sel_head q then JNull
              else JArr (rows_in_range rows (sel_range q)))
             None
             (if sel_count_exact q then JNum (Z.of_nat (length rows))
              else JNull))
    | _ => Resolved (Result JNull None JNull)
    end.

End Listing.

(** ** Health check *)

Module Health.

Section WithEnvironment.
Variable E : env.

Open Scope eff_scope.

(** [ContactController.healthCheck], for a reachability probe [probe]
    ([testSupabaseConnection]) that either answers or throws. *)
Definition healthCheck (probe : Eff bool) : Eff response :=
  try_catch
    (dbConnected <~ probe ;;
     let health_status := if dbConnected then "healthy" else "degraded" in
     let health :=
       JObj [("status", JStr health_status);
             ("timestamp", JStr (now_iso E));
             ("services",
              JObj [("database", JStr (if dbConnected then "up" else "down"));
                    ("api", JStr "up")]);
             ("environment", JStr (environment E));
             ("version", JStr "1.0.0")] in
     ret (Response (if dbConnected then 200 else 503)
            (JObj [("success", JBool true);
                   ("message", JStr ("Service is " +:+ health_status));
                   ("data", health)])))
    (fun e =>
       ret (Response 503
              (JObj [("success", JBool false);
                     ("message", JStr "Service unavailable");
                     ("data",
                      JObj [("status", JStr "unhealthy");
                            ("timestamp", JStr (now_iso E));
                            ("error", JStr (err_message e))])]))).

End WithEnvironment.

Section Probe.
Variable B : backend.

Open Scope eff_scope.

Definition maxRetries : nat := 3.

(** The query of [SupabaseConfig.testConnection]. *)
Definition probe_query : select_query :=
  Select ContactService.table "count" true true None None [].

(** [SupabaseConfig.testConnection]: a returned error answers false; a
    thrown error counts an attempt and retries while fewer than
    [maxRetries] attempts were made.  [budget] bounds the retries of the
    model; [connectionAttempts] is the field of the singleton. *)
Fixpoint testConnection_from (budget : nat) (connectionAttempts : nat)
  : Eff (bool * nat) :=
  try_catch
    (r <~ await B (Query probe_query) ;;
     match error r with
     | Some _ => ret (false, connectionAttempts)
     | None => ret (true, 0)
     end)
    (fun _ =>
       let attempts := S connectionAttempts in
       if (attempts <? maxRetries)%nat
       then match budget with
            | S budget' => testConnection_from budget' attempts
            | O => ret (false, attempts)
            end
       else ret (false, attempts)).

Definition testSupabaseConnection (connectionAttempts : nat) : Eff bool :=
  r <~ testConnection_from maxRetries connectionAttempts ;; ret r.1.

End Probe.

End Health.

(** ** Reference inputs

    Instances used to run the flows on concrete requests. *)

Module Sample.

(** An instance of the two library functions: addresses of the shape
    local@domain.tld are accepted, and normalising lower-cases (what the
    library does to an address of a provider it has no special rule for). *)
Definition validator : validatorjs :=
  ValidatorJs (Re.test Patterns.email_re) Js.toLowerCase.

Definition storage_url (bucket path : string) : string :=
  "https://project.supabase.co/storage/v1/object/public/"
  +:+ bucket +:+ "/" +:+ path.

Definition production : env :=
  Env "2024-01-15T10:30:00.000Z" "1705314600000" "k3j9x2m5q"
    (Some "production") storage_url.

Definition development : env :=
  Env "2024-01-15T10:30:00.000Z" "1705314600000" "k3j9x2m5q"
    (Some "development") storage_url.

Definition fields_of (row : json) : list (string * json) :=
  match row with
  | JObj fields => fields
  | _ => []
  end.

(** A backend that accepts every call: an insert returns the row with the
    given id and a creation time, the stored procedure returns its table of
    one row, an upload succeeds. *)
Definition accepting (id : json) : backend :=
  fun c =>
    match c with
    | InsertRow _ row =>
        Resolved (Result
          (JObj (("id", id) :: ("created_at", JStr "2024-01-15T10:30:01.000Z")
                 :: fields_of row)) None JNull)
    | Rpc _ args =>
        Resolved (Result
          (JArr [JObj (("id", id) :: fields_of (get "application_data" args))])
          None JNull)
    | StorageUpload _ path _ _ =>
        Resolved (Result (JObj [("path", JStr path)]) None JNull)
    | Query _ => Resolved (Result (JArr []) None JNull)
    end.

(** The same backend, except that the direct insert is answered with the
    error result of a row-level-security denial. *)
Definition rls_denied : pg_error :=
  PgError "42501" "new row violates row-level security policy for table Career_Applications".

Definition denying (id : json) : backend :=
  fun c =>
    match c with
    | InsertRow _ _ => Resolved (Result JNull (Some rls_denied) JNull)
    | _ => accepting id c
    end.

(** The same backend, except that the direct insert throws. *)
Definition throwing (id : json) : backend :=
  fun c =>
    match c with
    | InsertRow _ _ => Rejected (Thrown "TypeError" "fetch failed")
    | _ => accepting id c
    end.

Definition john_doe : gmap string string :=
  {[ "fullName" := "John Doe";
     "email" := "JOHN@Example.com";
     "contact" := "+14155550100";
     "message" := "Hello, I have a question about your products." ]}.

Definition application : gmap string string :=
  {[ "fullName" := "John Doe";
     "email" := "john.doe@test.com";
     "phone" := "+1234567890";
     "location" := "Test City";
     "position" := "supply-chain";
     "experience" := "2-3";
     "qualification" := "bpharm";
     "coverLetter" := "This is a test cover letter.";
     "consent" := "on" ]}.

Definition resume : upload_file :=
  UploadFile "resume" "test-resume.pdf" "application/pdf" 312.

Definition twenty_five_rows : list json :=
  (fun n => JObj [("id", JNum (Z.of_nat n))]) <$> seq 1 25.

(** The row the contact flow builds for [john_doe]. *)
Definition john_row : json :=
  ContactService.insertData "John Doe" "john@example.com" "+14155550100"
    "Hello, I have a question about your products.".

Definition client_address : string := "203.0.113.9".

(** Contact submissions within the bounds of the data model: a name with
    punctuation, a number with a leading zero, a message of 1200
    characters. *)
Definition punctuated_name : gmap string string :=
  <["fullName" := "Anne-Marie O'Neil"]> john_doe.

Definition leading_zero : gmap string string :=
  <["contact" := "0123456789"]> john_doe.

Definition long_message : gmap string string :=
  <["message" := Js.replicate_chr 1200 "a"]> john_doe.

Definition uuid : string := "3f2b8c1e-7d4a-4e2b-9a51-0c9de2a1b7f4".

(** The reference application without its consent field. *)
Definition without_consent : gmap string string :=
  delete "consent" application.

Definition text_file : upload_file :=
  UploadFile "resume" "notes.txt" "text/plain" 2048.

End Sample.

(** The codes of a positions response: the [value] fields of its data. *)
Definition position_values (r : response) : list string :=
  match get "data" (body r) with
  | JArr items =>
      omap (fun item => match get "value" item with
                        | JStr s => Some s
                        | _ => None
                        end) items
  | _ => []
  end.

(** The errors an express-validator chain reports for one value of its
    field. *)
Definition chain_errors (c : chain) (v : string) : list verror :=
  (run_chain c {[ chain_field c := v ]}).2.

(** The two submission flows, to state what they share. *)
Inductive flow : Type :=
| Contact
| Career.

Definition limiter_options (f : flow) : RateLimit.options :=
  match f with
  | Contact => RateLimit.contactOptions
  | Career => RateLimit.careerOptions
  end.

Definition limiter_skip (f : flow) (E : env) : bool :=
  match f with
  | Contact => RateLimit.contactSkip E
  | Career => RateLimit.careerSkip E
  end.

Definition too_many (f : flow) (E : env) : response :=
  match f with
  | Contact => RateLimit.contactTooMany
  | Career => RateLimit.careerTooMany E
  end.

Definition post (f : flow) (V : validatorjs) (B : backend) (E : env)
    (store : gmap string RateLimit.client) (req : Routes.request)
  : gmap string RateLimit.client * Routes.served * list call :=
  match f with
  | Contact => Routes.post_contact V B E store req
  | Career => Routes.post_careers_apply V B E store req
  end.

(** A contact number in the words of the data model: an optional leading
    plus sign, then digits, the first of them not zero. *)
Definition after_plus (s : string) : string :=
  match s with
  | String c t => if Js.chr_eqb c "+" then t else s
  | EmptyString => EmptyString
  end.

Definition number_shape (s : string) : bool :=
  match after_plus s with
  | String d ds => Js.in_range 49 57 d && Js.all Js.is_digit ds
  | EmptyString => false
  end.

(** How many of a list of decisions admit. *)
Definition admitted_count (ds : list RateLimit.decision) : nat :=
  length (filter (fun d => RateLimit.admitted d = true) ds).

(** Does the [errors] array of a response hold an entry for a field. *)
Definition entry_for (field : string) (item : json) : bool :=
  match get "field" item with
  | JStr f => String.eqb f field
  | _ => false
  end.

Definition has_error_for (field : string) (r : response) : bool :=
  match get "errors" (body r) with
  | JArr items => existsb (entry_for field) items
  | _ => false
  end.

(** * Further models *)

(** A character that none of the sanitizer's patterns needs: not a
    less-than sign, a colon or an equals sign. *)
Definition plain_chr (c : ascii) : bool :=
  negb (Js.chr_eqb c "<" || Js.chr_eqb c ":" || Js.chr_eqb c "=").

(** [s'] is what is left of [s] after some prefix. *)
Definition tail_of (s' s : string) : Prop := exists a, s = a +:+ s'.

(** No match of [r] starts at the head of a string of [ok] characters,
    whatever follows the match. *)
Definition dead (ok : ascii -> bool) (r : Re.regex) : Prop :=
  forall (A : Type) prev s (k : option ascii -> string -> option A),
    Js.all ok s = true -> Re.rmatch r prev s k = None.

(** The service-level messages of the contact flow that a submission can
    still meet after the route's validation chains accepted it. *)
Definition contact_residual : list string :=
  ["Full name must not exceed 50 characters";
   "Full name can only contain letters and spaces";
   "Please provide a valid email address";
   "Message must not exceed 1000 characters"].

(** The same for the career flow. *)
Definition career_residual : list string :=
  ["email is required"; "Please provide a valid email address"].

(** The characters [escape] replaces, the ampersand apart. *)
Definition html_free (c : ascii) : bool :=
  negb (Js.chr_eqb c "<" || Js.chr_eqb c ">" || Js.chr_eqb c dquote
        || Js.chr_eqb c "'" || Js.chr_eqb c "/" || Js.chr_eqb c "\"
        || Js.chr_eqb c "`").

Definition not_upper (c : ascii) : bool := negb (Js.is_upper c).

Definition not_space (c : ascii) : bool := negb (Js.is_space c).

(** Every character a match of [r] consumes satisfies [q]. *)
Fixpoint consumes (q : ascii -> bool) (r : Re.regex) : Prop :=
  match r with
  | Re.Chr p => forall c, p c = true -> q c = true
  | Re.Cat r1 r2 | Re.Alt r1 r2 => consumes q r1 /\ consumes q r2
  | Re.Star r1 => consumes q r1
  | _ => True
  end.

(** A row of the contact table within the bounds of the service: a name
    of 2 to 50 letters and white-space characters, an email without
    upper-case letters and white space, a number of 10 to 16 characters made
    of an optional plus sign and digits, the first not zero, and a message
    of 10 to 1000 characters in which none of the less-than and
    greater-than signs, the double and single quotes, the slash, the
    backslash and the backquote occurs: [escape] has replaced them by
    entities, whose ampersand the message can hold. *)
Definition valid_contact_row (row : json) : Prop :=
  exists n e c m,
    row = JObj [("Full_Name", JStr n); ("Email_id", JStr e);
                ("Contact", JStr c); ("Enter_Message", JStr m)] /\
    (2 <= Js.len n <= 50 /\ Js.all Patterns.config_name_chr n = true) /\
    (e <> "" /\ Js.all not_upper e = true /\ Js.all not_space e = true) /\
    (number_shape c = true /\ 10 <= Js.len c <= 16) /\
    (10 <= Js.len m <= 1000 /\ Js.all html_free m = true).

(** A row of the applications table as the career route builds it: the
    fields within the bounds of the route's rules, the status pending and
    the application date the current time. *)
Definition valid_application_row (E : env) (row : json) : Prop :=
  (exists n, get "full_name" row = JStr n /\ 2 <= Js.len n <= 100 /\
             Js.all Patterns.name_chr n = true) /\
  (exists e, get "email" row = JStr e /\ e <> "" /\
             Js.all not_upper e = true /\ Js.all not_space e = true) /\
  (exists ph, get "phone" row = JStr ph /\ 10 <= Js.len ph <= 15 /\
              Js.all Patterns.phone_chr (after_plus ph) = true) /\
  (exists l, get "location" row = JStr l /\ 2 <= Js.len l <= 100) /\
  (exists p, get "position" row = JStr p /\ In p Rules.validPositions) /\
  (exists x, get "experience" row = JStr x /\ In x Rules.validExperience) /\
  (exists q, get "qualification" row = JStr q /\
             In q Rules.validQualifications) /\
  (get "cover_letter" row = JNull \/
   exists t, get "cover_letter" row = JStr t /\ 1 <= Js.len t <= 2000) /\
  (exists given, get "consent_given" row = JBool given) /\
  get "application_status" row = JStr "pending" /\
  get "application_date" row = JStr (now_iso E).

(** The storage call of [uploadResume] for a file. *)
Definition resume_path (E : env) (file : upload_file) : string :=
  "resumes/" +:+ ("resume_" +:+ now_ms E +:+ "_" +:+ random_token E
                  +:+ NodePath.extname (originalname file)).

Definition resume_upload (E : env) (file : upload_file) : call :=
  StorageUpload CareerService.bucket (resume_path E file) (mimetype file)
    (size file).

(** The call of the stored procedure for a row. *)
Definition procedure_call (row : json) : call :=
  Rpc "insert_career_application" (JObj [("application_data", row)]).

(** [ContactController.testConnection], for a reachability probe that
    either answers or throws. *)
Definition testConnection (E : env) (probe : Eff bool) : Eff response :=
  try_catch
    (bind probe (fun isConnected =>
       ret (Response 200
              (JObj [("success", JBool true);
                     ("message",
                      JStr (if isConnected : bool
                            then "Database connection successful"
                            else "Database connection failed"));
                     ("data",
                      JObj [("connected", JBool isConnected);
                            ("timestamp", JStr (now_iso E));
                            ("database", JStr "Supabase")])]))))
    (fun e =>
       ret (Response 500
              (JObj [("success", JBool false);
                     ("message", JStr "Failed to test database connection");
                     ("data",
                      JObj [("connected", JBool false);
                            ("timestamp", JStr (now_iso E));
                            ("error", JStr (err_message e))])]))).

(** The rows a list operation returns for a page against a table. *)
Definition page_of (rows : list json) (limit page : nat) : list json :=
  Listing.rows_in_range rows
    (sel_range
       (Listing.applications_query
          (Listing.ListOptions (Z.of_nat page) (Z.of_nat limit)
             "application_date" "desc" None None))).

(** The row the career flow builds for the reference application and its
    resume, and the row a backend that assigns the id 7 answers with. *)
Definition application_row : json :=
  CareerService.insertData Sample.production "John Doe" "john.doe@test.com"
    "+1234567890" "Test City"
    (Sample.application !! "position") (Sample.application !! "experience")
    (Sample.application !! "qualification")
    (Sample.application !! "coverLetter") (Sample.application !! "consent")
    (JStr (publicUrl Sample.production CareerService.bucket
             (resume_path Sample.production Sample.resume)))
    (JStr (originalname Sample.resume)).

Definition application_stored : json :=
  JObj (("id", JNum 7) :: ("created_at", JStr "2024-01-15T10:30:01.000Z")
        :: Sample.fields_of application_row).

(** ** Admin operations

    The read, update and statistics operations of the career service and
    the career controller's endpoints over them.  Their requests use
    filters and verbs the submission flows do not, so they have a request
    type and a trace of their own; results and thrown errors are those of
    [Effects]. *)

Module Admin.

Inductive filter : Type :=
| FEq (column : string) (value : json)
| FNotIs (column : string) (value : json)
| FGte (column value : string)
| FLt (column value : string).

Inductive verb : Type :=
| SelectRows (columns : string) (count_exact head : bool)
| UpdateRows (values : json).

(** [.from(table).<verb>.<filters>], with [.select()] after a write and
    [.single()]. *)
Record request : Type := Request {
  on_table : string;
  does : verb;
  filters : list filter;
  returning : bool;
  single : bool
}.

Definition backend : Type := request -> reply.

Definition Eff (A : Type) : Type := list request -> outcome A * list request.

Definition ret {A} (a : A) : Eff A := fun tr => (Ok a, tr).

Definition throw {A} (e : thrown) : Eff A := fun tr => (Throw e, tr).

Definition bind {A B} (m : Eff A) (f : A -> Eff B) : Eff B :=
  fun tr =>
    match m tr with
    | (Ok a, tr') => f a tr'
    | (Throw e, tr') => (Throw e, tr')
    end.

Definition try_catch {A} (m : Eff A) (h : thrown -> Eff A) : Eff A :=
  fun tr =>
    match m tr with
    | (Ok a, tr') => (Ok a, tr')
    | (Throw e, tr') => h e tr'
    end.

Definition await (B : backend) (q : request) : Eff result :=
  fun tr =>
    match B q with
    | Resolved r => (Ok r, (tr ++ [q])%list)
    | Rejected e => (Throw e, (tr ++ [q])%list)
    end.

Definition run {A} (m : Eff A) : outcome A * list request := m [].

(** [if (error) throw new Error(prefix + error.message); return value] *)
Definition or_throw {A} (prefix : string) (r : result) (value : A) : Eff A :=
  match error r with
  | Some e => throw (new_Error (prefix +:+ pg_message e))
  | None => ret value
  end.

(** The error of a [.single()] request that found no row. *)
Definition no_rows : string := "PGRST116".

(** The lookup of one row by its id, as [getApplicationById] does it; the
    contact service's [getContactById] is the same code over its table, with
    its wording. *)
Definition by_id (table : string) (id : json) : request :=
  Request table (SelectRows "*" false false) [FEq "id" id] false true.

Definition get_by_id (B : backend) (table what What : string) (id : json)
  : Eff json :=
  bind (await B (by_id table id)) (fun r =>
    match error r with
    | Some e =>
        if String.eqb (pg_code e) no_rows
        then throw (new_Error (What +:+ " not found"))
        else throw (new_Error ("Failed to fetch " +:+ what +:+ ": "
                               +:+ pg_message e))
    | None => ret (data r)
    end).

Definition updating (table : string) (values id : json) : request :=
  Request table (UpdateRows values) [FEq "id" id] true true.

Definition counting (table : string) (fs : list filter) : request :=
  Request table (SelectRows "*" true true) fs false false.

(** [new Date().toISOString().split('T')[0]]: what precedes the first T. *)
Fixpoint before_T (s : string) : string :=
  match s with
  | EmptyString => EmptyString
  | String c t => if Js.chr_eqb c "T" then EmptyString else String c (before_T t)
  end.

(** The two filters of a count of today's rows. *)
Definition today_filters (E : env) (column : string) : list filter :=
  let today := before_T (now_iso E) in
  [FGte column (today +:+ "T00:00:00.000Z");
   FLt column (today +:+ "T23:59:59.999Z")].

(** [count || 0] *)
Definition or_zero (count : json) : json :=
  if truthy count then count else JNum 0.

End Admin.

Declare Scope admin_scope.
Delimit Scope admin_scope with admin.
Notation "x <~ m ;; k" := (Admin.bind m (fun x => k))
  (at level 100, m at next level, right associativity) : admin_scope.

Module CareerAdmin.
Import Admin.

(** The key a value is stored under as a property name. *)
Definition property_key (v : json) : string :=
  match v with
  | JUndef => "undefined"
  | JNull => "null"
  | _ => CareerService.js_toString v
  end.

(** The property names an object literal inherits.  Read under such a
    name, the accumulator of the status breakdown yields the inherited
    member instead of a count; these keys are left out of the model. *)
Definition inherited : list string :=
  ["constructor"; "toString"; "toLocaleString"; "valueOf"; "hasOwnProperty";
   "isPrototypeOf"; "propertyIsEnumerable"; "__proto__"; "__defineGetter__";
   "__defineSetter__"; "__lookupGetter__"; "__lookupSetter__"].

(** [acc[key] = (acc[key] || 0) + 1] *)
Definition tally (acc : gmap string Z) (key : string) : gmap string Z :=
  <[key := (default 0 (acc !! key) + 1)%Z]> acc.

(** [statusData.reduce((acc, app) => ..., {})] from an accumulator on:
    reading the status of a row that is undefined or null throws; [None]
    marks a key outside the model. *)
Fixpoint breakdown_from (acc : gmap string Z) (rows : list json)
  : outcome (option (gmap string Z)) :=
  match rows with
  | [] => Ok (Some acc)
  | app :: rest =>
      match app with
      | JUndef => Throw (type_error_read "application_status")
      | JNull => Throw (type_error_read_of "null" "application_status")
      | _ =>
          let key := property_key (get "application_status" app) in
          if bool_decide (key ∈ inherited) then Ok None
          else breakdown_from (tally acc key) rest
      end
  end.

(** [statusData.reduce(...)] on the data of a result. *)
Definition statusBreakdown (statusData : json)
  : outcome (option (gmap string Z)) :=
  match statusData with
  | JArr rows => breakdown_from ∅ rows
  | JUndef => Throw (type_error_read "reduce")
  | JNull => Throw (type_error_read_of "null" "reduce")
  | _ => Throw (type_error_call "statusData.reduce")
  end.

(** The statistics of [getApplicationStats]. *)
Record stats : Type := Stats {
  total : json;
  today : json;
  by_status : option (gmap string Z);
  lastUpdated : string
}.

Definition status_query : request :=
  Request CareerService.table (SelectRows "application_status" false false)
    [FNotIs "application_status" JNull] false false.

Definition validStatuses : list string :=
  ["pending"; "reviewing"; "shortlisted"; "interviewed"; "hired"; "rejected"].

(** [validStatuses.join(', ')] *)
Fixpoint join (sep : string) (items : list string) : string :=
  match items with
  | [] => ""
  | [x] => x
  | x :: rest => x +:+ sep +:+ join sep rest
  end.

(** [updateData] of [updateApplicationStatus]: the notes are written only
    when they are truthy. *)
Definition updateData (E : env) (status notes : json) : json :=
  JObj ([("application_status", status); ("updated_at", JStr (now_iso E))]
        ++ (if truthy notes then [("admin_notes", notes)] else []))%list.

Section WithBackend.
Variable B : Admin.backend.
Variable E : env.

Open Scope admin_scope.

(** [CareerService.getApplicationById] *)
Definition getApplicationById (id : json) : Admin.Eff json :=
  get_by_id B CareerService.table "application" "Application" id.

(** [CareerService.updateApplicationStatus]; an undefined [notes] takes
    the default null. *)
Definition updateApplicationStatus (id status notes : json) : Admin.Eff json :=
  let notes := match notes with JUndef => JNull | _ => notes end in
  r <~ await B (updating CareerService.table (updateData E status notes) id) ;;
  or_throw "Failed to update application status: " r (data r).

(** [CareerService.getApplicationStats] *)
Definition getApplicationStats : Admin.Eff stats :=
  totalCount <~ await B (counting CareerService.table []) ;;
  _ <~ or_throw "Failed to get total count: " totalCount tt ;;
  statusData <~ await B status_query ;;
  _ <~ or_throw "Failed to get status breakdown: " statusData tt ;;
  match statusBreakdown (data statusData) with
  | Throw e => Admin.throw e
  | Ok breakdown =>
      todayCount <~ await B (counting CareerService.table
                               (today_filters E "application_date")) ;;
      _ <~ or_throw "Failed to get today's count: " todayCount tt ;;
      Admin.ret (Stats (or_zero (count totalCount)) (or_zero (count todayCount))
                   breakdown (now_iso E))
  end.

Definition isDevelopment : bool := String.eqb (environment E) "development".

(** [{success: false, message, ...(isDevelopment && {error: error.message})}] *)
Definition failure (code : nat) (message : string) (e : thrown) : response :=
  Response code
    (JObj ([("success", JBool false); ("message", JStr message)]
           ++ (if isDevelopment then [("error", JStr (err_message e))] else []))%list).

Definition success (message : string) (payload : json) : response :=
  Response 200
    (JObj [("success", JBool true); ("message", JStr message);
           ("data", payload)]).

(** [CareerController.getApplicationById]; [id] is [req.params.id]. *)
Definition getApplicationById_endpoint (id : string) : Admin.Eff response :=
  try_catch
    (application <~ getApplicationById (JStr id) ;;
     Admin.ret (success "Application retrieved successfully" application))
    (fun e =>
       let not_found := String.eqb (err_message e) "Application not found" in
       Admin.ret (failure (if not_found then 404 else 500)
                    (if not_found then "Application not found"
                     else "Failed to retrieve application") e)).

(** [CareerController.updateApplicationStatus]; [id] is [req.params.id]
    and [body] the parsed body of the request, an object. *)
Definition updateApplicationStatus_endpoint (id : string)
    (body : list (string * json)) : Admin.Eff response :=
  try_catch
    (let status := assoc "status" body in
     let notes := assoc "notes" body in
     let listed :=
       match status with
       | JStr s => existsb (String.eqb s) validStatuses
       | _ => false
       end in
     if negb listed
     then Admin.ret
            (CareerController.bad_request "Invalid status"
               [JStr ("Status must be one of: " +:+ join ", " validStatuses)])
     else
       application <~ updateApplicationStatus (JStr id) status notes ;;
       Admin.ret (success "Application status updated successfully" application))
    (fun e => Admin.ret (failure 500 "Failed to update application status" e)).

End WithBackend.

End CareerAdmin.

(** How many rows carry a status, by the key it is stored under. *)
Definition rows_with_status (key : string) (rows : list json) : nat :=
  length (filter (fun app =>
                    CareerAdmin.property_key (get "application_status" app) = key)
            rows).

(** The sum of the counts of a breakdown. *)
Definition counted (m : gmap string Z) : Z :=
  map_fold (fun _ n sum => (n + sum)%Z) 0%Z m.

(** A backend of the admin operations over a table of applications: a
    count request is answered with the number of rows, a select with the
    rows. *)
Definition applications_backend (rows : list json) : Admin.backend :=
  fun q =>
    match Admin.does q with
    | Admin.SelectRows _ true _ =>
        Resolved (Result JNull None (JNum (Z.of_nat (length rows))))
    | _ => Resolved (Result (JArr rows) None JNull)
    end.

Definition three_applications : list json :=
  [JObj [("application_status", JStr "pending")];
   JObj [("application_status", JStr "hired")];
   JObj [("application_status", JStr "pending")]].

(** ** The configuration-driven rule set (middleware/validation.clean.js) *)

Module Clean.

Section WithValidator.
Variable V : validatorjs.

(** [`${what} must be between ${min} and ${max} ${unit}`] *)
Definition between (what : string) (rule : length_rule) (unit : string)
  : string :=
  what +:+ " must be between " +:+ pretty (minLength rule) +:+ " and "
  +:+ pretty (maxLength rule) +:+ " " +:+ unit.

Definition within (rule : length_rule) : string -> bool :=
  isLength (minLength rule) (Some (maxLength rule)).

(** [validateContactForm]: the bounds and patterns are those of
    [config.validation.contact]; the custom validator of the email throws
    its own message. *)
Definition validateContactForm : list chain :=
  [ Rules.required "fullName"
      [ Sanitize Js.trim;
        Check notEmpty "Full name is required";
        Check (within fullName_rule) (between "Full name" fullName_rule "characters");
        Check (matches fullName_pattern)
          "Full name can only contain letters and spaces" ];
    Rules.required "email"
      [ Sanitize Js.trim;
        Check notEmpty "Email is required";
        Check (isEmail V) "Please provide a valid email address";
        Sanitize (normalizeEmail V);
        Check (Re.test email_pattern) "Invalid email format" ];
    Rules.required "contact"
      [ Sanitize Js.trim;
        Check notEmpty "Contact number is required";
        Check (within contact_rule) (between "Contact number" contact_rule "digits");
        Check (matches contact_pattern) "Please provide a valid contact number" ];
    Rules.required "message"
      [ Sanitize Js.trim;
        Check notEmpty "Message is required";
        Check (within message_rule) (between "Message" message_rule "characters");
        Sanitize escape ] ].

End WithValidator.

(** [sanitizeInput] of this file: script elements, the javascript scheme
    and inline handlers, as in the career router. *)
Definition sanitizeInput (body : gmap string string) : gmap string string :=
  Sanitizer.sanitize_career_string <$> body.

End Clean.

(** ** Front end (assets/js/main.js): form validation and the hero slider *)

Module FormValidation.

(** What [validateField] reads of an input element. *)
Record field : Type := Field {
  value : string;
  type : string;
  required : bool
}.

(** White space, hyphen, parentheses: what the phone check strips. *)
Definition separator (c : ascii) : bool :=
  Js.is_space c || Patterns.one_of "-()" c.

(** [validateField]: the error message shown for the field, [None] when
    it is valid. *)
Definition validateField (f : field) : option string :=
  let v := Js.trim (value f) in
  if required f && negb (notEmpty v) then Some "This field is required."
  else if String.eqb (type f) "email" && notEmpty v then
    if negb (Re.test Patterns.email_re v)
    then Some "Please enter a valid email address." else None
  else if String.eqb (type f) "tel" && notEmpty v then
    if negb (Re.test Patterns.contact_number_re
               (Re.remove_all (Re.Chr separator) v))
    then Some "Please enter a valid phone number." else None
  else None.

End FormValidation.

Module HeroSlider.

(** The slides, each with or without the class [active], and the index of
    the current one. *)
Record slider : Type := Slider {
  slides : list bool;
  currentSlide : nat
}.

(** [nextSlide]; [None] is the TypeError of reading [classList] of a slide
    that does not exist. *)
Definition nextSlide (s : slider) : option slider :=
  match slides s !! currentSlide s with
  | None => None
  | Some _ =>
      let cleared := <[currentSlide s := false]> (slides s) in
      let next := (currentSlide s + 1) mod length (slides s) in
      Some (Slider (<[next := true]> cleared) next)
  end.

(** [goToSlide(index)] for an integer index. *)
Definition goToSlide (index : Z) (s : slider) : option slider :=
  if ((0 <=? index) && (index <? Z.of_nat (length (slides s))))%Z
  then match slides s !! currentSlide s with
       | None => None
       | Some _ =>
           let cleared := <[currentSlide s := false]> (slides s) in
           Some (Slider (<[Z.to_nat index := true]> cleared) (Z.to_nat index))
       end
  else Some s.

(** [n] slides of which only the one at [current] is active. *)
Definition only_active (n current : nat) : list bool :=
  (fun i => bool_decide (i = current)) <$> seq 0 n.

(** The current slide exists and is the only active one. *)
Definition consistent (s : slider) : Prop :=
  currentSlide s < length (slides s) /\
  slides s = only_active (length (slides s)) (currentSlide s).

(** [nextSlide] a number of times. *)
Fixpoint advance (n : nat) (s : slider) : option slider :=
  match n with
  | O => Some s
  | S n' => match nextSlide s with
            | Some s' => advance n' s'
            | None => None
            end
  end.

End HeroSlider.

(** [s] without the characters of a class. *)
Fixpoint without (p : ascii -> bool) (s : string) : string :=
  match s with
  | EmptyString => EmptyString
  | String c t => if p c then without p t else String c (without p t)
  end.

(** ** Front end (assets/js/products.js): the product catalogue *)

Module ProductManager.

Record product : Type := Product {
  id : Z;
  name : string;
  category : string;
  description : string;
  strength : string;
  pack : string;
  image : string;
  featured : bool;
  badge : option string
}.

Definition productData : list product :=
  [ Product 1 "Amoxicillin 500mg" "antibiotics"
      "Broad-spectrum antibiotic for treating bacterial infections"
      "500mg Capsules" "Pack of 20" "assets/images/product-1.jpg" true
      (Some "Bestseller");
    Product 2 "Amlodipine 5mg" "cardiovascular"
      "Calcium channel blocker for hypertension treatment"
      "5mg Tablets" "Pack of 30" "assets/images/product-2.jpg" true None;
    Product 3 "Ibuprofen 400mg" "pain-management"
      "Non-steroidal anti-inflammatory drug for pain relief"
      "400mg Tablets" "Pack of 24" "assets/images/product-3.jpg" true None;
    Product 4 "Salbutamol Inhaler" "respiratory"
      "Fast-acting bronchodilator for asthma relief"
      "100mcg/dose" "200 doses" "assets/images/product-4.jpg" true None;
    Product 5 "Metformin 500mg" "diabetes"
      "First-line treatment for type 2 diabetes"
      "500mg Tablets" "Pack of 60" "assets/images/product-5.jpg" true None;
    Product 6 "Vitamin D3 1000IU" "vitamins"
      "Essential vitamin for bone health and immunity"
      "1000IU Capsules" "Pack of 90" "assets/images/product-6.jpg" true None;
    Product 7 "Ciprofloxacin 500mg" "antibiotics"
      "Fluoroquinolone antibiotic for various infections"
      "500mg Tablets" "Pack of 14" "assets/images/product-7.jpg" false None;
    Product 8 "Atenolol 50mg" "cardiovascular"
      "Beta-blocker for heart conditions and hypertension"
      "50mg Tablets" "Pack of 28" "assets/images/product-8.jpg" false None;
    Product 9 "Paracetamol 500mg" "pain-management"
      "Analgesic and antipyretic for pain and fever"
      "500mg Tablets" "Pack of 20" "assets/images/product-9.jpg" false None;
    Product 10 "Montelukast 10mg" "respiratory"
      "Leukotriene receptor antagonist for asthma"
      "10mg Tablets" "Pack of 30" "assets/images/product-10.jpg" false None ].

(** What the grid element holds: product cards, or the no-results block. *)
Inductive grid : Type :=
| Cards (shown : list product)
| NoResults.

(** The load-more button: its [style.display] and its text. *)
Record button : Type := Button {
  display : string;
  textContent : string
}.

(** The two elements of the page the manager looks up by id; either may
    be missing. *)
Record document : Type := Document {
  productsGrid : option grid;
  loadMore : option button
}.

Record manager : Type := Manager {
  products : list product;
  filteredProducts : list product;
  currentCategory : string;
  currentSearch : string;
  currentPage : nat
}.

Definition productsPerPage : nat := 6.

(** The predicate of [applyFilters]. *)
Definition selected (cat search : string) (p : product) : bool :=
  (String.eqb cat "all" || String.eqb (category p) cat) &&
  (String.eqb search "" || Js.includes search (Js.toLowerCase (name p))
   || Js.includes search (Js.toLowerCase (description p))).

Definition updateLoadMoreButton (m : manager) (d : document) : document :=
  match loadMore d with
  | None => d
  | Some b =>
      let totalProducts := length (filteredProducts m) in
      let shownProducts := currentPage m * productsPerPage in
      if (totalProducts <=? shownProducts)%nat
      then Document (productsGrid d) (Some (Button "none" (textContent b)))
      else
        let remaining := totalProducts - shownProducts in
        Document (productsGrid d)
          (Some (Button "inline-flex"
                   ("Load More Products (" +:+ pretty remaining
                    +:+ " remaining)")))
  end.

Definition renderProducts (m : manager) (d : document) : document :=
  match productsGrid d with
  | None => d
  | Some _ =>
      let productsToShow :=
        take (currentPage m * productsPerPage) (filteredProducts m) in
      match productsToShow with
      | [] => Document (Some NoResults) (loadMore d)
      | _ :: _ =>
          updateLoadMoreButton m (Document (Some (Cards productsToShow)) (loadMore d))
      end
  end.

Definition applyFilters (m : manager) (d : document) : manager * document :=
  let m' := Manager (products m)
              (List.filter (selected (currentCategory m) (currentSearch m))
                 (products m))
              (currentCategory m) (currentSearch m) (currentPage m) in
  (m', renderProducts m' d).

Definition filterByCategory (cat : string) (m : manager) (d : document)
  : manager * document :=
  applyFilters
    (Manager (products m) (filteredProducts m) cat (currentSearch m) 1) d.

Definition handleSearch (searchTerm : string) (m : manager) (d : document)
  : manager * document :=
  applyFilters
    (Manager (products m) (filteredProducts m) (currentCategory m)
       (Js.toLowerCase searchTerm) 1) d.

Definition loadMoreProducts (m : manager) (d : document)
  : manager * document :=
  let m' := Manager (products m) (filteredProducts m) (currentCategory m)
              (currentSearch m) (S (currentPage m)) in
  (m', renderProducts m' d).

(** The constructor, [init] included. *)
Definition create (d : document) : manager * document :=
  let m := Manager productData productData "all" "" 1 in
  (m, renderProducts m d).

(** The events of the page that reach the manager. *)
Inductive event : Type :=
| ClickCategory (cat : string)
| Search (term : string)
| ClickLoadMore.

Definition handle (e : event) (st : manager * document) : manager * document :=
  match e with
  | ClickCategory cat => filterByCategory cat st.1 st.2
  | Search term => handleSearch term st.1 st.2
  | ClickLoadMore => loadMoreProducts st.1 st.2
  end.

(** The events in the order they happen. *)
Definition handle_all (es : list event) (st : manager * document)
  : manager * document :=
  fold_left (fun st e => handle e st) es st.

(** The products the current category and search term select. *)
Definition matching (m : manager) : list product :=
  List.filter (selected (currentCategory m) (currentSearch m)) (products m).

(** What a rendering leaves on a page that has a grid: the first pages of
    the matching products as cards, or the no-results block when there is
    none; and, when there are cards, the button hidden exactly when every
    matching product is shown. *)
Definition rendered (st : manager * document) : Prop :=
  let m := st.1 in
  products m = productData /\
  filteredProducts m = matching m /\
  1 <= currentPage m /\
  match productsGrid st.2 with
  | Some (Cards shown) =>
      matching m <> [] /\
      shown = take (currentPage m * productsPerPage) (matching m)
  | Some NoResults => matching m = []
  | None => False
  end /\
  (matching m <> [] ->
   match loadMore st.2 with
   | Some b =>
       display b = if (length (matching m) <=? currentPage m * productsPerPage)%nat
                   then "none" else "inline-flex"
   | None => True
   end).

(** A products page with a load-more button, before the script runs. *)
Definition page : document :=
  Document (Some (Cards [])) (Some (Button "" "Load More Products")).

End ProductManager.

(** ** The error middleware of the career router, on any error *)





(** * Properties *)

#[local] Arguments Js.is_space : simpl never.
#[local] Arguments Js.is_digit : simpl never.
#[local] Arguments Js.in_range : simpl never.
#[local] Arguments Js.chr_eqb : simpl never.
#[local] Arguments isIn : simpl never.
#[local] Arguments notEmpty : simpl never.
#[local] Arguments isLength : simpl never.
#[local] Arguments matches : simpl never.

(** ** Positions (C9) *)

Lemma isIn_In (values : list string) (s : string) :
  isIn values s = true <-> In s values.
Proof.
  unfold isIn. rewrite existsb_exists. split.
  - intros [x [Hx Heq]]. apply String.eqb_eq in Heq. now subst.
  - intros Hin. exists s. split; [assumption | apply String.eqb_refl].
Qed.

Lemma position_chain_errors (v : string) :
  chain_errors Rules.position_chain v = [] <->
  notEmpty v && isIn Rules.validPositions v = true.
Proof.
  unfold chain_errors, run_chain. cbn [chain_field chain_optional Rules.position_chain Rules.required andb].
  rewrite lookup_singleton_eq. cbn.
  destruct (notEmpty v), (isIn Rules.validPositions v); cbn;
    split; intros H; try reflexivity; discriminate H.
Qed.

(** C9: a position code is one of the [value] fields returned by
    GET /api/careers/positions exactly when the position chain of the
    career-application validator reports no error for it. *)
Theorem positions_listed_iff_accepted (code : string) :
  In code (position_values CareerController.getAvailablePositions) <->
  chain_errors Rules.position_chain code = [].
Proof.
  rewrite position_chain_errors.
  change (position_values CareerController.getAvailablePositions)
    with Rules.validPositions.
  rewrite <- isIn_In.
  destruct (isIn Rules.validPositions code) eqn:Hin.
  - split; [intros _ | reflexivity].
    assert (Hne : notEmpty code = true).
    { apply isIn_In in Hin. cbn in Hin.
      repeat (destruct Hin as [<- | Hin]; [reflexivity |]). destruct Hin. }
    now rewrite Hne.
  - rewrite andb_false_r. tauto.
Qed.

(** ** Health check (C10) *)

(** C10: when the reachability probe completes and reports the backend
    unreachable, the health check answers 503 with [data.status] degraded
    and [data.services.api] up while the body's [success] is still true;
    [success] is false exactly when the probe throws. *)
Theorem health_degraded_keeps_success (E : env) (probe : Eff bool)
    (tr : list call) :
  exists r : response,
    (Health.healthCheck E probe tr).1 = Ok r /\
    ((probe tr).1 = Ok false ->
     status r = 503 /\
     get "success" (body r) = JBool true /\
     get "status" (get "data" (body r)) = JStr "degraded" /\
     get "api" (get "services" (get "data" (body r))) = JStr "up") /\
    (get "success" (body r) = JBool false <->
     exists e, (probe tr).1 = Throw e).
Proof.
  unfold Health.healthCheck, try_catch, bind, ret.
  destruct (probe tr) as [[dbConnected | e] tr'] eqn:Hprobe; cbn [fst].
  - eexists. split; [reflexivity |]. split.
    + intros Hfalse. injection Hfalse as ->. cbn. repeat split; reflexivity.
    + cbn. split; [discriminate | intros [e He]; discriminate He].
  - eexists. split; [reflexivity |]. split.
    + discriminate.
    + cbn. split; [intros _; now exists e | reflexivity].
Qed.

(** The probe of the source never throws: it answers false when the
    backend keeps throwing. *)
Lemma testSupabaseConnection_answers (B : backend) (attempts : nat)
    (tr : list call) :
  exists b, (Health.testSupabaseConnection B attempts tr).1 = Ok b.
Proof.
  unfold Health.testSupabaseConnection, bind.
  assert (H : forall budget attempts tr,
             exists r tr', Health.testConnection_from B budget attempts tr
                           = (Ok r, tr')).
  { induction budget as [| budget IH]; intros a t; cbn;
      unfold try_catch, bind, await, ret;
      (destruct (B (Query Health.probe_query)) as [r | e];
       [ destruct (error r); eauto
       | destruct (a <=? 1)%nat; eauto ]). }
  destruct (H Health.maxRetries attempts tr) as [r [tr' ->]]. cbn. eauto.
Qed.

(** ** Sanitizer (C6) *)

Example contact_sanitizer_removes_script :
  Sanitizer.sanitize_contact_string "Hi <script>alert(1)</script>there"
  = "Hi there".
Proof. vm_compute. reflexivity. Qed.

Example career_sanitizer_removes_script :
  Sanitizer.sanitize_career_string "Hi <ScRiPt type=x>alert(1)</SCRIPT>there"
  = "Hi there".
Proof. vm_compute. reflexivity. Qed.

Example sanitizers_strip_javascript_scheme :
  Sanitizer.sanitize_contact_string "javascript:alert(1)" = "alert(1)" /\
  Sanitizer.sanitize_career_string "JavaScript:alert(1)" = "alert(1)".
Proof. split; vm_compute; reflexivity. Qed.

Example sanitizers_strip_inline_handlers :
  Sanitizer.sanitize_contact_string "<img src=x onerror =alert(1)>"
  = "<img src=x alert(1)>" /\
  Sanitizer.sanitize_career_string "<b onclick=go()>"
  = "<b go()>".
Proof. split; vm_compute; reflexivity. Qed.

(** C6: the contact sanitizer removes an iframe element from a field, the
    career sanitizer passes the same field on unchanged. *)
Theorem career_sanitizer_keeps_iframe :
  Sanitizer.sanitizeInput
    {[ "message" := "Hello <iframe src=//x.example></iframe>world" ]}
    !! "message" = Some "Hello world" /\
  Sanitizer.sanitizeCareerInput
    {[ "coverLetter" := "Hello <iframe src=//x.example></iframe>world" ]}
    !! "coverLetter" = Some "Hello <iframe src=//x.example></iframe>world".
Proof.
  unfold Sanitizer.sanitizeInput, Sanitizer.sanitizeCareerInput.
  rewrite !lookup_fmap, !lookup_singleton_eq. cbn [fmap option_fmap option_map].
  split; f_equal; vm_compute; reflexivity.
Qed.

(** ** Fallback of the career insert (C1) *)

(** When the direct insert throws, the stored procedure is called with the
    record as its single argument, and only its failure is an error. *)
Lemma insert_thrown_calls_procedure (B : backend) (row : json) (e : thrown)
    (raw : result) (tr : list call) :
  B (InsertRow CareerService.table row) = Rejected e ->
  B (Rpc "insert_career_application" (JObj [("application_data", row)]))
  = Resolved raw ->
  CareerService.insertApplication B row tr =
  (match error raw with
   | Some rawError =>
       Throw (new_Error ("Database insertion failed: " +:+ pg_message rawError))
   | None => Ok (data raw)
   end,
   (tr ++ [InsertRow CareerService.table row;
           Rpc "insert_career_application" (JObj [("application_data", row)])])%list).
Proof.
  intros Hins Hrpc.
  unfold CareerService.insertApplication, bind, try_catch, await, throw, ret.
  rewrite Hins, Hrpc. rewrite <- app_assoc. cbn [app].
  destruct (error raw); reflexivity.
Qed.

Lemma insert_thrown_calls_procedure_witness :
  CareerService.insertApplication (Sample.throwing (JNum 7))
    (JObj [("full_name", JStr "John Doe")]) [] =
  (Ok (JArr [JObj [("id", JNum 7); ("full_name", JStr "John Doe")]]),
   [InsertRow CareerService.table (JObj [("full_name", JStr "John Doe")]);
    Rpc "insert_career_application"
      (JObj [("application_data", JObj [("full_name", JStr "John Doe")])])]).
Proof.
  apply (insert_thrown_calls_procedure (Sample.throwing (JNum 7))
           (JObj [("full_name", JStr "John Doe")])
           (Thrown "TypeError" "fetch failed")
           (Result (JArr [JObj [("id", JNum 7); ("full_name", JStr "John Doe")]])
              None JNull) []);
    reflexivity.
Defined.

(** C1: when the direct insert is answered with an error result, as a
    row-level-security denial is, the stored procedure is not called: the
    only call is the direct insert, and the persistence error is raised. *)
Theorem insert_error_result_skips_procedure (B : backend) (row d c : json)
    (e : pg_error) (tr : list call) :
  B (InsertRow CareerService.table row) = Resolved (Result d (Some e) c) ->
  CareerService.insertApplication B row tr =
  (Throw (new_Error ("Database insertion failed: " +:+ pg_message e)),
   (tr ++ [InsertRow CareerService.table row])%list).
Proof.
  intros Hins.
  unfold CareerService.insertApplication, bind, try_catch, await, throw.
  rewrite Hins. reflexivity.
Qed.

Lemma insert_error_result_skips_procedure_witness :
  CareerService.insertApplication (Sample.denying (JNum 7))
    (JObj [("full_name", JStr "John Doe")]) [] =
  (Throw (new_Error ("Database insertion failed: "
                     +:+ pg_message Sample.rls_denied)),
   [InsertRow CareerService.table (JObj [("full_name", JStr "John Doe")])]).
Proof.
  apply (insert_error_result_skips_procedure (Sample.denying (JNum 7))
           (JObj [("full_name", JStr "John Doe")]) JNull JNull
           Sample.rls_denied []).
  reflexivity.
Defined.

(** The whole route on the reference application: the denial of the
    direct insert ends in a 503, after the upload and without a call of the
    procedure. *)
Example apply_denied_by_policy :
  (Routes.post_careers_apply Sample.validator (Sample.denying (JNum 7))
     Sample.production ∅
     (Routes.Request "203.0.113.9" 0 Sample.application [Sample.resume])).2
  = [StorageUpload "career-applications"
       "resumes/resume_1705314600000_k3j9x2m5q.pdf" "application/pdf" 312;
     InsertRow "Career_Applications"
       (CareerService.insertData Sample.production "John Doe"
          "john.doe@test.com" "+1234567890" "Test City" (Some "supply-chain")
          (Some "2-3") (Some "bpharm") (Some "This is a test cover letter.")
          (Some "on")
          (JStr "https://project.supabase.co/storage/v1/object/public/career-applications/resumes/resume_1705314600000_k3j9x2m5q.pdf")
          (JStr "test-resume.pdf"))].
Proof. vm_compute. reflexivity. Qed.

(** ** Pagination of the list operations (C8) *)

(** A list operation issues one call whatever the backend answers: the
    query of the inclusive range from offset (page-1)*limit, in the
    requested order. *)
Theorem list_operations_range_query (B : backend) (o : Listing.list_options)
    (tr : list call) :
  (Listing.getAllApplications B o tr).2
  = (tr ++ [Query (Listing.applications_query o)])%list /\
  (Listing.getAllContacts B o tr).2
  = (tr ++ [Query (Listing.contacts_query o)])%list /\
  sel_range (Listing.applications_query o)
  = Some (((Listing.page o - 1) * Listing.limit o)%Z,
          ((Listing.page o - 1) * Listing.limit o + Listing.limit o - 1)%Z) /\
  sel_range (Listing.contacts_query o)
  = sel_range (Listing.applications_query o) /\
  sel_order (Listing.applications_query o)
  = Some (Listing.sortBy o, String.eqb (Listing.sortOrder o) "asc") /\
  sel_order (Listing.contacts_query o)
  = sel_order (Listing.applications_query o).
Proof.
  unfold Listing.getAllApplications, Listing.getAllContacts, bind, await,
    throw, ret.
  repeat split.
  - destruct (B _) as [r | e]; [destruct (error r) |]; reflexivity.
  - destruct (B _) as [r | e]; [destruct (error r) |]; reflexivity.
Qed.

(** Neither list query asks for a count; the statistics query does. *)
Lemma list_queries_without_count (o : Listing.list_options) :
  sel_count_exact (Listing.applications_query o) = false /\
  sel_count_exact (Listing.contacts_query o) = false /\
  sel_count_exact Listing.stats_count_query = true.
Proof. repeat split; reflexivity. Qed.

(** On a numeric count [ceil_div] is the ceiling of the quotient. *)
Lemma ceil_div_exact (c l : Z) :
  (0 < l)%Z ->
  Listing.ceil_div (JNum c) l = JNum ((c + l - 1) / l).
Proof.
  intros Hl. unfold Listing.ceil_div, Listing.to_number.
  destruct (Z.eqb_spec l 0) as [-> | _]; [lia |]. f_equal.
  set (a := ((c + l - 1) / l)%Z).
  pose proof (Z.mul_div_le (c + l - 1) l Hl) as Hlo.
  pose proof (Z.mul_succ_div_gt (c + l - 1) l Hl) as Hhi.
  fold a in Hlo, Hhi.
  assert (Hdiv : (- c / l = - a)%Z).
  { symmetry. apply (Z.div_unique (- c) l (- a) (l * a - c))%Z; lia. }
  rewrite Hdiv. lia.
Qed.

(** C8: against a table of any number of rows, for a page of at least 1
    and a limit between 1 and 100, each list operation issues the single
    range query from offset (page-1)*limit, and since that query asks for
    no count the result reports a null total and zero total pages. *)
Theorem list_reports_zero_pages (rows : list json) (o : Listing.list_options)
    (tr : list call) :
  (1 <= Listing.page o)%Z ->
  (1 <= Listing.limit o <= 100)%Z ->
  let offset := ((Listing.page o - 1) * Listing.limit o)%Z in
  let page_rows :=
    Listing.or_empty
      (JArr (Listing.rows_in_range rows
               (Some (offset, (offset + Listing.limit o - 1)%Z)))) in
  let pagination :=
    JObj [("page", JNum (Listing.page o)); ("limit", JNum (Listing.limit o));
          ("total", JNull); ("totalPages", JNum 0)] in
  Listing.getAllApplications (Listing.table_backend rows) o tr =
  (Ok (JObj [("applications", page_rows); ("pagination", pagination)]),
   (tr ++ [Query (Listing.applications_query o)])%list) /\
  Listing.getAllContacts (Listing.table_backend rows) o tr =
  (Ok (JObj [("contacts", page_rows); ("pagination", pagination)]),
   (tr ++ [Query (Listing.contacts_query o)])%list).
Proof.
  intros _ Hlimit offset page_rows pagination.
  unfold Listing.getAllApplications, Listing.getAllContacts, bind, await, ret.
  cbn [Listing.table_backend Listing.applications_query Listing.contacts_query
       sel_head sel_count_exact sel_range error data count].
  unfold Listing.pagination, Listing.ceil_div. cbn [Listing.to_number].
  destruct (Z.eqb_spec (Listing.limit o) 0) as [H0 | _]; [lia |].
  split; reflexivity.
Qed.

Lemma list_reports_zero_pages_witness :
  (Listing.getAllApplications (Listing.table_backend Sample.twenty_five_rows)
     (Listing.ListOptions 1 10 "application_date" "desc" None None) []).1 =
  Ok (JObj [("applications",
             JArr ((fun n => JObj [("id", JNum (Z.of_nat n))]) <$> seq 1 10));
            ("pagination",
             JObj [("page", JNum 1); ("limit", JNum 10); ("total", JNull);
                   ("totalPages", JNum 0)])]).
Proof.
  rewrite (proj1 (list_reports_zero_pages Sample.twenty_five_rows
                    (Listing.ListOptions 1 10 "application_date" "desc"
                       None None) []
                    ltac:(cbn; lia) ltac:(cbn; lia))).
  reflexivity.
Defined.

(** ** The contact service *)

(** The service call of the contact flow on a body that has its four
    fields: one insert, whose answer decides. *)
Lemma createContact_inserts (B : backend) (E : env)
    (contactData : gmap string string) (fullName email contact message : string)
    (tr : list call) :
  contactData !! "fullName" = Some fullName ->
  contactData !! "email" = Some email ->
  contactData !! "contact" = Some contact ->
  contactData !! "message" = Some message ->
  let row := ContactService.insertData fullName email contact message in
  let tr' := (tr ++ [InsertRow ContactService.table row])%list in
  ContactService.createContact B E contactData tr =
  match B (InsertRow ContactService.table row) with
  | Resolved r =>
      match error r with
      | Some e =>
          (Throw (new_Error ("Database insertion failed: " +:+ pg_message e)),
           tr')
      | None =>
          prop_of "id" (data r) (fun id =>
            let created := get "created_at" (data r) in
            ret (JObj [("id", id);
                       ("submittedAt",
                        if truthy created then created else JStr (now_iso E));
                       ("fullName", get "Full_Name" (data r));
                       ("email", get "Email_id" (data r))])) tr'
      end
  | Rejected e => (Throw e, tr')
  end.
Proof.
  intros Hf He Hc Hm row tr'.
  unfold ContactService.createContact. rewrite Hf, He, Hc, Hm.
  unfold ContactService.on_field, bind, await. fold row.
  destruct (B (InsertRow ContactService.table row)) as [r | e];
    [destruct (error r) |]; reflexivity.
Qed.

(** ** Consent of a persisted application (C5) *)

(** A direct insert answered with a row is the result of the insert. *)
Lemma insert_accepted (B : backend) (row d c : json) (tr : list call) :
  B (InsertRow CareerService.table row) = Resolved (Result d None c) ->
  CareerService.insertApplication B row tr
  = (Ok d, (tr ++ [InsertRow CareerService.table row])%list).
Proof.
  intros HB. unfold CareerService.insertApplication, bind, try_catch, await, ret.
  rewrite HB. reflexivity.
Qed.

(** The service call of the career flow on a body that has its four
    trimmed fields: the upload, then the insert. *)
Lemma createApplication_steps (B : backend) (E : env)
    (applicationData : gmap string string) (file : upload_file)
    (fullName email phone location : string) (tr : list call) :
  applicationData !! "fullName" = Some fullName ->
  applicationData !! "email" = Some email ->
  applicationData !! "phone" = Some phone ->
  applicationData !! "location" = Some location ->
  CareerService.createApplication B E applicationData (Some file) tr =
  match CareerService.uploadResume B E file tr with
  | (Ok uploadResult, tr1) =>
      let row :=
        CareerService.insertData E fullName email phone location
          (applicationData !! "position") (applicationData !! "experience")
          (applicationData !! "qualification") (applicationData !! "coverLetter")
          (applicationData !! "consent")
          (get "url" uploadResult) (get "fileName" uploadResult) in
      match CareerService.insertApplication B row tr1 with
      | (Ok d, tr2) =>
          prop_of "id" d (fun id =>
            match id with
            | JUndef => throw (type_error_read "toString")
            | JNull => throw (type_error_read_of "null" "toString")
            | _ =>
                ret (JObj [("id", id);
                           ("applicationNumber",
                            JStr ("AC-" +:+ Js.padStart0 6 (CareerService.js_toString id)));
                           ("submittedAt", get "application_date" d);
                           ("fullName", get "full_name" d);
                           ("email", get "email" d);
                           ("position", get "position" d);
                           ("status", get "application_status" d)])
            end) tr2
      | (Throw e, tr2) => (Throw e, tr2)
      end
  | (Throw e, tr1) => (Throw e, tr1)
  end.
Proof.
  intros Hf He Hp Hl.
  unfold CareerService.createApplication, bind.
  destruct (CareerService.uploadResume B E file tr) as [[u | e] tr1];
    [| reflexivity].
  unfold ret at 1. rewrite Hf, He, Hp, Hl.
  unfold ContactService.on_field. cbn [fst snd].
  destruct (CareerService.insertApplication B _ tr1) as [[d | e] tr2];
    reflexivity.
Qed.

(** C5: a career application whose consent field, as sanitized, is any
    non-empty string other than [on] passes both validation layers and is
    answered 201, and the row written to Career_Applications has
    [consent_given] false. *)
Theorem consent_other_than_on_is_stored_false (consent : string) :
  notEmpty (Sanitizer.sanitize_career_string consent) = true ->
  String.eqb (Sanitizer.sanitize_career_string consent) "on" = false ->
  exists store' r row,
    Routes.post_careers_apply Sample.validator (Sample.accepting (JNum 7))
      Sample.production ∅
      (Routes.Request Sample.client_address 0
         (<["consent" := consent]> Sample.application) [Sample.resume])
    = (store', Routes.Sent r,
       [StorageUpload "career-applications"
          "resumes/resume_1705314600000_k3j9x2m5q.pdf" "application/pdf" 312;
        InsertRow CareerService.table row]) /\
    status r = 201 /\
    get "consent_given" row = JBool false.
Proof.
  intros Hne Hon.
  unfold Routes.post_careers_apply.
  cbn [Routes.at_time Routes.ip Routes.req_body Routes.files].
  unfold Sanitizer.sanitizeCareerInput. rewrite fmap_insert.
  set (c := Sanitizer.sanitize_career_string consent) in *.
  clearbody c.
  destruct c as [| a s]; [discriminate Hne |].
  set (body2 := <["consent" := String a s]> Sample.application).
  assert (Hlim : RateLimit.limit RateLimit.careerOptions
                   (RateLimit.careerSkip Sample.production) 0
                   Sample.client_address ∅
                 = ({[ Sample.client_address := RateLimit.Client 1 3600000 ]},
                    RateLimit.Admit)) by (vm_compute; reflexivity).
  rewrite Hlim.
  assert (Hfile : Multer.single [Sample.resume] = inr (Some Sample.resume))
    by (vm_compute; reflexivity).
  rewrite Hfile.
  assert (Hval : run_chains (Rules.validateCareerApplication Sample.validator)
                   (<["consent" := String a s]>
                      (Sanitizer.sanitize_career_string <$> Sample.application))
                 = (body2, [])) by (vm_compute; reflexivity).
  rewrite Hval.
  unfold CareerController.submitApplication, run, try_catch.
  assert (Hsvc : CareerService.validateApplicationData body2 = [])
    by (vm_compute; reflexivity).
  rewrite Hsvc.
  assert (Htype : negb (existsb (String.eqb (mimetype Sample.resume))
                          CareerController.allowedTypes) = false)
    by reflexivity.
  assert (Hsize : (CareerController.maxSize <? size Sample.resume)%Z = false)
    by reflexivity.
  rewrite Htype, Hsize. unfold bind.
  rewrite (createApplication_steps _ _ body2 Sample.resume "John Doe"
             "john.doe@test.com" "+1234567890" "Test City" [])
    by (vm_compute; reflexivity).
  assert (Hup : CareerService.uploadResume (Sample.accepting (JNum 7))
                  Sample.production Sample.resume []
                = (Ok (JObj [("url", JStr "https://project.supabase.co/storage/v1/object/public/career-applications/resumes/resume_1705314600000_k3j9x2m5q.pdf");
                             ("fileName", JStr "test-resume.pdf");
                             ("storagePath", JStr "resumes/resume_1705314600000_k3j9x2m5q.pdf")]),
                   [StorageUpload "career-applications"
                      "resumes/resume_1705314600000_k3j9x2m5q.pdf"
                      "application/pdf" 312]))
    by (vm_compute; reflexivity).
  rewrite Hup. cbv zeta.
  match goal with
  | |- context [CareerService.insertApplication _ ?row _] => set (row0 := row)
  end.
  rewrite (insert_accepted (Sample.accepting (JNum 7)) row0
             (JObj (("id", JNum 7)
                    :: ("created_at", JStr "2024-01-15T10:30:01.000Z")
                    :: Sample.fields_of row0)) JNull) by reflexivity.
  cbn [prop_of get assoc String.eqb Ascii.eqb Bool.eqb ret app].
  eexists _, _, row0. split; [reflexivity |]. split; [reflexivity |].
  subst row0. unfold CareerService.insertData.
  assert (Hc : body2 !! "consent" = Some (String a s))
    by apply lookup_insert_eq.
  rewrite Hc. cbn [get assoc String.eqb Ascii.eqb Bool.eqb].
  cbn [String.eqb] in Hon. now rewrite Hon.
Qed.

Lemma consent_other_than_on_is_stored_false_witness :
  exists store' r row,
    Routes.post_careers_apply Sample.validator (Sample.accepting (JNum 7))
      Sample.production ∅
      (Routes.Request Sample.client_address 0
         (<["consent" := "false"]> Sample.application) [Sample.resume])
    = (store', Routes.Sent r,
       [StorageUpload "career-applications"
          "resumes/resume_1705314600000_k3j9x2m5q.pdf" "application/pdf" 312;
        InsertRow CareerService.table row]) /\
    status r = 201 /\
    get "consent_given" row = JBool false.
Proof.
  apply (consent_other_than_on_is_stored_false "false");
    vm_compute; reflexivity.
Defined.

(** ** Rate limiter (C7) *)

Lemma limit_in_window (o : RateLimit.options) (now : Z) (key : string)
    (store : gmap string RateLimit.client) (c : RateLimit.client) :
  store !! key = Some c ->
  (now < RateLimit.resetTime c)%Z ->
  let c' := RateLimit.Client (S (RateLimit.totalHits c)) (RateLimit.resetTime c) in
  RateLimit.limit o false now key store =
  (<[key := c']> store,
   if (RateLimit.max o <? S (RateLimit.totalHits c))%nat
   then RateLimit.Reject c' else RateLimit.Admit).
Proof.
  intros Hc Hnow c'. unfold RateLimit.limit, RateLimit.increment.
  rewrite Hc. destruct (Z.ltb_spec now (RateLimit.resetTime c)); [| lia].
  reflexivity.
Qed.

Lemma limit_after_window (o : RateLimit.options) (now : Z) (key : string)
    (store : gmap string RateLimit.client) (c : RateLimit.client) :
  store !! key = Some c ->
  (RateLimit.resetTime c <= now)%Z ->
  let c' := RateLimit.Client 1 (now + RateLimit.windowMs o) in
  RateLimit.limit o false now key store =
  (<[key := c']> store,
   if (RateLimit.max o <? 1)%nat then RateLimit.Reject c' else RateLimit.Admit).
Proof.
  intros Hc Hnow c'. unfold RateLimit.limit, RateLimit.increment.
  rewrite Hc. destruct (Z.ltb_spec now (RateLimit.resetTime c)); [lia |].
  reflexivity.
Qed.

(** Within one window the admitted requests fill what is left of the
    ceiling and no more. *)
Lemma admitted_in_window (o : RateLimit.options) (key : string)
    (times : list Z) :
  forall (store : gmap string RateLimit.client) (c : RateLimit.client),
    store !! key = Some c ->
    (forall t, In t times -> (t < RateLimit.resetTime c)%Z) ->
    admitted_count (RateLimit.serve o false key times store)
    <= RateLimit.max o - RateLimit.totalHits c.
Proof.
  induction times as [| now rest IH]; intros store c Hc Hin.
  - cbn. lia.
  - cbn [RateLimit.serve].
    rewrite (limit_in_window o now key store c Hc (Hin now (or_introl eq_refl))).
    cbv zeta.
    set (c' := RateLimit.Client (S (RateLimit.totalHits c)) (RateLimit.resetTime c)).
    specialize (IH (<[key := c']> store) c' (lookup_insert_eq _ _ _)
                  (fun t Ht => Hin t (or_intror Ht))).
    cbn [RateLimit.totalHits c'] in IH.
    unfold admitted_count in *. rewrite filter_cons.
    destruct (Nat.ltb_spec (RateLimit.max o) (S (RateLimit.totalHits c)));
      cbn [RateLimit.admitted].
    + rewrite decide_False by discriminate. lia.
    + rewrite decide_True by reflexivity. cbn [length]. lia.
Qed.

Lemma rejected_route (f : flow) (V : validatorjs) (B : backend) (E : env)
    (store store' : gmap string RateLimit.client) (req : Routes.request)
    (c : RateLimit.client) :
  RateLimit.limit (limiter_options f) (limiter_skip f E) (Routes.at_time req)
    (Routes.ip req) store = (store', RateLimit.Reject c) ->
  post f V B E store req = (store', Routes.Sent (too_many f E), []).
Proof.
  intros Hlim. destruct f; cbn [post limiter_options limiter_skip too_many] in *.
  - unfold Routes.post_contact. now rewrite Hlim.
  - unfold Routes.post_careers_apply. now rewrite Hlim.
Qed.

Lemma limit_first (o : RateLimit.options) (now : Z) (key : string)
    (store : gmap string RateLimit.client) :
  store !! key = None ->
  let c' := RateLimit.Client 1 (now + RateLimit.windowMs o) in
  RateLimit.limit o false now key store =
  (<[key := c']> store,
   if (RateLimit.max o <? 1)%nat then RateLimit.Reject c' else RateLimit.Admit).
Proof.
  intros Hc c'. unfold RateLimit.limit, RateLimit.increment.
  rewrite Hc. reflexivity.
Qed.

(** Within one window exactly what is left of the ceiling is admitted, the
    earliest requests first. *)
Lemma admitted_count_in_window (o : RateLimit.options) (key : string)
    (times : list Z) :
  forall (store : gmap string RateLimit.client) (c : RateLimit.client),
    store !! key = Some c ->
    (forall t, In t times -> (t < RateLimit.resetTime c)%Z) ->
    admitted_count (RateLimit.serve o false key times store)
    = Nat.min (length times) (RateLimit.max o - RateLimit.totalHits c).
Proof.
  induction times as [| now rest IH]; intros store c Hc Hin.
  - reflexivity.
  - cbn [RateLimit.serve].
    rewrite (limit_in_window o now key store c Hc (Hin now (or_introl eq_refl))).
    cbv zeta.
    set (c' := RateLimit.Client (S (RateLimit.totalHits c)) (RateLimit.resetTime c)).
    specialize (IH (<[key := c']> store) c' (lookup_insert_eq _ _ _)
                  (fun t Ht => Hin t (or_intror Ht))).
    cbn [RateLimit.totalHits c'] in IH.
    unfold admitted_count in *. rewrite filter_cons.
    destruct (Nat.ltb_spec (RateLimit.max o) (S (RateLimit.totalHits c)));
      cbn [RateLimit.admitted].
    + rewrite decide_False by discriminate. cbn [length]. lia.
    + rewrite decide_True by reflexivity. cbn [length]. lia.
Qed.

(** A request that opens a window is admitted, and of the requests up to
    the reset time of that window exactly the first [max] are. *)
Lemma window_opened (o : RateLimit.options) (now : Z) (key : string)
    (store : gmap string RateLimit.client) :
  1 <= RateLimit.max o ->
  (store !! key = None \/
   exists c, store !! key = Some c /\ (RateLimit.resetTime c <= now)%Z) ->
  RateLimit.limit o false now key store
  = (<[key := RateLimit.Client 1 (now + RateLimit.windowMs o)]> store,
     RateLimit.Admit) /\
  forall times : list Z,
    (forall t, In t times -> (t < now + RateLimit.windowMs o)%Z) ->
    admitted_count (RateLimit.serve o false key (now :: times) store)
    = Nat.min (S (length times)) (RateLimit.max o).
Proof.
  intros Hmax Hopen.
  assert (Hlim : RateLimit.limit o false now key store
                 = (<[key := RateLimit.Client 1 (now + RateLimit.windowMs o)]> store,
                    RateLimit.Admit)).
  { destruct Hopen as [Hnone | [c [Hc Hnow]]].
    - rewrite (limit_first o now key store Hnone). cbv zeta.
      destruct (Nat.ltb_spec (RateLimit.max o) 1); [lia | reflexivity].
    - rewrite (limit_after_window o now key store c Hc Hnow). cbv zeta.
      destruct (Nat.ltb_spec (RateLimit.max o) 1); [lia | reflexivity]. }
  split; [exact Hlim |]. intros times Hin.
  cbn [RateLimit.serve]. rewrite Hlim.
  unfold admitted_count. rewrite filter_cons. cbn [RateLimit.admitted].
  rewrite decide_True by reflexivity. cbn [length].
  pose proof (admitted_count_in_window o key times
                (<[key := RateLimit.Client 1 (now + RateLimit.windowMs o)]> store)
                (RateLimit.Client 1 (now + RateLimit.windowMs o))
                (lookup_insert_eq _ _ _) Hin) as H.
  unfold admitted_count in H. rewrite H. cbn [RateLimit.totalHits]. lia.
Qed.

(** C7, as the code has it: for a flow whose limiter is not skipped.  For a
    client with a counter in the store, a request inside the client's
    window with the ceiling reached is answered 429 whatever its content,
    without a call to the backend, the body carrying the constant retryAfter
    of the whole window in seconds; a request at or after the reset time is
    admitted and opens a new window; and the requests admitted before the
    reset time never exceed what is left of the ceiling.  For a client
    without a counter, or whose window has elapsed, the request is admitted
    and opens a window of the configured length, and of this request and
    those that follow it before the reset time of that window exactly the
    first three are admitted: no client has more than 3 requests admitted
    within one fixed window, its first window included. *)
Theorem rate_limit_fixed_window (f : flow) (V : validatorjs) (B : backend)
    (E : env) (store : gmap string RateLimit.client) (req : Routes.request) :
  limiter_skip f E = false ->
  let o := limiter_options f in
  let now := Routes.at_time req in
  (forall c : RateLimit.client,
     store !! Routes.ip req = Some c ->
     ((now < RateLimit.resetTime c)%Z ->
      RateLimit.max o <= RateLimit.totalHits c ->
      post f V B E store req
      = (<[Routes.ip req :=
             RateLimit.Client (S (RateLimit.totalHits c)) (RateLimit.resetTime c)]>
           store,
         Routes.Sent (too_many f E), []) /\
      status (too_many f E) = 429 /\
      get "retryAfter" (body (too_many f E))
      = JNum (RateLimit.windowMs o / 1000)) /\
     ((RateLimit.resetTime c <= now)%Z ->
      RateLimit.limit o (limiter_skip f E) now (Routes.ip req) store
      = (<[Routes.ip req := RateLimit.Client 1 (now + RateLimit.windowMs o)]> store,
         RateLimit.Admit)) /\
     (forall times : list Z,
        (forall t, In t times -> (t < RateLimit.resetTime c)%Z) ->
        admitted_count (RateLimit.serve o (limiter_skip f E) (Routes.ip req) times store)
        <= RateLimit.max o - RateLimit.totalHits c) /\
     (forall times : list Z,
        (forall t, In t times -> (t < RateLimit.resetTime c)%Z) ->
        admitted_count (RateLimit.serve o (limiter_skip f E) (Routes.ip req) times store)
        = Nat.min (length times) (RateLimit.max o - RateLimit.totalHits c))) /\
  ((store !! Routes.ip req = None \/
    exists c, store !! Routes.ip req = Some c /\ (RateLimit.resetTime c <= now)%Z) ->
   RateLimit.limit o (limiter_skip f E) now (Routes.ip req) store
   = (<[Routes.ip req := RateLimit.Client 1 (now + RateLimit.windowMs o)]> store,
      RateLimit.Admit) /\
   forall times : list Z,
     (forall t, In t times -> (t < now + RateLimit.windowMs o)%Z) ->
     admitted_count
       (RateLimit.serve o (limiter_skip f E) (Routes.ip req) (now :: times) store)
     = Nat.min (S (length times)) 3).
Proof.
  intros Hskip o now. rewrite Hskip. split.
  - intros c Hc. repeat split.
    + apply rejected_route with
        (c := RateLimit.Client (S (RateLimit.totalHits c)) (RateLimit.resetTime c)).
      rewrite Hskip. fold o now.
      rewrite (limit_in_window o now _ store c Hc H). cbv zeta.
      destruct (Nat.ltb_spec (RateLimit.max o) (S (RateLimit.totalHits c)));
        [reflexivity | lia].
    + destruct f; reflexivity.
    + destruct f; reflexivity.
    + intros Hnow. rewrite (limit_after_window o now _ store c Hc Hnow).
      destruct f; reflexivity.
    + intros times Hin. now apply admitted_in_window.
    + intros times Hin. now apply admitted_count_in_window.
  - intros Hopen.
    assert (Hmax : RateLimit.max o = 3) by (destruct f; reflexivity).
    rewrite <- Hmax. apply window_opened; [lia | exact Hopen].
Qed.

Lemma rate_limit_fixed_window_witness :
  (post Career Sample.validator (Sample.accepting (JNum 7)) Sample.production
     {[ Sample.client_address := RateLimit.Client 3 3600000 ]}
     (Routes.Request Sample.client_address 600000 Sample.application
        [Sample.resume])
   = (<[Sample.client_address := RateLimit.Client 4 3600000]>
        {[ Sample.client_address := RateLimit.Client 3 3600000 ]},
      Routes.Sent (too_many Career Sample.production), []) /\
   status (too_many Career Sample.production) = 429 /\
   get "retryAfter" (body (too_many Career Sample.production)) = JNum 3600) /\
  (RateLimit.limit RateLimit.careerOptions false 0 Sample.client_address ∅
   = ({[ Sample.client_address := RateLimit.Client 1 3600000 ]}, RateLimit.Admit) /\
   admitted_count
     (RateLimit.serve RateLimit.careerOptions false Sample.client_address
        [0; 1000; 2000; 3000; 4000]%Z ∅) = 3).
Proof.
  split.
  - refine (proj1 (proj1 (rate_limit_fixed_window Career Sample.validator
                     (Sample.accepting (JNum 7)) Sample.production
                     {[ Sample.client_address := RateLimit.Client 3 3600000 ]}
                     (Routes.Request Sample.client_address 600000
                        Sample.application [Sample.resume]) eq_refl)
                   (RateLimit.Client 3 3600000) _) _ _).
    + apply lookup_singleton_eq.
    + reflexivity.
    + cbn. lia.
  - destruct (proj2 (rate_limit_fixed_window Career Sample.validator
                       (Sample.accepting (JNum 7)) Sample.production ∅
                       (Routes.Request Sample.client_address 0
                          Sample.application [Sample.resume]) eq_refl)
                (or_introl (lookup_empty _))) as [Hfirst Hcount].
    split.
    + exact Hfirst.
    + apply (Hcount [1000; 2000; 3000; 4000]%Z).
      intros t Ht. cbn in Ht. cbn. lia.
Defined.

(** C7 fails as stated: in development the contact limiter is skipped and a
    fourth request inside the window is admitted; the retryAfter of a
    rejected career request is the whole hour although 3000 seconds are left
    of the window; and with fixed windows five requests around the reset
    time fall within four milliseconds and are all admitted. *)
Lemma rate_limit_claim_fails :
  RateLimit.serve RateLimit.contactOptions
    (RateLimit.contactSkip Sample.development) Sample.client_address
    [0; 1000; 2000; 3000]%Z ∅
  = [RateLimit.Admit; RateLimit.Admit; RateLimit.Admit; RateLimit.Admit] /\
  (RateLimit.limit RateLimit.careerOptions
     (RateLimit.careerSkip Sample.production) 600000 Sample.client_address
     {[ Sample.client_address := RateLimit.Client 3 3600000 ]}).2
  = RateLimit.Reject (RateLimit.Client 4 3600000) /\
  get "retryAfter" (body (RateLimit.careerTooMany Sample.production))
  = JNum 3600 /\
  RateLimit.remaining_seconds 600000 (RateLimit.Client 4 3600000) = 3000%Z /\
  RateLimit.admitted <$>
    RateLimit.serve RateLimit.careerOptions
      (RateLimit.careerSkip Sample.production) Sample.client_address
      [0; 3599998; 3599999; 3600000; 3600001; 3600002]%Z ∅
  = [true; true; true; true; true; true].
Proof. repeat split; vm_compute; reflexivity. Qed.

(** ** Missing consent (C4) *)

Lemma run_chain_lookup_ne (c : chain) (body : gmap string string)
    (key : string) :
  key <> chain_field c ->
  (run_chain c body).1 !! key = body !! key.
Proof.
  intros Hne. unfold run_chain.
  destruct (chain_optional c && negb (bool_decide (is_Some (body !! chain_field c))));
    [reflexivity |].
  destruct (run_steps (chain_field c) (chain_steps c) (body !! chain_field c))
    as [[x |] errs]; cbn [fst]; [| reflexivity].
  now rewrite lookup_insert_ne by congruence.
Qed.

Lemma run_chains_lookup_ne (cs : list chain) (key : string) :
  forall body : gmap string string,
    Forall (fun c => key <> chain_field c) cs ->
    (run_chains cs body).1 !! key = body !! key.
Proof.
  induction cs as [| c rest IH]; intros body Hall; [reflexivity |].
  inversion Hall as [| ? ? Hc Hrest]; subst.
  cbn [run_chains].
  pose proof (run_chain_lookup_ne c body key Hc) as H1.
  destruct (run_chain c body) as [body1 errs1]. cbn [fst] in H1.
  specialize (IH body1 Hrest).
  destruct (run_chains rest body1) as [body2 errs2]. cbn [fst] in *.
  congruence.
Qed.

Lemma run_chains_app (cs1 cs2 : list chain) :
  forall body : gmap string string,
    run_chains (cs1 ++ cs2) body =
    let '(body1, errs1) := run_chains cs1 body in
    let '(body2, errs2) := run_chains cs2 body1 in
    (body2, (errs1 ++ errs2)%list).
Proof.
  induction cs1 as [| c rest IH]; intros body.
  - cbn. now destruct (run_chains cs2 body).
  - cbn [app run_chains]. destruct (run_chain c body) as [b1 e1].
    rewrite IH. destruct (run_chains rest b1) as [b2 e2].
    destruct (run_chains cs2 b2) as [b3 e3]. now rewrite app_assoc.
Qed.

(** Without a consent field the career validation reports an error on
    it, whatever the other fields are. *)
Lemma missing_consent_reported (V : validatorjs) (body : gmap string string) :
  body !! "consent" = None ->
  exists errs,
    (run_chains (Rules.validateCareerApplication V) body).2
    = (errs ++ [VError "consent" "You must agree to the terms and conditions"
                  None])%list.
Proof.
  intros Hc.
  change (Rules.validateCareerApplication V)
    with (take 8 (Rules.validateCareerApplication V)
          ++ [Rules.required "consent"
                [Check notEmpty "You must agree to the terms and conditions"]])%list.
  rewrite run_chains_app.
  pose proof (run_chains_lookup_ne (take 8 (Rules.validateCareerApplication V))
                "consent" body) as Hkeep.
  destruct (run_chains (take 8 (Rules.validateCareerApplication V)) body)
    as [body1 errs1].
  cbn [fst] in Hkeep. rewrite Hc in Hkeep.
  cbn [run_chains]. unfold run_chain.
  cbn [chain_field chain_optional chain_steps Rules.required andb].
  rewrite Hkeep.
  - cbn. exists errs1. reflexivity.
  - cbn. repeat constructor; discriminate.
Qed.

Lemma has_error_for_entry (field : string) (errors : list verror)
    (message : string) (e : verror) :
  In e errors -> path e = field ->
  has_error_for field
    (CareerController.bad_request message (error_entry <$> errors)) = true.
Proof.
  intros Hin Hpath. unfold has_error_for. cbn.
  apply existsb_exists. exists (error_entry e). split.
  - apply in_map_iff. now exists e.
  - unfold entry_for. cbn. rewrite Hpath. apply String.eqb_refl.
Qed.

(** C4, as the code has it: a request without a consent field never
    reaches the backend (nothing is inserted, nothing is uploaded); when the
    rate limiter admits it and the file intake accepts its attachment, or it
    has none, the answer is 400 with an error entry for the consent
    field. *)
Theorem missing_consent_rejected (V : validatorjs) (B : backend) (E : env)
    (store : gmap string RateLimit.client) (req : Routes.request) :
  Routes.req_body req !! "consent" = None ->
  (Routes.post_careers_apply V B E store req).2 = [] /\
  (forall store' req_file,
     RateLimit.limit RateLimit.careerOptions (RateLimit.careerSkip E)
       (Routes.at_time req) (Routes.ip req) store = (store', RateLimit.Admit) ->
     Multer.single (Routes.files req) = inr req_file ->
     exists r,
       (Routes.post_careers_apply V B E store req).1 = (store', Routes.Sent r) /\
       status r = 400 /\
       has_error_for "consent" r = true).
Proof.
  intros Hc.
  assert (Hsan : Sanitizer.sanitizeCareerInput (Routes.req_body req) !! "consent"
                 = None).
  { unfold Sanitizer.sanitizeCareerInput. now rewrite lookup_fmap, Hc. }
  destruct (missing_consent_reported V _ Hsan) as [errs Herrs].
  unfold Routes.post_careers_apply.
  destruct (RateLimit.limit _ _ _ _ _) as [store1 [| c]].
  2: { split; [reflexivity |]. intros ? ? Heq. discriminate Heq. }
  destruct (Multer.single (Routes.files req)) as [err | req_file].
  { split; [reflexivity |]. intros ? ? _ Heq. discriminate Heq. }
  destruct (run_chains _ _) as [body2 errors]. cbn [snd] in Herrs. subst errors.
  unfold CareerController.submitApplication, run, try_catch.
  destruct (errs ++ [_])%list as [| e0 rest] eqn:Herrors.
  { destruct errs; discriminate Herrors. }
  cbn [ret fst snd]. split; [reflexivity |].
  intros store' file Hadm _. injection Hadm as <-.
  eexists. split; [reflexivity |]. split; [reflexivity |].
  rewrite <- Herrors.
  apply has_error_for_entry
    with (e := VError "consent" "You must agree to the terms and conditions" None);
    [| reflexivity].
  apply in_or_app. right. now left.
Qed.

Lemma missing_consent_rejected_witness :
  (Routes.post_careers_apply Sample.validator (Sample.accepting (JNum 7))
     Sample.production ∅
     (Routes.Request Sample.client_address 0 Sample.without_consent
        [Sample.resume])).2 = [] /\
  exists r,
    (Routes.post_careers_apply Sample.validator (Sample.accepting (JNum 7))
       Sample.production ∅
       (Routes.Request Sample.client_address 0 Sample.without_consent
          [Sample.resume])).1
    = ({[ Sample.client_address := RateLimit.Client 1 3600000 ]},
       Routes.Sent r) /\
    status r = 400 /\
    has_error_for "consent" r = true.
Proof.
  destruct (missing_consent_rejected Sample.validator
              (Sample.accepting (JNum 7)) Sample.production ∅
              (Routes.Request Sample.client_address 0 Sample.without_consent
                 [Sample.resume])) as [Htrace Hresp].
  - apply lookup_delete_eq.
  - split; [exact Htrace |].
    apply (Hresp _ (Some Sample.resume)); vm_compute; reflexivity.
Defined.

(** C4 fails as stated: a request without consent whose attachment is a
    text file is answered 400 by the file intake, with no entry for the
    consent field; and a fourth request inside the hour is answered 429. *)
Lemma missing_consent_claim_fails :
  (exists r,
     Routes.post_careers_apply Sample.validator (Sample.accepting (JNum 7))
       Sample.production ∅
       (Routes.Request Sample.client_address 0 Sample.without_consent
          [Sample.text_file])
     = ({[ Sample.client_address := RateLimit.Client 1 3600000 ]},
        Routes.Sent r, []) /\
     status r = 400 /\
     has_error_for "consent" r = false) /\
  (exists r,
     (Routes.post_careers_apply Sample.validator (Sample.accepting (JNum 7))
        Sample.production
        {[ Sample.client_address := RateLimit.Client 3 3600000 ]}
        (Routes.Request Sample.client_address 600000 Sample.without_consent
           [Sample.resume])).1.2 = Routes.Sent r /\
     status r = 429).
Proof.
  split; eexists; repeat split; vm_compute; reflexivity.
Qed.

(** ** Contact validation (C3) *)

(** *** Trimming *)

Lemma ltrim_head (c : ascii) (t : string) :
  Js.is_space c = false -> Js.ltrim (String c t) = String c t.
Proof. intros H. cbn. now rewrite H. Qed.

Lemma ltrim_idempotent (s : string) : Js.ltrim (Js.ltrim s) = Js.ltrim s.
Proof.
  induction s as [| c t IH]; [reflexivity |].
  cbn. destruct (Js.is_space c) eqn:Hc; [exact IH | now apply ltrim_head].
Qed.

Lemma rtrim_idempotent (s : string) : Js.rtrim (Js.rtrim s) = Js.rtrim s.
Proof.
  induction s as [| c t IH]; [reflexivity |].
  cbn. destruct (Js.rtrim t) as [| c' t'] eqn:Ht.
  - destruct (Js.is_space c) eqn:Hc; [reflexivity |]. cbn. now rewrite Hc.
  - cbn. cbn in IH. now rewrite IH.
Qed.

(** The first character of a right-trimmed string is the original's when
    that is not white space. *)
Lemma ltrim_rtrim (s : string) :
  Js.ltrim s = s -> Js.ltrim (Js.rtrim s) = Js.rtrim s.
Proof.
  destruct s as [| c t]; [reflexivity |].
  intros H. assert (Hc : Js.is_space c = false).
  { destruct (Js.is_space c) eqn:Hc; [| reflexivity]. exfalso.
    cbn in H. rewrite Hc in H.
    assert (Hlen : forall u, String.length (Js.ltrim u) <= String.length u).
    { induction u as [| a u IH]; cbn; [lia |].
      destruct (Js.is_space a); cbn; lia. }
    specialize (Hlen t). rewrite H in Hlen. cbn in Hlen. lia. }
  cbn. destruct (Js.rtrim t); rewrite ?Hc; now apply ltrim_head.
Qed.

Lemma trim_idempotent (s : string) : Js.trim (Js.trim s) = Js.trim s.
Proof.
  unfold Js.trim.
  rewrite (ltrim_rtrim (Js.ltrim s) (ltrim_idempotent s)).
  apply rtrim_idempotent.
Qed.

(** *** Escaping *)

Lemma app_cons (c : ascii) (a b : string) :
  String c a +:+ b = String c (a +:+ b).
Proof. reflexivity. Qed.

Lemma app_empty_r (a : string) : a +:+ "" = a.
Proof. induction a as [| c a IH]; [reflexivity |]. now rewrite app_cons, IH. Qed.

Lemma len_app (a b : string) : Js.len (a +:+ b) = Js.len a + Js.len b.
Proof.
  unfold Js.len. induction a as [| c a IH]; [reflexivity |].
  rewrite app_cons. cbn [String.length Nat.add]. now f_equal.
Qed.

Lemma escape_chr_shape (c : ascii) :
  exists h t, escape_chr c = String h t /\
    (Js.is_space c = false -> Js.is_space h = false) /\
    (Js.is_space c = false ->
     Js.rtrim (String h t) = String h t /\ Js.rtrim t = t).
Proof.
  unfold escape_chr.
  repeat match goal with
         | |- context [if ?b then _ else _] => destruct b
         end;
    eexists _, _; (split; [reflexivity |]);
    (split; [try (intros _; reflexivity); intros H; exact H |]);
    try (intros _; split; vm_compute; reflexivity).
  intros H. cbn. rewrite H. split; reflexivity.
Qed.

Lemma len_escape (s : string) : Js.len s <= Js.len (escape s).
Proof.
  induction s as [| c t IH]; [cbn; lia |].
  cbn [escape]. rewrite len_app.
  destruct (escape_chr_shape c) as [h [u [-> _]]].
  unfold Js.len in *. cbn [String.length]. lia.
Qed.

Lemma rtrim_app_nonempty (a b : string) :
  b <> "" -> Js.rtrim b = b -> Js.rtrim (a +:+ b) = a +:+ b.
Proof.
  intros Hb Hr. induction a as [| c a IH]; [exact Hr |].
  rewrite app_cons. cbn [Js.rtrim]. rewrite IH.
  destruct (a +:+ b) eqn:Hab; [| reflexivity].
  destruct a; [contradiction | rewrite app_cons in Hab; discriminate].
Qed.

Lemma rtrim_fixed_tail (c : ascii) (t : string) :
  Js.rtrim (String c t) = String c t -> t <> "" -> Js.rtrim t = t.
Proof.
  intros H Ht. cbn in H. destruct (Js.rtrim t) as [| c' t'] eqn:Hr.
  - destruct (Js.is_space c); [discriminate |].
    injection H as <-. contradiction.
  - now injection H.
Qed.

Lemma rtrim_fixed_last (c : ascii) :
  Js.rtrim (String c "") = String c "" -> Js.is_space c = false.
Proof. cbn. destruct (Js.is_space c); [discriminate | reflexivity]. Qed.

Lemma escape_nonempty (s : string) : s <> "" -> escape s <> "".
Proof.
  destruct s as [| c t]; [contradiction |]. intros _. cbn [escape].
  destruct (escape_chr_shape c) as [h [u [-> _]]]. discriminate.
Qed.

Lemma rtrim_escape (s : string) :
  Js.rtrim s = s -> Js.rtrim (escape s) = escape s.
Proof.
  induction s as [| c t IH]; [reflexivity |].
  intros H. cbn [escape].
  destruct t as [| c' t'].
  - cbn [escape]. destruct (escape_chr_shape c) as [h [u [Heq [_ Hr]]]].
    rewrite Heq, app_empty_r. apply Hr. now apply rtrim_fixed_last.
  - apply rtrim_app_nonempty.
    + apply escape_nonempty. discriminate.
    + apply IH. apply (rtrim_fixed_tail c); [exact H | discriminate].
Qed.

Lemma ltrim_fixed_head (c : ascii) (t : string) :
  Js.ltrim (String c t) = String c t -> Js.is_space c = false.
Proof.
  intros H. destruct (Js.is_space c) eqn:Hc; [| reflexivity]. exfalso.
  cbn in H. rewrite Hc in H.
  assert (Hlen : forall u, String.length (Js.ltrim u) <= String.length u).
  { induction u as [| a u IH]; cbn; [lia |].
    destruct (Js.is_space a); cbn; lia. }
  specialize (Hlen t). rewrite H in Hlen. cbn in Hlen. lia.
Qed.

Lemma ltrim_escape (s : string) :
  Js.ltrim s = s -> Js.ltrim (escape s) = escape s.
Proof.
  destruct s as [| c t]; [reflexivity |].
  intros H. apply ltrim_fixed_head in H. cbn [escape].
  destruct (escape_chr_shape c) as [h [u [Heq [Hh _]]]].
  rewrite Heq, app_cons. apply ltrim_head. now apply Hh.
Qed.

(** A trimmed string stays trimmed when it is escaped. *)
Lemma trim_escape_trim (s : string) :
  Js.trim (escape (Js.trim s)) = escape (Js.trim s).
Proof.
  unfold Js.trim at 1.
  assert (Hl : Js.ltrim (Js.trim s) = Js.trim s).
  { unfold Js.trim. apply ltrim_rtrim, ltrim_idempotent. }
  assert (Hr : Js.rtrim (Js.trim s) = Js.trim s).
  { unfold Js.trim. apply rtrim_idempotent. }
  rewrite (ltrim_escape _ Hl). now apply rtrim_escape.
Qed.

(** *** Matching runs of a character class *)

Lemma orelse_is_Some_l {A} (x y : option A) :
  is_Some x -> is_Some (Re.orelse x y).
Proof. intros [a ->]. cbn. eauto. Qed.

Lemma orelse_None_l {A} (y : option A) : Re.orelse None y = y.
Proof. reflexivity. Qed.

Section ClassRuns.
Context {A : Type}.
Variable p : ascii -> bool.
Variable k : option ascii -> string -> option A.
Hypothesis k_end : forall prev, is_Some (k prev "").

(** A greedy repetition of a class runs to the end of a string made of
    the class. *)
Lemma star_class (s : string) :
  forall (prev : option ascii) (fuel : nat),
    Js.len s <= fuel ->
    Js.all p s = true ->
    is_Some (Re.star_loop (Re.rmatch (Re.Chr p)) k fuel prev s).
Proof.
  induction s as [| c t IH]; intros prev fuel Hfuel Hall.
  - destruct fuel; cbn; apply k_end.
  - destruct fuel as [| fuel]; [unfold Js.len in *; cbn [String.length] in *; lia |].
    cbn in Hall. apply andb_prop in Hall as [Hc Ht].
    cbn [Re.star_loop]. apply orelse_is_Some_l.
    cbn [Re.rmatch]. rewrite Hc.
    assert (Hlt : (Js.len t <? Js.len (String c t))%nat = true)
      by (apply Nat.ltb_lt; unfold Js.len; cbn [String.length]; lia).
    rewrite Hlt. apply IH; [unfold Js.len in *; cbn [String.length] in *; lia | exact Ht].
Qed.

Lemma rmatch_star_class (s : string) (prev : option ascii) :
  Js.all p s = true ->
  is_Some (Re.rmatch (Re.Star (Re.Chr p)) prev s k).
Proof. intros Hall. cbn [Re.rmatch]. now apply star_class. Qed.

Lemma rmatch_plus_class (s : string) (prev : option ascii) :
  s <> "" ->
  Js.all p s = true ->
  is_Some (Re.rmatch (Re.plus (Re.Chr p)) prev s k).
Proof.
  destruct s as [| c t]; [contradiction |]. intros _ Hall.
  cbn in Hall. apply andb_prop in Hall as [Hc Ht].
  unfold Re.plus. cbn [Re.rmatch]. rewrite Hc.
  now apply star_class.
Qed.

(** At most [n] repetitions of a class take a string of the class of at
    most [n] characters to its end. *)
Lemma rmatch_upto_class (n : nat) :
  forall (s : string) (prev : option ascii),
    Js.len s <= n ->
    Js.all p s = true ->
    is_Some (Re.rmatch (Re.upto n (Re.Chr p)) prev s k).
Proof.
  induction n as [| n IH]; intros s prev Hlen Hall.
  - destruct s; [cbn; apply k_end | unfold Js.len in *; cbn [String.length] in *; lia].
  - cbn [Re.upto]. unfold Re.opt. cbn [Re.rmatch].
    destruct s as [| c t]; [cbn; apply k_end |].
    cbn in Hall. apply andb_prop in Hall as [Hc Ht].
    apply orelse_is_Some_l. rewrite Hc.
    apply IH; [unfold Js.len in *; cbn [String.length] in *; lia | exact Ht].
Qed.

End ClassRuns.

Lemma test_of_match (r : Re.regex) (s : string) :
  is_Some (Re.match_here r None s) -> Re.test r s = true.
Proof.
  intros [x Hx]. unfold Re.test. destruct s; cbn; now rewrite Hx.
Qed.

Lemma eos_end {A} (k : option ascii -> string -> option A) :
  (forall prev, is_Some (k prev "")) ->
  forall prev, is_Some (Re.rmatch Re.Eos prev "" k).
Proof. intros Hk prev. cbn. apply Hk. Qed.

(** An anchored non-empty run of a class accepts every non-empty string
    of the class. *)
Lemma anchored_class_accepts (p : ascii -> bool) (s : string) :
  s <> "" -> Js.all p s = true ->
  Re.test (Re.seq [Re.Bos; Re.plus (Re.Chr p); Re.Eos]) s = true.
Proof.
  intros Hne Hall. apply test_of_match. unfold Re.match_here.
  cbn [Re.seq Re.rmatch].
  apply rmatch_plus_class; [| exact Hne | exact Hall].
  intros prev. cbn. eauto.
Qed.

Lemma contact_name_accepts (s : string) :
  s <> "" -> Js.all Patterns.name_chr s = true ->
  Re.test Patterns.contact_name_re s = true.
Proof. apply anchored_class_accepts. Qed.

Lemma config_name_accepts (s : string) :
  s <> "" -> Js.all Patterns.config_name_chr s = true ->
  Re.test Config.fullName_pattern s = true.
Proof. apply anchored_class_accepts. Qed.

Lemma all_impl (p q : ascii -> bool) (s : string) :
  (forall c, p c = true -> q c = true) ->
  Js.all p s = true -> Js.all q s = true.
Proof.
  intros Hpq. induction s as [| c t IH]; [reflexivity |].
  cbn. intros H. apply andb_prop in H as [Hc Ht].
  now rewrite (Hpq c Hc), (IH Ht).
Qed.

Lemma number_shape_cases (s : string) :
  number_shape s = true ->
  exists d ds,
    (s = String d ds \/ s = String "+" (String d ds)) /\
    Js.in_range 49 57 d = true /\ Js.all Js.is_digit ds = true.
Proof.
  unfold number_shape, after_plus.
  destruct s as [| c t]; [discriminate |].
  destruct (Js.chr_eqb c "+") eqn:Hplus.
  - destruct t as [| d ds]; [discriminate |]. intros H.
    apply andb_prop in H as [Hd Hds]. exists d, ds. split; [right | auto].
    f_equal. unfold Js.chr_eqb, Js.code in Hplus. apply N.eqb_eq in Hplus.
    rewrite <- (ascii_N_embedding c), Hplus. reflexivity.
  - intros H. apply andb_prop in H as [Hd Hds]. exists c, t. auto.
Qed.

Lemma nonzero_digit_not_plus (d : ascii) :
  Js.in_range 49 57 d = true -> Js.chr_eqb "+" d = false.
Proof.
  unfold Js.in_range, Js.chr_eqb. intros H.
  apply andb_prop in H as [Hlo _]. apply N.leb_le in Hlo.
  apply N.eqb_neq. change (Js.code "+") with 43%N. lia.
Qed.

Lemma nonzero_digit_is_digit (d : ascii) :
  Js.in_range 49 57 d = true -> Js.is_digit d = true.
Proof.
  unfold Js.is_digit, Js.in_range. intros H.
  apply andb_prop in H as [Hlo Hhi]. apply N.leb_le in Hlo.
  rewrite Hhi, andb_true_r. apply N.leb_le. lia.
Qed.

(** The contact-number pattern of the route accepts the shape, up to
    sixteen characters. *)
Lemma contact_number_accepts (s : string) :
  number_shape s = true -> Js.len s <= 16 ->
  Re.test Patterns.contact_number_re s = true.
Proof.
  intros Hshape Hlen.
  destruct (number_shape_cases s Hshape) as [d [ds [Hs [Hd Hds]]]].
  apply test_of_match. unfold Re.match_here, Patterns.contact_number_re.
  cbn [Re.seq Re.rmatch Re.opt].
  destruct Hs as [-> | ->].
  - unfold Re.chr at 1. cbn [Re.rmatch].
    rewrite (nonzero_digit_not_plus d Hd), orelse_None_l, Hd.
    apply rmatch_upto_class; [| unfold Js.len in *; cbn [String.length] in *; lia | exact Hds].
    intros prev. cbn. eauto.
  - apply orelse_is_Some_l. unfold Re.chr at 1. cbn [Re.rmatch].
    change (Js.chr_eqb "+" "+") with true. cbv iota. rewrite Hd.
    apply rmatch_upto_class; [| unfold Js.len in *; cbn [String.length] in *; lia | exact Hds].
    intros prev. cbn. eauto.
Qed.

Lemma digit_is_phone_chr (c : ascii) :
  Js.is_digit c = true -> Patterns.phone_chr c = true.
Proof. intros H. unfold Patterns.phone_chr. now rewrite H. Qed.

(** So does the configured contact pattern of the service. *)
Lemma phone_pattern_accepts (s : string) :
  number_shape s = true -> Re.test Patterns.phone_re s = true.
Proof.
  intros Hshape.
  destruct (number_shape_cases s Hshape) as [d [ds [Hs [Hd Hds]]]].
  assert (Hall : Js.all Patterns.phone_chr (String d ds) = true).
  { cbn. rewrite (digit_is_phone_chr d (nonzero_digit_is_digit d Hd)).
    apply (all_impl Js.is_digit); [apply digit_is_phone_chr | exact Hds]. }
  apply test_of_match. unfold Re.match_here, Patterns.phone_re.
  cbn [Re.seq Re.rmatch Re.opt].
  destruct Hs as [-> | ->].
  - unfold Re.chr at 1. cbn [Re.rmatch].
    rewrite (nonzero_digit_not_plus d Hd), orelse_None_l.
    apply (rmatch_plus_class Patterns.phone_chr); [| discriminate | exact Hall].
    intros prev. cbn. eauto.
  - apply orelse_is_Some_l. unfold Re.chr at 1. cbn [Re.rmatch].
    change (Js.chr_eqb "+" "+") with true. cbv iota.
    apply (rmatch_plus_class Patterns.phone_chr); [| discriminate | exact Hall].
    intros prev. cbn. eauto.
Qed.

(** *** The contact pipeline on a well-formed submission *)

Lemma run_chain_required (field : string) (steps : list step)
    (b : gmap string string) (v : string) :
  b !! field = Some v ->
  run_chain (Rules.required field steps) b =
  (match (run_steps field steps (Some v)).1 with
   | Some x => <[field := x]> b
   | None => b
   end, (run_steps field steps (Some v)).2).
Proof.
  intros Hv. unfold run_chain, Rules.required.
  cbn [chain_field chain_optional chain_steps andb]. rewrite Hv.
  now destruct (run_steps field steps (Some v)).
Qed.

Lemma notEmpty_of_len (s : string) : 1 <= Js.len s -> notEmpty s = true.
Proof. destruct s; [cbn; lia | reflexivity]. Qed.

Lemma isLength_of_bounds (lo hi : nat) (s : string) :
  lo <= Js.len s <= hi -> isLength lo (Some hi) s = true.
Proof.
  intros [Hlo Hhi]. unfold isLength.
  apply andb_true_intro. split; apply Nat.leb_le; assumption.
Qed.

Section WellFormedContact.
Variable V : validatorjs.
Variable req_body : gmap string string.
Variables fullName email contact message : string.
Hypothesis has_fullName : req_body !! "fullName" = Some fullName.
Hypothesis has_email : req_body !! "email" = Some email.
Hypothesis has_contact : req_body !! "contact" = Some contact.
Hypothesis has_message : req_body !! "message" = Some message.

Let n := Js.trim (Sanitizer.sanitize_contact_string fullName).
Let e := Js.trim (Sanitizer.sanitize_contact_string email).
Let e' := normalizeEmail V e.
Let c := Js.trim (Sanitizer.sanitize_contact_string contact).
Let m := Js.trim (Sanitizer.sanitize_contact_string message).

Hypothesis name_ok :
  2 <= Js.len n <= 50 /\ Js.all Patterns.config_name_chr n = true.
Hypothesis email_ok :
  1 <= Js.len e /\ isEmail V e = true /\
  Js.len e' <= 255 /\ Re.test Config.email_pattern e' = true.
Hypothesis contact_ok :
  number_shape c = true /\ 10 <= Js.len c <= 16.
Hypothesis message_ok :
  10 <= Js.len m /\ Js.len (escape m) <= 1000.

Let validated : gmap string string :=
  <["message" := escape m]>
    (<["contact" := c]>
       (<["email" := e']>
          (<["fullName" := n]> (Sanitizer.sanitizeInput req_body)))).

Lemma wellformed_chains_pass :
  run_chains (Rules.validateContactForm V) (Sanitizer.sanitizeInput req_body)
  = (validated, []).
Proof.
  destruct name_ok as [[Hn1 Hn2] Hn3].
  destruct email_ok as [He1 [He2 [He3 He4]]].
  destruct contact_ok as [Hc1 [Hc2 Hc3]].
  destruct message_ok as [Hm1 Hm2].
  unfold Rules.validateContactForm. cbn [run_chains].
  rewrite (run_chain_required "fullName" _ _
             (Sanitizer.sanitize_contact_string fullName))
    by (unfold Sanitizer.sanitizeInput; now rewrite lookup_fmap, has_fullName).
  cbn [run_steps toString default from_option id fst snd]. fold n.
  rewrite (notEmpty_of_len n) by lia.
  rewrite (isLength_of_bounds 2 255 n) by lia.
  replace (matches Patterns.contact_name_re n) with true.
  2: { symmetry. apply contact_name_accepts.
       - intros Hn. rewrite Hn in Hn1. cbn in Hn1. lia.
       - apply (all_impl Patterns.config_name_chr); [| exact Hn3].
         intros ch Hch. unfold Patterns.name_chr.
         unfold Patterns.config_name_chr in Hch. now rewrite Hch. }
  cbn [fst snd].
  rewrite (run_chain_required "email" _ _
             (Sanitizer.sanitize_contact_string email))
    by (rewrite lookup_insert_ne by discriminate;
        unfold Sanitizer.sanitizeInput; now rewrite lookup_fmap, has_email).
  cbn [run_steps toString default from_option id fst snd]. fold e. fold e'.
  rewrite (notEmpty_of_len e) by lia. rewrite He2.
  rewrite (isLength_of_bounds 0 255 e') by lia.
  cbn [fst snd].
  rewrite (run_chain_required "contact" _ _
             (Sanitizer.sanitize_contact_string contact))
    by (rewrite !lookup_insert_ne by discriminate;
        unfold Sanitizer.sanitizeInput; now rewrite lookup_fmap, has_contact).
  cbn [run_steps toString default from_option id fst snd]. fold c.
  rewrite (notEmpty_of_len c) by lia.
  replace (matches Patterns.contact_number_re c) with true
    by (symmetry; apply contact_number_accepts; [exact Hc1 | lia]).
  rewrite (isLength_of_bounds 10 16 c) by lia.
  cbn [fst snd].
  rewrite (run_chain_required "message" _ _
             (Sanitizer.sanitize_contact_string message))
    by (rewrite !lookup_insert_ne by discriminate;
        unfold Sanitizer.sanitizeInput; now rewrite lookup_fmap, has_message).
  cbn [run_steps toString default from_option id fst snd]. fold m.
  rewrite (notEmpty_of_len m) by lia.
  pose proof (len_escape m) as Hesc.
  rewrite (isLength_of_bounds 10 2000 m) by lia.
  reflexivity.
Qed.


Lemma wellformed_service_passes :
  ContactService.validateContactData validated = [].
Proof.
  destruct name_ok as [[Hn1 Hn2] Hn3].
  destruct email_ok as [He1 [He2 [He3 He4]]].
  destruct contact_ok as [Hc1 [Hc2 Hc3]].
  destruct message_ok as [Hm1 Hm2].
  pose proof (len_escape m) as Hesc.
  unfold ContactService.validateContactData.
  assert (Hf : validated !! "fullName" = Some n)
    by (unfold validated; now simplify_map_eq).
  assert (He : validated !! "email" = Some e')
    by (unfold validated; now simplify_map_eq).
  assert (Hc : validated !! "contact" = Some c)
    by (unfold validated; now simplify_map_eq).
  assert (Hm : validated !! "message" = Some (escape m))
    by (unfold validated; now simplify_map_eq).
  rewrite Hf, He, Hc, Hm.
  cbn [field_truthy toString default from_option id].
  assert (Hn_ne : n <> "") by (intros Hn; rewrite Hn in Hn1; cbn in Hn1; lia).
  assert (He'_ne : notEmpty e' = true).
  { destruct e'; [vm_compute in He4; discriminate He4 | reflexivity]. }
  rewrite (notEmpty_of_len n) by lia.
  rewrite He'_ne.
  rewrite (notEmpty_of_len c) by lia.
  rewrite (notEmpty_of_len (escape m)) by lia.
  unfold n at 1. rewrite trim_idempotent. fold n.
  unfold m at 1. rewrite trim_escape_trim. fold m.
  rewrite (config_name_accepts n Hn_ne Hn3), He4.
  change Config.contact_pattern with Patterns.phone_re.
  rewrite (phone_pattern_accepts c Hc1).
  cbn [Config.minLength Config.maxLength Config.fullName_rule
       Config.contact_rule Config.message_rule negb orb andb].
  repeat match goal with
         | |- context [(?a <? ?b)%nat] =>
             destruct (Nat.ltb_spec a b); [lia |]
         end.
  reflexivity.
Qed.

(** C3, as the code has it: a contact submission passes both validation
    layers and reaches the insert, so it is not answered 400, when its
    fields, sanitized and trimmed, are: a full name of 2 to 50 letters and
    white-space characters; a non-empty email that the RFC-shape check
    accepts and whose normal form has at most 255 characters and the shape
    local@domain.tld; a contact number made of an optional plus sign and
    digits, the first not zero, 10 to 16 characters in all; a message of at
    least 10 characters and of at most 1000 once HTML-escaped. *)
Theorem wellformed_contact_passes_validation (B : backend) (E : env)
    (store store' : gmap string RateLimit.client) (ip : string) (now : Z)
    (files : list upload_file) :
  RateLimit.limit RateLimit.contactOptions (RateLimit.contactSkip E) now ip
    store = (store', RateLimit.Admit) ->
  exists r,
    Routes.post_contact V B E store (Routes.Request ip now req_body files)
    = (store', Routes.Sent r,
       [InsertRow ContactService.table
          (ContactService.insertData n e' c (escape m))]) /\
    status r <> 400.
Proof.
  intros Hlim. unfold Routes.post_contact.
  cbn [Routes.at_time Routes.ip Routes.req_body].
  rewrite Hlim, wellformed_chains_pass.
  unfold ContactController.createContact, run, try_catch, bind.
  rewrite wellformed_service_passes.
  rewrite (createContact_inserts B E validated n e' c (escape m) [])
    by (unfold validated; now simplify_map_eq).
  cbv zeta. cbn [app].
  assert (Herr : forall x, status (ContactController.on_error E x) <> 400).
  { intros x. unfold ContactController.on_error. cbn [status].
    destruct (Js.includes "Database" (err_message x)); discriminate. }
  destruct (B _) as [r | x].
  - destruct (error r) as [x |].
    + eexists. split; [reflexivity | apply Herr].
    + unfold prop_of, throw, ret.
      destruct (data r) as [| | b | z | s | items | fields];
        try (eexists; split; [reflexivity | apply Herr]);
        (destruct (get "id" _) as [| | b' | z' | s' | items' | fields']);
        cbn [ContactController.reference_of throw ret];
        eexists; (split; [reflexivity |]);
        first [apply Herr | cbn [status]; discriminate].
  - eexists. split; [reflexivity | apply Herr].
Qed.

End WellFormedContact.

Lemma wellformed_contact_passes_validation_witness :
  exists r,
    Routes.post_contact Sample.validator (Sample.accepting (JStr Sample.uuid))
      Sample.production ∅
      (Routes.Request Sample.client_address 0 Sample.john_doe [])
    = ({[ Sample.client_address := RateLimit.Client 1 900000 ]},
       Routes.Sent r,
       [InsertRow ContactService.table Sample.john_row]) /\
    status r <> 400.
Proof.
  apply (wellformed_contact_passes_validation Sample.validator Sample.john_doe
           "John Doe" "JOHN@Example.com" "+14155550100"
           "Hello, I have a question about your products.").
  - reflexivity.
  - reflexivity.
  - reflexivity.
  - reflexivity.
  - vm_compute. repeat split; lia.
  - vm_compute. repeat split; lia.
  - vm_compute. repeat split; lia.
  - vm_compute. repeat split; lia.
  - vm_compute. reflexivity.
Defined.

(** C3 fails as stated: submissions inside the stated bounds are answered
    400, by the service-level rules for a name with punctuation and for a
    message of more than 1000 characters after the route's rules accepted
    them, and by the route's pattern for a ten-digit number that starts with
    zero. *)
Lemma contact_validation_claim_fails :
  ((run_chains (Rules.validateContactForm Sample.validator)
      (Sanitizer.sanitizeInput Sample.punctuated_name)).2 = [] /\
   exists r,
     (Routes.post_contact Sample.validator (Sample.accepting (JStr Sample.uuid))
        Sample.production ∅
        (Routes.Request Sample.client_address 0 Sample.punctuated_name [])).1.2
     = Routes.Sent r /\
     status r = 400 /\
     get "errors" (body r)
     = JArr [JStr "Full name can only contain letters and spaces"]) /\
  ((run_chains (Rules.validateContactForm Sample.validator)
      (Sanitizer.sanitizeInput Sample.long_message)).2 = [] /\
   exists r,
     (Routes.post_contact Sample.validator (Sample.accepting (JStr Sample.uuid))
        Sample.production ∅
        (Routes.Request Sample.client_address 0 Sample.long_message [])).1.2
     = Routes.Sent r /\
     status r = 400 /\
     get "errors" (body r)
     = JArr [JStr "Message must not exceed 1000 characters"]) /\
  (exists r,
     (Routes.post_contact Sample.validator (Sample.accepting (JStr Sample.uuid))
        Sample.production ∅
        (Routes.Request Sample.client_address 0 Sample.leading_zero [])).1.2
     = Routes.Sent r /\
     status r = 400 /\
     has_error_for "contact" r = true).
Proof.
  split; [| split].
  - split; [vm_compute; reflexivity |].
    eexists. split; [vm_compute; reflexivity |].
    split; vm_compute; reflexivity.
  - split; [vm_compute; reflexivity |].
    eexists. split; [vm_compute; reflexivity |].
    split; vm_compute; reflexivity.
  - eexists. split; [vm_compute; reflexivity |].
    split; vm_compute; reflexivity.
Qed.

(** ** The contact scenario (C2) *)

Section ContactScenario.
Variable V : validatorjs.
Variable B : backend.
Variable E : env.
Variables store store' : gmap string RateLimit.client.
Hypothesis accepts : isEmail V "JOHN@Example.com" = true.
Hypothesis normalises : normalizeEmail V "JOHN@Example.com" = "john@example.com".
Hypothesis admitted :
  RateLimit.limit RateLimit.contactOptions (RateLimit.contactSkip E) 0
    Sample.client_address store = (store', RateLimit.Admit).

Let request : Routes.request :=
  Routes.Request Sample.client_address 0 Sample.john_doe [].

(** The validation chains pass the scenario's body on with the email
    lower-cased. *)
Lemma john_doe_validated :
  run_chains (Rules.validateContactForm V)
    (Sanitizer.sanitizeInput Sample.john_doe)
  = (<["email" := "john@example.com"]> Sample.john_doe, []).
Proof.
  assert (He : Js.trim (Sanitizer.sanitize_contact_string "JOHN@Example.com")
               = "JOHN@Example.com") by (vm_compute; reflexivity).
  rewrite (wellformed_chains_pass V Sample.john_doe "John Doe"
             "JOHN@Example.com" "+14155550100"
             "Hello, I have a question about your products.");
    try reflexivity.
  - rewrite He, normalises. vm_compute. reflexivity.
  - vm_compute. repeat split; lia.
  - rewrite He, normalises, accepts. vm_compute. repeat split; lia.
  - vm_compute. repeat split; lia.
  - vm_compute. repeat split; lia.
Qed.

Lemma john_doe_reaches_insert :
  Routes.post_contact V B E store request =
  match
    try_catch
      (contactRecord <~ ContactService.createContact B E
                          (<["email" := "john@example.com"]> Sample.john_doe) ;;
       reference <~ ContactController.reference_of (get "id" contactRecord) ;;
       ret (Response 201
              (JObj [("success", JBool true);
                     ("message", JStr "Thank you for contacting Africure Pharma! We will get back to you soon.");
                     ("data",
                      JObj [("id", get "id" contactRecord);
                            ("submittedAt", get "submittedAt" contactRecord);
                            ("reference", JStr reference)])])))%eff
      (fun e => ret (ContactController.on_error E e)) []
  with
  | (Ok r, trace) => (store', Routes.Sent r, trace)
  | (Throw e, trace) => (store', Routes.PassedOn (err_message e), trace)
  end.
Proof.
  unfold Routes.post_contact, request.
  cbn [Routes.at_time Routes.ip Routes.req_body].
  rewrite admitted, john_doe_validated.
  unfold ContactController.createContact, run.
  assert (Hv : ContactService.validateContactData
                 (<["email" := "john@example.com"]> Sample.john_doe) = [])
    by (vm_compute; reflexivity).
  rewrite Hv. reflexivity.
Qed.

(** With a backend that assigns a string identifier the scenario is
    answered 201, with [id], [submittedAt] and [reference] in the data. *)
Lemma contact_scenario_string_id (id : string) (rest : list (string * json))
    (c : json) :
  B (InsertRow ContactService.table Sample.john_row)
  = Resolved (Result (JObj (("id", JStr id) :: rest)) None c) ->
  exists r,
    Routes.post_contact V B E store request
    = (store', Routes.Sent r, [InsertRow ContactService.table Sample.john_row]) /\
    status r = 201 /\
    get "id" (get "data" (body r)) = JStr id /\
    has "submittedAt" (get "data" (body r)) = true /\
    get "reference" (get "data" (body r))
    = JStr ("AF-" +:+ Js.toUpperCase (Js.slice_last 8 id)).
Proof.
  intros HB. rewrite john_doe_reaches_insert.
  unfold try_catch, bind.
  rewrite (createContact_inserts B E _ "John Doe" "john@example.com"
             "+14155550100" "Hello, I have a question about your products." [])
    by (vm_compute; reflexivity).
  change (ContactService.insertData _ _ _ _) with Sample.john_row.
  rewrite HB. cbn [error data prop_of ret get assoc String.eqb Ascii.eqb
                   Bool.eqb ContactController.reference_of app].
  eexists. split; [reflexivity |]. cbn.
  repeat split; try reflexivity.
  destruct (truthy (assoc "created_at" rest)) eqn:Ht; [| reflexivity].
  unfold has. cbn. destruct (assoc "created_at" rest); try reflexivity.
  discriminate Ht.
Qed.

(** C2: the scenario request is validated and its row is inserted with
    the email lower-cased and trimmed; when the backend assigns a numeric
    identifier, as the repository documents for its contact table, building
    the reference throws and the response is 500 instead of 201. *)
Theorem contact_scenario_numeric_id (n : Z) (rest : list (string * json))
    (c : json) :
  B (InsertRow ContactService.table Sample.john_row)
  = Resolved (Result (JObj (("id", JNum n) :: rest)) None c) ->
  Routes.post_contact V B E store request
  = (store',
     Routes.Sent
       (ContactController.on_error E (type_error_call "contactRecord.id.slice")),
     [InsertRow ContactService.table Sample.john_row]) /\
  status (ContactController.on_error E (type_error_call "contactRecord.id.slice"))
  = 500 /\
  get "Email_id" Sample.john_row = JStr "john@example.com".
Proof.
  intros HB. split; [| split; [vm_compute; reflexivity | reflexivity]].
  rewrite john_doe_reaches_insert.
  unfold try_catch, bind.
  rewrite (createContact_inserts B E _ "John Doe" "john@example.com"
             "+14155550100" "Hello, I have a question about your products." [])
    by (vm_compute; reflexivity).
  change (ContactService.insertData _ _ _ _) with Sample.john_row.
  rewrite HB. reflexivity.
Qed.

End ContactScenario.

Lemma contact_scenario_numeric_id_witness :
  Routes.post_contact Sample.validator (Sample.accepting (JNum 123))
    Sample.production ∅
    (Routes.Request Sample.client_address 0 Sample.john_doe [])
  = ({[ Sample.client_address := RateLimit.Client 1 900000 ]},
     Routes.Sent
       (ContactController.on_error Sample.production
          (type_error_call "contactRecord.id.slice")),
     [InsertRow ContactService.table Sample.john_row]) /\
  status (ContactController.on_error Sample.production
            (type_error_call "contactRecord.id.slice")) = 500 /\
  get "Email_id" Sample.john_row = JStr "john@example.com".
Proof.
  apply (contact_scenario_numeric_id Sample.validator
           (Sample.accepting (JNum 123)) Sample.production ∅
           {[ Sample.client_address := RateLimit.Client 1 900000 ]}
           ltac:(vm_compute; reflexivity) ltac:(vm_compute; reflexivity)
           ltac:(vm_compute; reflexivity) 123
           (("created_at", JStr "2024-01-15T10:30:01.000Z")
            :: Sample.fields_of Sample.john_row) JNull).
  reflexivity.
Defined.


Lemma contact_scenario_string_id_witness :
  exists r,
    Routes.post_contact Sample.validator (Sample.accepting (JStr Sample.uuid))
      Sample.production ∅
      (Routes.Request Sample.client_address 0 Sample.john_doe [])
    = ({[ Sample.client_address := RateLimit.Client 1 900000 ]},
       Routes.Sent r, [InsertRow ContactService.table Sample.john_row]) /\
    status r = 201 /\
    get "id" (get "data" (body r)) = JStr Sample.uuid /\
    has "submittedAt" (get "data" (body r)) = true /\
    get "reference" (get "data" (body r)) = JStr "AF-E2A1B7F4".
Proof.
  apply (contact_scenario_string_id Sample.validator
           (Sample.accepting (JStr Sample.uuid)) Sample.production ∅
           {[ Sample.client_address := RateLimit.Client 1 900000 ]}
           ltac:(vm_compute; reflexivity) ltac:(vm_compute; reflexivity)
           ltac:(vm_compute; reflexivity) Sample.uuid
           (("created_at", JStr "2024-01-15T10:30:01.000Z")
            :: Sample.fields_of Sample.john_row) JNull).
  reflexivity.
Defined.

(** * Further properties *)

(** *** Positions a match can end at *)


Lemma tail_of_refl (s : string) : tail_of s s.
Proof. now exists "". Qed.

Lemma tail_of_cons (c : ascii) (s' s : string) :
  tail_of s' s -> tail_of s' (String c s).
Proof. intros [a ->]. now exists (String c a). Qed.

Lemma tail_of_trans (s1 s2 s3 : string) :
  tail_of s1 s2 -> tail_of s2 s3 -> tail_of s1 s3.
Proof.
  intros [a ->] [b ->]. exists (b +:+ a).
  induction b as [| c b IH]; [reflexivity |].
  rewrite !app_cons. now f_equal.
Qed.

Lemma orelse_Some {A} (x y : option A) (v : A) :
  Re.orelse x y = Some v -> x = Some v \/ (x = None /\ y = Some v).
Proof. destruct x; cbn; intros H; [left | right]; auto. Qed.

Lemma star_loop_tail {A} (step : option ascii -> string ->
                         (option ascii -> string -> option A) -> option A)
    (k : option ascii -> string -> option A) :
  (forall prev s k' x, step prev s k' = Some x ->
     exists p' s', tail_of s' s /\ k' p' s' = Some x) ->
  forall fuel prev s x,
    Re.star_loop step k fuel prev s = Some x ->
    exists p' s', tail_of s' s /\ k p' s' = Some x.
Proof.
  intros Hstep. induction fuel as [| fuel IH]; intros prev s x H.
  - exists prev, s. split; [apply tail_of_refl | exact H].
  - cbn [Re.star_loop] in H. apply orelse_Some in H as [H | [_ H]].
    + apply Hstep in H as [p1 [s1 [Ht H]]].
      destruct (Js.len s1 <? Js.len s)%nat; [| discriminate].
      apply IH in H as [p2 [s2 [Ht2 H]]].
      exists p2, s2. split; [eapply tail_of_trans; eauto | exact H].
    + exists prev, s. split; [apply tail_of_refl | exact H].
Qed.

(** A match continues at a tail of the input. *)
Lemma rmatch_tail (r : Re.regex) :
  forall (A : Type) prev s (k : option ascii -> string -> option A) x,
    Re.rmatch r prev s k = Some x ->
    exists p' s', tail_of s' s /\ k p' s' = Some x.
Proof.
  induction r as [| p | r1 IH1 r2 IH2 | r1 IH1 r2 IH2 | r1 IH1 | r1 IH1 | | |];
    intros A prev s k x H; cbn [Re.rmatch] in H.
  - exists prev, s. split; [apply tail_of_refl | exact H].
  - destruct s as [| c t]; [discriminate |].
    destruct (p c); [| discriminate].
    exists (Some c), t. split; [| exact H]. now exists (String c "").
  - apply IH1 in H as [p1 [s1 [Ht1 H]]].
    apply IH2 in H as [p2 [s2 [Ht2 H]]].
    exists p2, s2. split; [eapply tail_of_trans; eauto | exact H].
  - apply orelse_Some in H as [H | [_ H]]; [exact (IH1 _ _ _ _ _ H) | exact (IH2 _ _ _ _ _ H)].
  - eapply star_loop_tail; [| exact H].
    intros p0 s0 k' x0 H0. exact (IH1 A p0 s0 k' x0 H0).
  - destruct (Re.rmatch r1 prev s _); [discriminate |].
    exists prev, s. split; [apply tail_of_refl | exact H].
  - destruct prev; [discriminate |].
    exists None, s. split; [apply tail_of_refl | exact H].
  - destruct s; [| discriminate].
    exists prev, "". split; [apply tail_of_refl | exact H].
  - destruct (xorb _ _); [| discriminate].
    exists prev, s. split; [apply tail_of_refl | exact H].
Qed.

Lemma chars_app (a b : string) :
  list_ascii_of_string (a +:+ b)
  = (list_ascii_of_string a ++ list_ascii_of_string b)%list.
Proof.
  induction a as [| c a IH]; [reflexivity |].
  rewrite app_cons. cbn. now f_equal.
Qed.

Lemma tail_of_sublist (s' s : string) :
  tail_of s' s ->
  sublist (list_ascii_of_string s') (list_ascii_of_string s).
Proof.
  intros [a ->]. rewrite chars_app. apply sublist_inserts_l. reflexivity.
Qed.

(** A global replacement by the empty string only deletes. *)
Lemma remove_from_sublist (r : Re.regex) :
  forall fuel prev s,
    sublist (list_ascii_of_string (Re.remove_from fuel r prev s))
            (list_ascii_of_string s).
Proof.
  induction fuel as [| fuel IH]; intros prev s; [reflexivity |].
  cbn [Re.remove_from].
  assert (Hkeep : sublist
            (list_ascii_of_string
               match s with
               | String c t => String c (Re.remove_from fuel r (Some c) t)
               | EmptyString => EmptyString
               end) (list_ascii_of_string s)).
  { destruct s as [| c t]; [reflexivity |]. cbn. apply sublist_skip, IH. }
  destruct (Re.match_here r prev s) as [[p' s'] |] eqn:Hm; [| exact Hkeep].
  destruct (Js.len s' <? Js.len s)%nat; [| exact Hkeep].
  apply rmatch_tail in Hm as [p1 [s1 [Ht Heq]]]. injection Heq as -> ->.
  etransitivity; [apply IH | now apply tail_of_sublist].
Qed.

Lemma remove_all_sublist (r : Re.regex) (s : string) :
  sublist (list_ascii_of_string (Re.remove_all r s)) (list_ascii_of_string s).
Proof. apply remove_from_sublist. Qed.

(** Both sanitizers only delete: what they return is the input with some
    of its characters left out, the others in their order; they never add
    or replace a character. *)
Theorem sanitizers_only_delete (s : string) :
  sublist (list_ascii_of_string (Sanitizer.sanitize_contact_string s))
          (list_ascii_of_string s) /\
  sublist (list_ascii_of_string (Sanitizer.sanitize_career_string s))
          (list_ascii_of_string s).
Proof.
  unfold Sanitizer.sanitize_contact_string, Sanitizer.sanitize_career_string.
  split.
  - repeat (etransitivity; [apply remove_all_sublist |]). reflexivity.
  - repeat (etransitivity; [apply remove_all_sublist |]). reflexivity.
Qed.

(** *** Patterns that cannot match a text *)

Section Dead.
Variable ok : ascii -> bool.

Lemma star_loop_none {A} (step : option ascii -> string ->
                         (option ascii -> string -> option A) -> option A)
    (k : option ascii -> string -> option A) :
  (forall prev s k', Js.all ok s = true ->
     (forall p' s', Js.all ok s' = true -> k' p' s' = None) ->
     step prev s k' = None) ->
  (forall p' s', Js.all ok s' = true -> k p' s' = None) ->
  forall fuel prev s, Js.all ok s = true ->
    Re.star_loop step k fuel prev s = None.
Proof.
  intros Hstep Hk. induction fuel as [| fuel IH]; intros prev s Hs.
  - now apply Hk.
  - cbn [Re.star_loop]. rewrite Hstep; [now apply Hk | exact Hs |].
    intros p' s' Hs'. destruct (Js.len s' <? Js.len s)%nat; [| reflexivity].
    now apply IH.
Qed.

(** A match fails when everything that may follow it fails. *)
Lemma rmatch_none (r : Re.regex) :
  forall (A : Type) prev s (k : option ascii -> string -> option A),
    Js.all ok s = true ->
    (forall p' s', Js.all ok s' = true -> k p' s' = None) ->
    Re.rmatch r prev s k = None.
Proof.
  induction r as [| p | r1 IH1 r2 IH2 | r1 IH1 r2 IH2 | r1 IH1 | r1 IH1 | | |];
    intros A prev s k Hs Hk; cbn [Re.rmatch].
  - now apply Hk.
  - destruct s as [| c t]; [reflexivity |].
    cbn in Hs. apply andb_prop in Hs as [_ Ht].
    destruct (p c); [now apply Hk | reflexivity].
  - apply IH1; [exact Hs |]. intros p' s' Hs'. now apply IH2.
  - rewrite IH1, IH2 by assumption. reflexivity.
  - apply star_loop_none; [| exact Hk | exact Hs].
    intros p0 s0 k' Hs0 Hk'. now apply IH1.
  - destruct (Re.rmatch r1 prev s _); [reflexivity | now apply Hk].
  - destruct prev; [reflexivity | now apply Hk].
  - destruct s; [now apply Hk | reflexivity].
  - destruct (xorb _ _); [now apply Hk | reflexivity].
Qed.

Lemma dead_chr (p : ascii -> bool) :
  (forall c, ok c = true -> p c = false) -> dead ok (Re.Chr p).
Proof.
  intros Hp A prev s k Hs. cbn [Re.rmatch].
  destruct s as [| c t]; [reflexivity |].
  cbn in Hs. apply andb_prop in Hs as [Hc _]. now rewrite (Hp c Hc).
Qed.

Lemma dead_cat_l (r1 r2 : Re.regex) : dead ok r1 -> dead ok (Re.Cat r1 r2).
Proof. intros H A prev s k Hs. cbn [Re.rmatch]. now apply H. Qed.

Lemma dead_cat_r (r1 r2 : Re.regex) : dead ok r2 -> dead ok (Re.Cat r1 r2).
Proof.
  intros H A prev s k Hs. cbn [Re.rmatch].
  apply rmatch_none; [exact Hs |]. intros p' s' Hs'. now apply H.
Qed.

(** Nothing is removed from a string in which the pattern cannot match. *)
Lemma remove_from_dead (r : Re.regex) :
  dead ok r ->
  forall fuel prev s, Js.all ok s = true -> Re.remove_from fuel r prev s = s.
Proof.
  intros Hr. induction fuel as [| fuel IH]; intros prev s Hs; [reflexivity |].
  cbn [Re.remove_from]. unfold Re.match_here. rewrite Hr by exact Hs.
  destruct s as [| c t]; [reflexivity |].
  cbn in Hs. apply andb_prop in Hs as [_ Ht]. now rewrite IH.
Qed.

End Dead.

(** Under the [i] flag the less-than sign and the colon match only
    themselves. *)
Lemma chr_ci_lt (c : ascii) :
  Js.chr_eqb (Js.lower_chr c) (Js.lower_chr "<") = Js.chr_eqb c "<".
Proof. destruct c as [[] [] [] [] [] [] [] []]; vm_compute; reflexivity. Qed.

Lemma chr_ci_colon (c : ascii) :
  Js.chr_eqb (Js.lower_chr c) (Js.lower_chr ":") = Js.chr_eqb c ":".
Proof. destruct c as [[] [] [] [] [] [] [] []]; vm_compute; reflexivity. Qed.

Lemma chr_eqb_sym (a b : ascii) : Js.chr_eqb a b = Js.chr_eqb b a.
Proof. unfold Js.chr_eqb. apply N.eqb_sym. Qed.

Lemma plain_not (c : ascii) :
  plain_chr c = true ->
  Js.chr_eqb c "<" = false /\ Js.chr_eqb c ":" = false /\
  Js.chr_eqb c "=" = false.
Proof.
  unfold plain_chr. intros H. apply negb_true_iff in H.
  apply orb_false_elim in H as [H H3]. apply orb_false_elim in H as [H1 H2].
  auto.
Qed.

Lemma tag_block_dead (tag : string) : dead plain_chr (Sanitizer.tag_block tag).
Proof.
  unfold Sanitizer.tag_block. cbn [Re.seq]. apply dead_cat_l.
  cbn [String.append Re.lit_ci]. destruct tag as [| c t].
  - apply dead_chr. intros c Hc. unfold Re.chr_ci.
    rewrite chr_ci_lt. now apply plain_not in Hc as [-> _].
  - apply dead_cat_l, dead_chr. intros x Hx.
    rewrite chr_ci_lt. now apply plain_not in Hx as [-> _].
Qed.

Lemma javascript_dead : dead plain_chr Sanitizer.javascript_re.
Proof.
  unfold Sanitizer.javascript_re. cbn [Re.lit_ci].
  do 10 apply dead_cat_r. apply dead_chr. intros c Hc.
  rewrite chr_ci_colon. now apply plain_not in Hc as [_ [-> _]].
Qed.

Lemma handler_dead : dead plain_chr Sanitizer.handler_re.
Proof.
  unfold Sanitizer.handler_re. cbn [Re.seq].
  do 3 apply dead_cat_r. apply dead_chr. intros c Hc.
  rewrite chr_eqb_sym. now apply plain_not in Hc as [_ [_ ->]].
Qed.

Lemma remove_all_plain (r : Re.regex) (s : string) :
  dead plain_chr r -> Js.all plain_chr s = true -> Re.remove_all r s = s.
Proof. intros Hr Hs. unfold Re.remove_all. now apply (remove_from_dead plain_chr). Qed.

(** A text without a less-than sign, a colon and an equals sign passes
    both sanitizers unchanged. *)
Theorem sanitizers_keep_plain_text (s : string) :
  Js.all plain_chr s = true ->
  Sanitizer.sanitize_contact_string s = s /\
  Sanitizer.sanitize_career_string s = s.
Proof.
  intros Hs.
  unfold Sanitizer.sanitize_contact_string, Sanitizer.sanitize_career_string,
    Sanitizer.script_re, Sanitizer.iframe_re.
  rewrite !(remove_all_plain (Sanitizer.tag_block _) s (tag_block_dead _) Hs).
  rewrite (remove_all_plain _ s javascript_dead Hs).
  rewrite (remove_all_plain _ s handler_dead Hs).
  split; reflexivity.
Qed.

Lemma sanitizers_keep_plain_text_witness :
  Sanitizer.sanitize_contact_string "Hello, I have a question about your products." =
  "Hello, I have a question about your products." /\
  Sanitizer.sanitize_career_string "Hello, I have a question about your products." =
  "Hello, I have a question about your products.".
Proof.
  apply (sanitizers_keep_plain_text "Hello, I have a question about your products.").
  vm_compute. reflexivity.
Defined.

(** *** What the anchored patterns accept *)

Lemma test_from_bos (r : Re.regex) (s : string) :
  forall c, Re.test_from (Re.Cat Re.Bos r) (Some c) s = false.
Proof. induction s as [| a t IH]; intros c; cbn; [reflexivity | apply IH]. Qed.

Lemma test_anchored (r : Re.regex) (s : string) :
  Re.test (Re.Cat Re.Bos r) s = true <->
  is_Some (Re.rmatch r None s (fun p' s' => Some (p', s'))).
Proof.
  unfold Re.test.
  assert (H : Re.match_here (Re.Cat Re.Bos r) None s
              = Re.rmatch r None s (fun p' s' => Some (p', s'))) by reflexivity.
  destruct s as [| c t]; cbn [Re.test_from]; rewrite H;
    destruct (Re.rmatch r None _ _) as [x |].
  - split; eauto.
  - split; [discriminate | intros [x Hx]; discriminate].
  - split; eauto.
  - rewrite test_from_bos. split; [discriminate | intros [x Hx]; discriminate].
Qed.

Lemma orelse_is_Some {A} (x y : option A) :
  is_Some (Re.orelse x y) -> is_Some x \/ is_Some y.
Proof. destruct x; cbn; eauto. Qed.

Lemma len_cons (c : ascii) (t : string) : Js.len (String c t) = S (Js.len t).
Proof. reflexivity. Qed.

Section ClassRunsInv.
Context {A : Type}.
Variable p : ascii -> bool.
Variable k : option ascii -> string -> option A.
Hypothesis k_only_end : forall prev s, is_Some (k prev s) -> s = "".

Lemma star_class_inv (fuel : nat) :
  forall prev s,
    is_Some (Re.star_loop (Re.rmatch (Re.Chr p)) k fuel prev s) ->
    Js.all p s = true.
Proof.
  induction fuel as [| fuel IH]; intros prev s H.
  - apply k_only_end in H as ->. reflexivity.
  - cbn [Re.star_loop] in H. apply orelse_is_Some in H as [H | H].
    + cbn [Re.rmatch] in H. destruct s as [| c t]; [reflexivity |].
      cbn [Js.all]. destruct (p c); [| destruct H; discriminate].
      destruct (Js.len t <? Js.len (String c t))%nat; [| destruct H; discriminate].
      now rewrite (IH _ _ H).
    + apply k_only_end in H as ->. reflexivity.
Qed.

Lemma plus_class_inv (prev : option ascii) (s : string) :
  is_Some (Re.rmatch (Re.plus (Re.Chr p)) prev s k) ->
  s <> "" /\ Js.all p s = true.
Proof.
  unfold Re.plus. cbn [Re.rmatch]. destruct s as [| c t]; [intros [x Hx]; discriminate |].
  cbn [Js.all]. destruct (p c); [| intros [x Hx]; discriminate].
  intros H. split; [discriminate |]. now rewrite (star_class_inv _ _ _ H).
Qed.

Lemma upto_class_inv (n : nat) :
  forall prev s,
    is_Some (Re.rmatch (Re.upto n (Re.Chr p)) prev s k) ->
    Js.len s <= n /\ Js.all p s = true.
Proof.
  induction n as [| n IH]; intros prev s H.
  - cbn in H. apply k_only_end in H as ->. split; [cbn; lia | reflexivity].
  - cbn [Re.upto] in H. unfold Re.opt in H. cbn [Re.rmatch] in H.
    apply orelse_is_Some in H as [H | H].
    + destruct s as [| c t]; [destruct H; discriminate |].
      cbn [Js.all]. destruct (p c); [| destruct H; discriminate].
      apply IH in H as [Hlen ->]. rewrite len_cons. split; [lia | reflexivity].
    + apply k_only_end in H as ->. split; [cbn; lia | reflexivity].
Qed.

End ClassRunsInv.

Lemma eos_only_end {A} (k : option ascii -> string -> option A) :
  forall prev s, is_Some (Re.rmatch Re.Eos prev s k) -> s = "".
Proof. intros prev [| c t] [x Hx]; [reflexivity | discriminate]. Qed.

(** An anchored non-empty run of a class accepts the non-empty strings of
    the class and nothing else. *)
Lemma anchored_class_iff (p : ascii -> bool) (s : string) :
  Re.test (Re.seq [Re.Bos; Re.plus (Re.Chr p); Re.Eos]) s = true <->
  s <> "" /\ Js.all p s = true.
Proof.
  split.
  - intros H. cbn [Re.seq] in H. apply test_anchored in H.
    cbn [Re.rmatch] in H.
    change (is_Some (Re.rmatch (Re.plus (Re.Chr p)) None s
                       (fun p' s' => Re.rmatch Re.Eos p' s'
                                       (fun p'' s'' => Some (p'', s''))))) in H.
    eapply plus_class_inv; [| exact H]. apply eos_only_end.
  - intros [Hne Hall]. now apply anchored_class_accepts.
Qed.

Lemma chr_eqb_eq (a b : ascii) : Js.chr_eqb a b = true <-> a = b.
Proof.
  unfold Js.chr_eqb, Js.code. rewrite N.eqb_eq. split; [| now intros ->].
  intros H. now rewrite <- (ascii_N_embedding a), H, ascii_N_embedding.
Qed.

(** The number pattern of the contact route, after an optional plus sign:
    a digit from 1 to 9, then at most fifteen digits. *)
Lemma number_tail_iff (prev : option ascii) (s : string) :
  is_Some (Re.rmatch
             (Re.seq [Re.Chr (Js.in_range 49 57);
                      Re.upto 15 (Re.Chr Js.is_digit); Re.Eos])
             prev s (fun p' s' => Some (p', s'))) <->
  exists d ds, s = String d ds /\ Js.in_range 49 57 d = true /\
               Js.all Js.is_digit ds = true /\ Js.len ds <= 15.
Proof.
  cbn [Re.seq]. split.
  - intros H. cbn [Re.rmatch] in H. destruct s as [| d ds]; [destruct H; discriminate |].
    destruct (Js.in_range 49 57 d) eqn:Hd; [| destruct H; discriminate].
    change (is_Some (Re.rmatch (Re.upto 15 (Re.Chr Js.is_digit)) (Some d) ds
                       (fun p' s' => Re.rmatch Re.Eos p' s'
                                       (fun p'' s'' => Some (p'', s''))))) in H.
    apply upto_class_inv in H as [Hlen Hall]; [| apply eos_only_end].
    exists d, ds. auto.
  - intros [d [ds [-> [Hd [Hall Hlen]]]]]. cbn [Re.rmatch]. rewrite Hd.
    apply rmatch_upto_class; [| exact Hlen | exact Hall].
    intros p'. cbn. eauto.
Qed.

Lemma contact_number_iff (s : string) :
  Re.test Patterns.contact_number_re s = true <->
  number_shape s = true /\ Js.len (after_plus s) <= 16.
Proof.
  unfold Patterns.contact_number_re.
  change (Re.seq [Re.Bos; Re.opt (Re.chr "+"); Re.Chr (Js.in_range 49 57);
                  Re.upto 15 (Re.Chr Js.is_digit); Re.Eos])
    with (Re.Cat Re.Bos
            (Re.Cat (Re.opt (Re.chr "+"))
               (Re.seq [Re.Chr (Js.in_range 49 57);
                        Re.upto 15 (Re.Chr Js.is_digit); Re.Eos]))).
  rewrite test_anchored. unfold Re.opt.
  set (R := Re.seq [Re.Chr (Js.in_range 49 57);
                    Re.upto 15 (Re.Chr Js.is_digit); Re.Eos]).
  cbn [Re.rmatch]. unfold number_shape, after_plus.
  destruct s as [| c t].
  - cbn. split; [intros [x Hx]; discriminate | intros [H _]; discriminate].
  - unfold Re.chr at 1. cbn [Re.rmatch]. rewrite (chr_eqb_sym "+" c).
    destruct (Js.chr_eqb c "+") eqn:Hplus.
    + apply chr_eqb_eq in Hplus as ->. split.
      * intros H. apply orelse_is_Some in H as [H | H].
        -- apply number_tail_iff in H as [d [ds [-> [Hd [Hall Hlen]]]]].
           rewrite Hd, Hall, len_cons. split; [reflexivity | lia].
        -- apply number_tail_iff in H as [d [ds [Heq [Hd _]]]].
           injection Heq as <- _. discriminate Hd.
      * intros [Hshape Hlen]. apply orelse_is_Some_l, number_tail_iff.
        destruct t as [| d ds]; [discriminate |].
        apply andb_prop in Hshape as [Hd Hall]. rewrite len_cons in Hlen.
        exists d, ds. repeat split; auto; lia.
    + rewrite orelse_None_l. subst R. rewrite number_tail_iff. split.
      * intros [d [ds [Heq [Hd [Hall Hlen]]]]]. injection Heq as <- <-.
        rewrite Hd, Hall, len_cons. split; [reflexivity | lia].
      * intros [Hshape Hlen]. apply andb_prop in Hshape as [Hd Hall].
        rewrite len_cons in Hlen. exists c, t. repeat split; auto; lia.
Qed.

Lemma plus_not_phone_chr : Patterns.phone_chr "+" = false.
Proof. vm_compute. reflexivity. Qed.

Lemma phone_iff (s : string) :
  Re.test Patterns.phone_re s = true <->
  after_plus s <> "" /\ Js.all Patterns.phone_chr (after_plus s) = true.
Proof.
  unfold Patterns.phone_re.
  change (Re.seq [Re.Bos; Re.opt (Re.chr "+"); Re.plus (Re.Chr Patterns.phone_chr);
                  Re.Eos])
    with (Re.Cat Re.Bos
            (Re.Cat (Re.opt (Re.chr "+"))
               (Re.Cat (Re.plus (Re.Chr Patterns.phone_chr)) Re.Eos))).
  rewrite test_anchored. unfold Re.opt.
  assert (Hrun : forall prev u,
            is_Some (Re.rmatch (Re.Cat (Re.plus (Re.Chr Patterns.phone_chr)) Re.Eos)
                       prev u (fun p' s' => Some (p', s'))) <->
            u <> "" /\ Js.all Patterns.phone_chr u = true).
  { intros prev u. split.
    - intros H. cbn [Re.rmatch] in H.
      change (is_Some (Re.rmatch (Re.plus (Re.Chr Patterns.phone_chr)) prev u
                         (fun p' s' => Re.rmatch Re.Eos p' s'
                                         (fun p'' s'' => Some (p'', s''))))) in H.
      eapply plus_class_inv; [| exact H]. apply eos_only_end.
    - intros [Hne Hall].
      change (is_Some (Re.rmatch (Re.plus (Re.Chr Patterns.phone_chr)) prev u
                         (fun p' s' => Re.rmatch Re.Eos p' s'
                                         (fun p'' s'' => Some (p'', s''))))).
      apply rmatch_plus_class; [| exact Hne | exact Hall].
      intros p'. cbn. eauto. }
  set (R := Re.Cat (Re.plus (Re.Chr Patterns.phone_chr)) Re.Eos) in *.
  cbn [Re.rmatch]. unfold after_plus. unfold Re.chr at 1. cbn [Re.rmatch].
  destruct s as [| c t].
  - rewrite orelse_None_l, Hrun. tauto.
  - rewrite (chr_eqb_sym "+" c).
    destruct (Js.chr_eqb c "+") eqn:Hplus.
    + apply chr_eqb_eq in Hplus as ->. split.
      * intros H. apply orelse_is_Some in H as [H | H];
          [exact (proj1 (Hrun _ _) H) |].
        apply Hrun in H as [_ H]. cbn [Js.all] in H.
        rewrite plus_not_phone_chr in H. discriminate.
      * intros H. apply orelse_is_Some_l. exact (proj2 (Hrun _ _) H).
    + rewrite orelse_None_l. apply Hrun.
Qed.

(** The patterns of the route validators accept exactly: for a name, the
    non-empty strings of letters, white space, hyphens, dots and
    apostrophes; for a contact number, an optional plus sign, a digit from 1
    to 9 and at most fifteen more digits; for a phone number, an optional
    plus sign and a non-empty run of digits, white space, hyphens and
    parentheses. *)
Theorem route_patterns_exact (s : string) :
  (matches Patterns.contact_name_re s = true <->
   s <> "" /\ Js.all Patterns.name_chr s = true) /\
  (matches Patterns.career_name_re s = true <->
   s <> "" /\ Js.all Patterns.name_chr s = true) /\
  (matches Patterns.contact_number_re s = true <->
   number_shape s = true /\ Js.len (after_plus s) <= 16) /\
  (matches Patterns.phone_re s = true <->
   after_plus s <> "" /\ Js.all Patterns.phone_chr (after_plus s) = true).
Proof.
  unfold matches. split; [| split; [| split]].
  - apply anchored_class_iff.
  - apply anchored_class_iff.
  - apply contact_number_iff.
  - apply phone_iff.
Qed.

(** *** Chains that report nothing *)

Lemma run_chains_nil_inv (c : chain) (cs : list chain)
    (b b' : gmap string string) :
  run_chains (c :: cs) b = (b', []) ->
  exists b1, run_chain c b = (b1, []) /\ run_chains cs b1 = (b', []).
Proof.
  cbn [run_chains]. destruct (run_chain c b) as [b1 e1] eqn:H1.
  destruct (run_chains cs b1) as [b2 e2] eqn:H2. intros H. injection H as -> H.
  destruct e1; [| discriminate]. cbn in H. subst e2.
  exists b1. split; [reflexivity | exact H2].
Qed.

Lemma run_steps_check_ok (field : string) (p : string -> bool) (m : string)
    (rest : list step) (v x : option string) :
  run_steps field (Check p m :: rest) v = (x, []) ->
  p (toString v) = true /\ run_steps field rest v = (x, []).
Proof.
  cbn [run_steps]. destruct (run_steps field rest v) as [v' e].
  destruct (p (toString v)); intros H; [| discriminate].
  injection H as -> ->. auto.
Qed.

Lemma run_steps_sanitize (field : string) (f : string -> string)
    (rest : list step) (v : option string) :
  run_steps field (Sanitize f :: rest) v
  = run_steps field rest (Some (f (toString v))).
Proof. reflexivity. Qed.

Lemma run_steps_done (field : string) (v x : option string) :
  run_steps field [] v = (x, []) -> x = v.
Proof. cbn. now intros [= <-]. Qed.

Lemma run_chain_required_inv (field : string) (steps : list step)
    (b b1 : gmap string string) :
  run_chain (Rules.required field steps) b = (b1, []) ->
  exists x, run_steps field steps (b !! field) = (x, []) /\
            b1 = match x with Some y => <[field := y]> b | None => b end.
Proof.
  unfold run_chain, Rules.required.
  cbn [chain_field chain_optional chain_steps andb].
  destruct (run_steps field steps (b !! field)) as [x e].
  intros H. injection H as <- ->. eauto.
Qed.

(** A chain that trims first and reports nothing leaves the trimmed value
    in the body, and every check held of it. *)
Lemma trimmed_chain_inv (field : string) (checks : list step)
    (b b1 : gmap string string) :
  run_chain (Rules.required field (Sanitize Js.trim :: checks)) b = (b1, []) ->
  exists x,
    run_steps field checks (Some (Js.trim (toString (b !! field)))) = (x, []) /\
    b1 = match x with Some y => <[field := y]> b | None => b end.
Proof. intros H. apply run_chain_required_inv in H. exact H. Qed.

Lemma notEmpty_len (s : string) : notEmpty s = true -> 1 <= Js.len s.
Proof. destruct s; [discriminate | cbn; lia]. Qed.

Lemma isLength_bounds (lo hi : nat) (s : string) :
  isLength lo (Some hi) s = true -> lo <= Js.len s <= hi.
Proof.
  unfold isLength. intros H. apply andb_prop in H as [H1 H2].
  apply Nat.leb_le in H1, H2. lia.
Qed.

Lemma trim_trim_toString (v : option string) :
  Js.trim (Js.trim (toString v)) = Js.trim (toString v).
Proof. apply trim_idempotent. Qed.

(** What the contact chains leave in the body when they report nothing. *)
Lemma contact_chains_inv (V : validatorjs) (body body' : gmap string string) :
  run_chains (Rules.validateContactForm V) body = (body', []) ->
  exists n e c m b3,
    body' = <["message" := escape (Js.trim m)]> b3 /\
    b3 = <["contact" := Js.trim c]>
           (<["email" := normalizeEmail V (Js.trim e)]>
              (<["fullName" := Js.trim n]> body)) /\
    (2 <= Js.len (Js.trim n) <= 255 /\
     matches Patterns.contact_name_re (Js.trim n) = true) /\
    (notEmpty (Js.trim e) = true /\ isEmail V (Js.trim e) = true /\
     Js.len (normalizeEmail V (Js.trim e)) <= 255) /\
    (matches Patterns.contact_number_re (Js.trim c) = true /\
     10 <= Js.len (Js.trim c) <= 16) /\
    10 <= Js.len (Js.trim m) <= 2000.
Proof.
  unfold Rules.validateContactForm. intros H.
  apply run_chains_nil_inv in H as [b1 [H1 H]].
  apply run_chains_nil_inv in H as [b2 [H2 H]].
  apply run_chains_nil_inv in H as [b3 [H3 H]].
  apply run_chains_nil_inv in H as [b4 [H4 H]].
  cbn [run_chains] in H. injection H as <-.
  apply trimmed_chain_inv in H1 as [x1 [H1 ->]].
  apply run_steps_check_ok in H1 as [Hn1 H1].
  apply run_steps_check_ok in H1 as [Hn2 H1].
  apply run_steps_check_ok in H1 as [Hn3 H1].
  apply run_steps_done in H1 as ->.
  apply trimmed_chain_inv in H2 as [x2 [H2 ->]].
  apply run_steps_check_ok in H2 as [He1 H2].
  apply run_steps_check_ok in H2 as [He2 H2].
  rewrite run_steps_sanitize in H2.
  apply run_steps_check_ok in H2 as [He3 H2].
  apply run_steps_done in H2 as ->.
  apply trimmed_chain_inv in H3 as [x3 [H3 ->]].
  apply run_steps_check_ok in H3 as [Hc1 H3].
  apply run_steps_check_ok in H3 as [Hc2 H3].
  apply run_steps_check_ok in H3 as [Hc3 H3].
  apply run_steps_done in H3 as ->.
  apply trimmed_chain_inv in H4 as [x4 [H4 ->]].
  apply run_steps_check_ok in H4 as [Hm1 H4].
  apply run_steps_check_ok in H4 as [Hm2 H4].
  rewrite run_steps_sanitize in H4.
  apply run_steps_done in H4 as ->.
  cbn [toString default from_option id] in *.
  eexists _, _, _, _, _. split; [reflexivity |]. split; [reflexivity |].
  apply isLength_bounds in Hn2, He3, Hc3, Hm2.
  repeat split; auto; lia.
Qed.

(** The service-level validation of a body the contact chains accepted:
    four of its eight rules are settled by the chains. *)
Lemma contact_service_after_chains (V : validatorjs)
    (body body' : gmap string string) :
  run_chains (Rules.validateContactForm V) body = (body', []) ->
  exists n e c m,
    (body' !! "fullName" = Some n /\ body' !! "email" = Some e /\
     body' !! "contact" = Some c /\ body' !! "message" = Some (escape m)) /\
    (Js.trim n = n /\ Js.trim c = c /\ Js.trim m = m) /\
    (2 <= Js.len n /\ number_shape c = true /\ 10 <= Js.len c <= 16 /\
     10 <= Js.len m) /\
    ContactService.validateContactData body' =
    ((if (50 <? Js.len n)%nat
      then ["Full name must not exceed 50 characters"] else [])
     ++ (if negb (Re.test Config.fullName_pattern n)
         then ["Full name can only contain letters and spaces"] else [])
     ++ (if negb (notEmpty e) || negb (Re.test Config.email_pattern e)
         then ["Please provide a valid email address"] else [])
     ++ (if (1000 <? Js.len (escape m))%nat
         then ["Message must not exceed 1000 characters"] else []))%list.
Proof.
  intros H.
  apply contact_chains_inv in H
    as [n [e [c [m [b3 [-> [-> [[Hn1 Hn2] [[He1 [He2 He3]] [[Hc1 Hc2] Hm]]]]]]]]]].
  exists (Js.trim n), (normalizeEmail V (Js.trim e)), (Js.trim c), (Js.trim m).
  assert (Hf : forall X : gmap string string,
             <["message" := escape (Js.trim m)]>
               (<["contact" := Js.trim c]>
                  (<["email" := normalizeEmail V (Js.trim e)]>
                     (<["fullName" := Js.trim n]> X))) !! "fullName"
             = Some (Js.trim n)).
  { intros X. rewrite !lookup_insert_ne by discriminate. apply lookup_insert_eq. }
  assert (Hem : forall X : gmap string string,
             <["message" := escape (Js.trim m)]>
               (<["contact" := Js.trim c]>
                  (<["email" := normalizeEmail V (Js.trim e)]> X)) !! "email"
             = Some (normalizeEmail V (Js.trim e))).
  { intros X. rewrite !lookup_insert_ne by discriminate. apply lookup_insert_eq. }
  assert (Hco : forall X : gmap string string,
             <["message" := escape (Js.trim m)]>
               (<["contact" := Js.trim c]> X) !! "contact"
             = Some (Js.trim c)).
  { intros X. rewrite !lookup_insert_ne by discriminate. apply lookup_insert_eq. }
  apply contact_number_iff in Hc1 as [Hshape _].
  split; [rewrite Hf, Hem, Hco, lookup_insert_eq; auto |].
  split; [rewrite !trim_idempotent; auto |].
  split; [repeat split; auto; lia |].
  unfold ContactService.validateContactData.
  rewrite Hf, Hem, Hco, lookup_insert_eq.
  cbn [field_truthy toString default from_option id].
  pose proof (len_escape (Js.trim m)) as Hesc.
  rewrite (notEmpty_of_len (Js.trim n)) by lia.
  rewrite (notEmpty_of_len (Js.trim c)) by lia.
  rewrite (notEmpty_of_len (escape (Js.trim m))) by lia.
  rewrite trim_idempotent, trim_escape_trim.
  change Config.contact_pattern with Patterns.phone_re.
  rewrite (phone_pattern_accepts (Js.trim c) Hshape).
  cbn [Config.minLength Config.maxLength Config.fullName_rule
       Config.contact_rule Config.message_rule negb orb andb].
  destruct (Nat.ltb_spec (Js.len (Js.trim n)) 2); [lia |].
  destruct (Nat.ltb_spec (Js.len (Js.trim c)) 10); [lia |].
  destruct (Nat.ltb_spec (Js.len (escape (Js.trim m))) 10); [lia |].
  reflexivity.
Qed.

(** For a body whose fields are all strings: after the contact chains
    accepted it, the service-level validation can only object to a name of
    more than 50 characters or with punctuation, to the shape of the email,
    and to a message of more than 1000 characters once escaped.  (A field
    that holds an array is checked by the chains element by element and by
    the service as a whole; such bodies are not covered.) *)
Theorem contact_service_residual (V : validatorjs)
    (body : gmap string string) :
  (run_chains (Rules.validateContactForm V) body).2 = [] ->
  ContactService.validateContactData
    (run_chains (Rules.validateContactForm V) body).1 ⊆ contact_residual.
Proof.
  destruct (run_chains _ body) as [body' errs] eqn:H. cbn [fst snd].
  intros ->.
  apply contact_service_after_chains in H as [n [e [c [m [_ [_ [_ ->]]]]]]].
  apply sublist_subseteq. unfold contact_residual.
  destruct (50 <? _)%nat, (negb (Re.test Config.fullName_pattern _)),
    (negb (notEmpty _) || _), (1000 <? _)%nat;
    cbn [app];
    repeat first [apply sublist_nil | apply sublist_skip | apply sublist_cons].
Qed.

Lemma contact_service_residual_witness :
  ContactService.validateContactData
    (run_chains (Rules.validateContactForm Sample.validator)
       (Sanitizer.sanitizeInput Sample.punctuated_name)).1
  ⊆ contact_residual.
Proof.
  apply (contact_service_residual Sample.validator
           (Sanitizer.sanitizeInput Sample.punctuated_name)).
  vm_compute. reflexivity.
Defined.

(** A chain of checks without a sanitizer that reports nothing: the field
    is present and every check held of it. *)
Lemma checked_chain_inv (field : string) (p q : string -> bool)
    (m1 m2 : string) (b b1 : gmap string string) :
  (forall s, p s = true -> s <> "") ->
  run_chain (Rules.required field [Check p m1; Check q m2]) b = (b1, []) ->
  exists v, b !! field = Some v /\ p v = true /\ q v = true /\
            b1 = <[field := v]> b.
Proof.
  intros Hp H. apply run_chain_required_inv in H as [x [H ->]].
  apply run_steps_check_ok in H as [H1 H].
  apply run_steps_check_ok in H as [H2 H].
  apply run_steps_done in H as ->.
  destruct (b !! field) as [v |]; [eauto 6 |].
  exfalso. now apply (Hp "").
Qed.

Lemma notEmpty_ne (s : string) : notEmpty s = true -> s <> "".
Proof. intros H ->. discriminate H. Qed.

Lemma isIn_trimmed (values : list string) (s : string) :
  forallb (fun v => negb (Js.len (Js.trim v) =? 0)%nat) values = true ->
  isIn values s = true -> (Js.len (Js.trim s) =? 0)%nat = false.
Proof.
  intros Hall Hin. apply isIn_In in Hin.
  rewrite forallb_forall in Hall. specialize (Hall s Hin).
  now apply negb_true_iff in Hall.
Qed.

(** The optional cover-letter chain: it leaves an absent field absent,
    and a present one trimmed and of at most 2000 characters. *)
Lemma cover_letter_chain_inv (b b1 : gmap string string) :
  run_chain
    (Chain "coverLetter" true
       [Sanitize Js.trim;
        Check (isLength 0 (Some 2000))
          "Cover letter must not exceed 2000 characters"]) b = (b1, []) ->
  (b !! "coverLetter" = None /\ b1 = b) \/
  (exists t, b1 = <["coverLetter" := Js.trim t]> b /\ Js.len (Js.trim t) <= 2000).
Proof.
  unfold run_chain. cbn [chain_field chain_optional chain_steps andb].
  destruct (b !! "coverLetter") as [t |] eqn:Ht.
  - rewrite bool_decide_eq_true_2 by eauto. cbn [negb].
    rewrite run_steps_sanitize.
    destruct (run_steps _ _ _) as [x errs] eqn:Hs. intros H. injection H as <- ->.
    apply run_steps_check_ok in Hs as [Hlen Hs]. apply run_steps_done in Hs as ->.
    apply isLength_bounds in Hlen. right. exists t. split; [reflexivity | ].
    cbn [toString default from_option id] in Hlen. lia.
  - rewrite bool_decide_eq_false_2 by (intros [x Hx]; discriminate Hx).
    cbn [negb]. intros H. injection H as <-. now left.
Qed.

(** The service-level validation of a body the career chains accepted:
    all its rules but those of the email are settled by the chains. *)
Lemma career_service_after_chains (V : validatorjs)
    (body body' : gmap string string) :
  run_chains (Rules.validateCareerApplication V) body = (body', []) ->
  exists n e ph l p x q consent,
    (body' !! "fullName" = Some n /\ body' !! "email" = Some e /\
     body' !! "phone" = Some ph /\ body' !! "location" = Some l /\
     body' !! "position" = Some p /\ body' !! "experience" = Some x /\
     body' !! "qualification" = Some q /\ body' !! "consent" = Some consent) /\
    (Js.trim n = n /\ Js.trim ph = ph /\ Js.trim l = l) /\
    (2 <= Js.len n <= 100 /\ matches Patterns.career_name_re n = true) /\
    (10 <= Js.len ph <= 15 /\ matches Patterns.phone_re ph = true) /\
    2 <= Js.len l <= 100 /\
    (isIn Rules.validPositions p = true /\
     isIn Rules.validExperience x = true /\
     isIn Rules.validQualifications q = true) /\
    notEmpty consent = true /\
    (body' !! "coverLetter" = None \/
     exists t, body' !! "coverLetter" = Some t /\ Js.trim t = t /\
               Js.len t <= 2000) /\
    CareerService.validateApplicationData body' =
    ((if negb (notEmpty e) || (Js.len (Js.trim e) =? 0)%nat
      then ["email is required"] else [])
     ++ (if notEmpty e && negb (Re.test Patterns.email_re e)
         then ["Please provide a valid email address"] else []))%list.
Proof.
  unfold Rules.validateCareerApplication. intros H.
  apply run_chains_nil_inv in H as [b1 [H1 H]].
  apply run_chains_nil_inv in H as [b2 [H2 H]].
  apply run_chains_nil_inv in H as [b3 [H3 H]].
  apply run_chains_nil_inv in H as [b4 [H4 H]].
  apply run_chains_nil_inv in H as [b5 [H5 H]].
  apply run_chains_nil_inv in H as [b6 [H6 H]].
  apply run_chains_nil_inv in H as [b7 [H7 H]].
  apply run_chains_nil_inv in H as [b8 [H8 H]].
  apply run_chains_nil_inv in H as [b9 [H9 H]].
  cbn [run_chains] in H. injection H as <-.
  apply trimmed_chain_inv in H1 as [x1 [H1 ->]].
  apply run_steps_check_ok in H1 as [Hn1 H1].
  apply run_steps_check_ok in H1 as [Hn2 H1].
  apply run_steps_check_ok in H1 as [Hn3 H1].
  apply run_steps_done in H1 as ->.
  apply trimmed_chain_inv in H2 as [x2 [H2 ->]].
  apply run_steps_check_ok in H2 as [He1 H2].
  apply run_steps_check_ok in H2 as [He2 H2].
  rewrite run_steps_sanitize in H2. apply run_steps_done in H2 as ->.
  apply trimmed_chain_inv in H3 as [x3 [H3 ->]].
  apply run_steps_check_ok in H3 as [Hp1 H3].
  apply run_steps_check_ok in H3 as [Hp2 H3].
  apply run_steps_check_ok in H3 as [Hp3 H3].
  apply run_steps_done in H3 as ->.
  apply trimmed_chain_inv in H4 as [x4 [H4 ->]].
  apply run_steps_check_ok in H4 as [Hl1 H4].
  apply run_steps_check_ok in H4 as [Hl2 H4].
  apply run_steps_done in H4 as ->.
  apply checked_chain_inv in H5 as [p [_ [Hpos1 [Hpos2 ->]]]];
    [| apply notEmpty_ne].
  apply checked_chain_inv in H6 as [x [_ [Hexp1 [Hexp2 ->]]]];
    [| apply notEmpty_ne].
  apply checked_chain_inv in H7 as [q [_ [Hq1 [Hq2 ->]]]];
    [| apply notEmpty_ne].
  apply run_chain_required_inv in H9 as [x9 [H9 ->]].
  apply run_steps_check_ok in H9 as [Hc H9].
  apply run_steps_done in H9 as ->.
  destruct (b8 !! "consent") as [consent |] eqn:Hconsent; [| discriminate Hc].
  cbn [toString default from_option id] in *.
  set (n := Js.trim (toString (body !! "fullName"))) in *.
  set (b1 := <["fullName" := n]> body) in *.
  set (e := normalizeEmail V (Js.trim (toString (b1 !! "email")))) in *.
  set (b2 := <["email" := e]> b1) in *.
  set (ph := Js.trim (toString (b2 !! "phone"))) in *.
  set (b3 := <["phone" := ph]> b2) in *.
  set (l := Js.trim (toString (b3 !! "location"))) in *.
  set (b7 := <["qualification" := q]>
               (<["experience" := x]>
                  (<["position" := p]> (<["location" := l]> b3)))) in *.
  assert (Hkeep : forall key, key <> "coverLetter" -> key <> "consent" ->
            <["consent" := consent]> b8 !! key = b7 !! key).
  { intros key Hk1 Hk2. rewrite lookup_insert_ne by congruence.
    match type of H8 with
    | run_chain ?c _ = _ => pose proof (run_chain_lookup_ne c b7 key) as Hk
    end.
    rewrite H8 in Hk. apply Hk. cbn [chain_field]. congruence. }
  assert (Hf : b7 !! "fullName" = Some n).
  { unfold b7, b3, b2, b1. rewrite !lookup_insert_ne by discriminate.
    apply lookup_insert_eq. }
  assert (Hem : b7 !! "email" = Some e).
  { unfold b7, b3, b2. rewrite !lookup_insert_ne by discriminate.
    apply lookup_insert_eq. }
  assert (Hph : b7 !! "phone" = Some ph).
  { unfold b7, b3. rewrite !lookup_insert_ne by discriminate.
    apply lookup_insert_eq. }
  assert (Hlo : b7 !! "location" = Some l).
  { unfold b7. rewrite !lookup_insert_ne by discriminate.
    apply lookup_insert_eq. }
  assert (Hpo : b7 !! "position" = Some p).
  { unfold b7. rewrite !lookup_insert_ne by discriminate.
    apply lookup_insert_eq. }
  assert (Hex : b7 !! "experience" = Some x).
  { unfold b7. rewrite !lookup_insert_ne by discriminate.
    apply lookup_insert_eq. }
  assert (Hqu : b7 !! "qualification" = Some q).
  { unfold b7. apply lookup_insert_eq. }
  apply isLength_bounds in Hn2, Hp2, Hl2.
  exists n, e, ph, l, p, x, q, consent.
  split.
  { rewrite !Hkeep by discriminate. rewrite lookup_insert_eq.
    repeat split; assumption. }
  split; [unfold n, ph, l; rewrite !trim_idempotent; auto |].
  split; [auto |]. split; [auto |]. split; [auto |]. split; [auto |].
  split; [exact Hc |].
  split.
  { rewrite lookup_insert_ne by discriminate.
    apply cover_letter_chain_inv in H8 as [[Hnone ->] | [t [-> Hlen]]].
    - now left.
    - right. exists (Js.trim t). rewrite lookup_insert_eq, trim_idempotent. auto. }
  unfold CareerService.validateApplicationData.
  rewrite lookup_insert_eq. cbn [field_truthy]. rewrite Hc.
  unfold CareerService.requiredFields. cbn [fmap list_fmap concat].
  rewrite !Hkeep by discriminate.
  rewrite Hf, Hem, Hph, Hlo, Hpo, Hex, Hqu.
  cbn [field_truthy toString default from_option id].
  rewrite Hn1, Hp1, Hl1, Hpos1, Hexp1, Hq1.
  unfold n at 1, ph at 1, l at 1. rewrite !trim_idempotent. fold n ph l.
  destruct (Nat.eqb_spec (Js.len n) 0) as [H0 | _]; [lia |].
  destruct (Nat.eqb_spec (Js.len ph) 0) as [H0 | _]; [lia |].
  destruct (Nat.eqb_spec (Js.len l) 0) as [H0 | _]; [lia |].
  rewrite (isIn_trimmed Rules.validPositions p) by (vm_compute; reflexivity || exact Hpos2).
  rewrite (isIn_trimmed Rules.validExperience x) by (vm_compute; reflexivity || exact Hexp2).
  rewrite (isIn_trimmed Rules.validQualifications q) by (vm_compute; reflexivity || exact Hq2).
  unfold matches in Hp3. rewrite Hp3.
  cbn [negb orb andb app CareerService.decamel].
  destruct (negb (notEmpty e) || _), (notEmpty e && _); reflexivity.
Qed.

(** For a body whose fields are all strings: after the career chains
    accepted it, the service-level validation can only object to the email.
    (A field that holds an array, as multer builds for a repeated or
    bracketed field name, is checked by the chains element by element and
    by the service as a whole; such bodies are not covered.) *)
Theorem career_service_residual (V : validatorjs)
    (body : gmap string string) :
  (run_chains (Rules.validateCareerApplication V) body).2 = [] ->
  CareerService.validateApplicationData
    (run_chains (Rules.validateCareerApplication V) body).1 ⊆ career_residual.
Proof.
  destruct (run_chains _ body) as [body' errs] eqn:H. cbn [fst snd].
  intros ->.
  apply career_service_after_chains in H
    as [n [e [ph [l [p [x [q [consent [_ [_ [_ [_ [_ [_ [_ [_ ->]]]]]]]]]]]]]]]].
  apply sublist_subseteq. unfold career_residual.
  destruct (negb (notEmpty e) || _), (notEmpty e && _);
    cbn [app];
    repeat first [apply sublist_nil | apply sublist_skip | apply sublist_cons].
Qed.

Lemma career_service_residual_witness :
  CareerService.validateApplicationData
    (run_chains (Rules.validateCareerApplication Sample.validator)
       (Sanitizer.sanitizeCareerInput Sample.application)).1
  ⊆ career_residual.
Proof.
  apply (career_service_residual Sample.validator
           (Sanitizer.sanitizeCareerInput Sample.application)).
  vm_compute. reflexivity.
Defined.

(** *** What a match consumes *)

Lemma all_app (p : ascii -> bool) (a b : string) :
  Js.all p (a +:+ b) = Js.all p a && Js.all p b.
Proof.
  induction a as [| c a IH]; [reflexivity |].
  rewrite app_cons. cbn [Js.all]. now rewrite IH, andb_assoc.
Qed.

Lemma app_assoc_string (a b c : string) : (a +:+ b) +:+ c = a +:+ (b +:+ c).
Proof.
  induction a as [| x a IH]; [reflexivity |]. rewrite !app_cons. now f_equal.
Qed.

Section Consumes.
Variable q : ascii -> bool.

Lemma star_loop_consumes {A} (step : option ascii -> string ->
                         (option ascii -> string -> option A) -> option A)
    (k : option ascii -> string -> option A) :
  (forall prev s k' x, step prev s k' = Some x ->
     exists p' s1 s', s = s1 +:+ s' /\ Js.all q s1 = true /\ k' p' s' = Some x) ->
  forall fuel prev s x,
    Re.star_loop step k fuel prev s = Some x ->
    exists p' s1 s', s = s1 +:+ s' /\ Js.all q s1 = true /\ k p' s' = Some x.
Proof.
  intros Hstep. induction fuel as [| fuel IH]; intros prev s x H.
  - exists prev, "", s. auto.
  - cbn [Re.star_loop] in H. apply orelse_Some in H as [H | [_ H]].
    + apply Hstep in H as [p1 [a [s1 [-> [Ha H]]]]].
      destruct (Js.len s1 <? Js.len (a +:+ s1))%nat; [| discriminate].
      apply IH in H as [p2 [b [s2 [-> [Hb H]]]]].
      exists p2, (a +:+ b), s2. rewrite app_assoc_string, all_app, Ha, Hb. auto.
    + exists prev, "", s. auto.
Qed.

Lemma rmatch_consumes (r : Re.regex) :
  consumes q r ->
  forall (A : Type) prev s (k : option ascii -> string -> option A) x,
    Re.rmatch r prev s k = Some x ->
    exists p' s1 s', s = s1 +:+ s' /\ Js.all q s1 = true /\ k p' s' = Some x.
Proof.
  induction r as [| p | r1 IH1 r2 IH2 | r1 IH1 r2 IH2 | r1 IH1 | r1 IH1 | | |];
    intros Hr A prev s k x H; cbn [Re.rmatch] in H; cbn [consumes] in Hr.
  - exists prev, "", s. auto.
  - destruct s as [| c t]; [discriminate |].
    destruct (p c) eqn:Hc; [| discriminate].
    exists (Some c), (String c ""), t. cbn [Js.all]. rewrite (Hr c Hc). auto.
  - destruct Hr as [Hr1 Hr2].
    apply (IH1 Hr1) in H as [p1 [a [s1 [-> [Ha H]]]]].
    apply (IH2 Hr2) in H as [p2 [b [s2 [-> [Hb H]]]]].
    exists p2, (a +:+ b), s2. rewrite app_assoc_string, all_app, Ha, Hb. auto.
  - destruct Hr as [Hr1 Hr2].
    apply orelse_Some in H as [H | [_ H]];
      [exact (IH1 Hr1 _ _ _ _ _ H) | exact (IH2 Hr2 _ _ _ _ _ H)].
  - eapply star_loop_consumes; [| exact H].
    intros p0 s0 k' x0 H0. exact (IH1 Hr A p0 s0 k' x0 H0).
  - destruct (Re.rmatch r1 prev s _); [discriminate |]. exists prev, "", s. auto.
  - destruct prev; [discriminate |]. exists None, "", s. auto.
  - destruct s; [| discriminate]. exists prev, "", "". auto.
  - destruct (xorb _ _); [| discriminate]. exists prev, "", s. auto.
Qed.

(** A match that must end at the end of the input spans only characters
    the pattern consumes. *)
Lemma to_end_consumes (r : Re.regex) (prev : option ascii) (s : string) :
  consumes q r ->
  is_Some (Re.rmatch r prev s
             (fun p' s' => Re.rmatch Re.Eos p' s'
                             (fun p'' s'' => Some (p'', s'')))) ->
  Js.all q s = true.
Proof.
  intros Hr [x H].
  apply (rmatch_consumes r Hr) in H as [p' [s1 [s' [-> [Hs1 H]]]]].
  destruct s'; [| discriminate]. now rewrite app_empty_r.
Qed.

End Consumes.

(** The email pattern accepts only strings without white space. *)
Lemma email_pattern_no_space (s : string) :
  Re.test Config.email_pattern s = true -> Js.all not_space s = true.
Proof.
  intros H.
  assert (Hc : forall c, Patterns.email_chr c = true -> not_space c = true).
  { intros c Hc. unfold Patterns.email_chr in Hc. now apply andb_prop in Hc as [Hc _]. }
  assert (Hat : forall x c, not_space x = true ->
                  Js.chr_eqb x c = true -> not_space c = true).
  { intros x c Hx Hxc. apply chr_eqb_eq in Hxc. now subst. }
  unfold Config.email_pattern, Patterns.email_re in H. cbn [Re.seq] in H.
  apply test_anchored in H.
  apply (to_end_consumes not_space
           (Re.seq [Re.plus (Re.Chr Patterns.email_chr); Re.chr "@";
                    Re.plus (Re.Chr Patterns.email_chr); Re.chr ".";
                    Re.plus (Re.Chr Patterns.email_chr)]) None).
  - cbn. repeat split; try exact Hc;
      intros c; apply Hat; vm_compute; reflexivity.
  - exact H.
Qed.

(** *** Stored values *)

Lemma all_ltrim (p : ascii -> bool) (s : string) :
  Js.all p s = true -> Js.all p (Js.ltrim s) = true.
Proof.
  induction s as [| c t IH]; [reflexivity |].
  intros H. cbn [Js.ltrim]. destruct (Js.is_space c); [| exact H].
  cbn [Js.all] in H. apply andb_prop in H as [_ H]. now apply IH.
Qed.

Lemma all_rtrim (p : ascii -> bool) (s : string) :
  Js.all p s = true -> Js.all p (Js.rtrim s) = true.
Proof.
  induction s as [| c t IH]; [reflexivity |].
  intros H. cbn [Js.all] in H. apply andb_prop in H as [Hc Ht].
  cbn [Js.rtrim]. specialize (IH Ht). destruct (Js.rtrim t) as [| c' t'].
  - destruct (Js.is_space c); [reflexivity |]. cbn. now rewrite Hc.
  - cbn [Js.all] in *. now rewrite Hc, IH.
Qed.

Lemma all_trim (p : ascii -> bool) (s : string) :
  Js.all p s = true -> Js.all p (Js.trim s) = true.
Proof. intros H. unfold Js.trim. now apply all_rtrim, all_ltrim. Qed.

Lemma trim_no_space (s : string) :
  Js.all not_space s = true -> Js.trim s = s.
Proof.
  intros H. unfold Js.trim.
  assert (Hl : Js.ltrim s = s).
  { destruct s as [| c t]; [reflexivity |]. cbn [Js.all] in H.
    apply andb_prop in H as [Hc _]. apply ltrim_head.
    now apply negb_true_iff in Hc. }
  rewrite Hl. clear Hl. induction s as [| c t IH]; [reflexivity |].
  cbn [Js.all] in H. apply andb_prop in H as [Hc Ht].
  cbn [Js.rtrim]. rewrite (IH Ht). apply negb_true_iff in Hc. rewrite Hc.
  now destruct t.
Qed.

Lemma lower_chr_not_upper (c : ascii) : not_upper (Js.lower_chr c) = true.
Proof. destruct c as [[] [] [] [] [] [] [] []]; vm_compute; reflexivity. Qed.

Lemma lower_chr_space (c : ascii) :
  Js.is_space (Js.lower_chr c) = Js.is_space c.
Proof. destruct c as [[] [] [] [] [] [] [] []]; vm_compute; reflexivity. Qed.

Lemma toLowerCase_not_upper (s : string) :
  Js.all not_upper (Js.toLowerCase s) = true.
Proof.
  induction s as [| c t IH]; [reflexivity |].
  cbn. fold (Js.toLowerCase t). now rewrite lower_chr_not_upper, IH.
Qed.

Lemma toLowerCase_no_space (s : string) :
  Js.all not_space s = true -> Js.all not_space (Js.toLowerCase s) = true.
Proof.
  induction s as [| c t IH]; [reflexivity |].
  cbn. fold (Js.toLowerCase t). intros H. apply andb_prop in H as [Hc Ht].
  unfold not_space in *. now rewrite lower_chr_space, Hc, IH.
Qed.

Lemma escape_chr_html_free (c : ascii) :
  Js.all html_free (escape_chr c) = true.
Proof. destruct c as [[] [] [] [] [] [] [] []]; vm_compute; reflexivity. Qed.

Lemma escape_html_free (s : string) : Js.all html_free (escape s) = true.
Proof.
  induction s as [| c t IH]; [reflexivity |].
  cbn [escape]. now rewrite all_app, escape_chr_html_free, IH.
Qed.

(** *** The contact controller on a body that passed both validations *)


Lemma contact_controller_valid (B : backend) (E : env)
    (b : gmap string string) (n e c m : string) :
  b !! "fullName" = Some n -> b !! "email" = Some e ->
  b !! "contact" = Some c -> b !! "message" = Some m ->
  ContactService.validateContactData b = [] ->
  exists r,
    run (ContactController.createContact B E b [])
    = (Ok r, [InsertRow ContactService.table
                (ContactService.insertData n e c m)]) /\
    ((status r = 201 /\ get "success" (body r) = JBool true /\
      get "error" (body r) = JUndef) \/
     exists x, r = ContactController.on_error E x).
Proof.
  intros Hf He Hc Hm Hval.
  unfold ContactController.createContact, run, try_catch, bind.
  rewrite Hval.
  rewrite (createContact_inserts B E b n e c m [] Hf He Hc Hm).
  cbv zeta. cbn [app].
  destruct (B _) as [r | x].
  - destruct (error r) as [x |].
    + eexists. split; [reflexivity |]. right. eauto.
    + unfold prop_of, throw, ret.
      destruct (data r) as [| | b0 | z | s | items | fields];
        try (eexists; split; [reflexivity |]; right; eauto; fail);
        (destruct (get "id" _) as [| | b' | z' | s' | items' | fields']);
        cbn [ContactController.reference_of throw ret];
        eexists; (split; [reflexivity |]);
        first [ right; eexists; reflexivity
              | left; cbn; repeat split; reflexivity ].
  - eexists. split; [reflexivity |]. right. eauto.
Qed.

Lemma if_nil_inv {A} (b : bool) (x : A) (rest : list A) :
  ((if b then [x] else []) ++ rest)%list = [] -> b = false /\ rest = [].
Proof. destruct b; [discriminate | auto]. Qed.

(** What POST /api/contact does with any request: it always sends a
    response; either nothing reaches the backend, or exactly one row is
    inserted, and that row is within the bounds of the service. *)
Lemma post_contact_outcome (V : validatorjs) (B : backend) (E : env)
    (store : gmap string RateLimit.client) (req : Routes.request) :
  exists store' r,
    (Routes.post_contact V B E store req).1 = (store', Routes.Sent r) /\
    (((status r = 429 \/ status r = 400) /\
      (Routes.post_contact V B E store req).2 = [] /\
      get "error" (body r) = JUndef) \/
     (exists row,
        (Routes.post_contact V B E store req).2
        = [InsertRow ContactService.table row] /\
        valid_contact_row row /\
        ((status r = 201 /\ get "success" (body r) = JBool true /\
          get "error" (body r) = JUndef) \/
         exists x, r = ContactController.on_error E x))).
Proof.
  unfold Routes.post_contact.
  destruct (RateLimit.limit _ _ _ _ _) as [store' [| cl]].
  2: { exists store', RateLimit.contactTooMany. split; [reflexivity |].
       left. repeat split; auto. }
  destruct (run_chains _ _) as [b2 errors] eqn:Hrun.
  destruct errors as [| e0 errors].
  2: { unfold ContactController.createContact, run, try_catch, ret.
       eexists _, _. split; [reflexivity |]. left. repeat split; auto. }
  apply contact_service_after_chains in Hrun
    as [n [e [c [m [[Hf [He [Hc Hm]]] [[Htn [Htc Htm]]
         [[Hn [Hshape [Hclen Hmlen]]] Hval]]]]]]].
  destruct (ContactService.validateContactData b2) as [| v0 vs] eqn:Hv.
  2: { unfold ContactController.createContact, run, try_catch, ret.
       rewrite Hv. eexists _, _. split; [reflexivity |]. left. repeat split; auto. }
  destruct (contact_controller_valid B E b2 n e c (escape m) Hf He Hc Hm Hv)
    as [r [Hrun Hr]].
  rewrite Hrun. exists store', r. split; [reflexivity |]. right.
  eexists. split; [reflexivity |]. split; [| exact Hr].
  symmetry in Hval.
  apply if_nil_inv in Hval as [Hn50 Hval].
  apply if_nil_inv in Hval as [Hnpat Hval].
  apply if_nil_inv in Hval as [Hemail Hval].
  destruct (1000 <? Js.len (escape m))%nat eqn:Hm1000; [discriminate Hval |].
  apply Nat.ltb_ge in Hn50, Hm1000.
  apply negb_false_iff in Hnpat.
  apply orb_false_elim in Hemail as [Hene Hepat].
  apply negb_false_iff in Hene, Hepat.
  apply anchored_class_iff in Hnpat as [_ Hnall].
  apply email_pattern_no_space in Hepat.
  pose proof (toLowerCase_no_space e Hepat) as Hlow.
  assert (Hte : Js.trim (escape m) = escape m)
    by (rewrite <- Htm; apply trim_escape_trim).
  unfold ContactService.insertData.
  rewrite Htn, Htc, (trim_no_space _ Hlow), Hte.
  exists n, (Js.toLowerCase e), c, (escape m).
  split; [reflexivity |].
  pose proof (len_escape m) as Hesc.
  repeat split; try assumption; try lia.
  - destruct e; [discriminate Hene | discriminate].
  - apply toLowerCase_not_upper.
  - apply escape_html_free.
Qed.

(** Every row POST /api/contact inserts is within the bounds of the
    service, whatever the request and whatever the backend answers; no
    request inserts more than one row. *)
Theorem inserted_contacts_are_valid (V : validatorjs) (B : backend) (E : env)
    (store : gmap string RateLimit.client) (req : Routes.request) :
  (Routes.post_contact V B E store req).2 = [] \/
  exists row,
    (Routes.post_contact V B E store req).2
    = [InsertRow ContactService.table row] /\
    valid_contact_row row.
Proof.
  destruct (post_contact_outcome V B E store req)
    as [store' [r [_ [[_ [Htr _]] | [row [Htr [Hrow _]]]]]]].
  - now left.
  - right. now exists row.
Qed.



(** *** The career service, call by call *)

Lemma uploadResume_outcome (B : backend) (E : env) (file : upload_file)
    (tr : list call) :
  CareerService.uploadResume B E file tr =
  (match B (resume_upload E file) with
   | Resolved r =>
       match error r with
       | Some e => Throw (new_Error ("File upload failed: " +:+ pg_message e))
       | None =>
           Ok (JObj [("url", JStr (publicUrl E CareerService.bucket
                                     (resume_path E file)));
                     ("fileName", JStr (originalname file));
                     ("storagePath", JStr (resume_path E file))])
       end
   | Rejected e => Throw e
   end, (tr ++ [resume_upload E file])%list).
Proof.
  unfold CareerService.uploadResume, bind, await, resume_upload, resume_path.
  destruct (B _) as [r | e]; [destruct (error r) |]; reflexivity.
Qed.

Lemma insertApplication_outcome (B : backend) (row : json) (tr : list call) :
  exists o,
    CareerService.insertApplication B row tr
    = (o, (tr ++ [InsertRow CareerService.table row])%list) \/
    CareerService.insertApplication B row tr
    = (o, (tr ++ [InsertRow CareerService.table row; procedure_call row])%list).
Proof.
  unfold CareerService.insertApplication, bind, try_catch, await, throw, ret,
    procedure_call.
  destruct (B (InsertRow _ _)) as [r | e].
  - destruct (error r); eexists; left; reflexivity.
  - destruct (B (Rpc _ _)) as [raw | e'];
      [destruct (error raw) |]; rewrite <- app_assoc; eexists; right; reflexivity.
Qed.



(** The career controller on a body that passed both validations, with an
    acceptable file: the upload, then the insert, then possibly the stored
    procedure; the answer is 201 or the error response. *)
Lemma career_controller_valid (B : backend) (E : env)
    (b : gmap string string) (file : upload_file) (n e ph l : string) :
  b !! "fullName" = Some n -> b !! "email" = Some e ->
  b !! "phone" = Some ph -> b !! "location" = Some l ->
  CareerService.validateApplicationData b = [] ->
  existsb (String.eqb (mimetype file)) CareerController.allowedTypes = true ->
  (size file <= CareerController.maxSize)%Z ->
  let row :=
    CareerService.insertData E n e ph l (b !! "position") (b !! "experience")
      (b !! "qualification") (b !! "coverLetter") (b !! "consent")
      (JStr (publicUrl E CareerService.bucket (resume_path E file)))
      (JStr (originalname file)) in
  exists r tr,
    run (CareerController.submitApplication B E b (Some file) []) = (Ok r, tr) /\
    ((tr = [resume_upload E file] /\ exists x, r = CareerController.on_error E x) \/
     ((tr = [resume_upload E file; InsertRow CareerService.table row] \/
       tr = [resume_upload E file; InsertRow CareerService.table row;
             procedure_call row]) /\
      ((status r = 201 /\ get "success" (body r) = JBool true /\
        get "error" (body r) = JUndef) \/
       exists x, r = CareerController.on_error E x))).
Proof.
  intros Hf He Hp Hl Hval Htype Hsize row.
  unfold CareerController.submitApplication, run, try_catch, bind.
  rewrite Hval, Htype. cbn [negb].
  destruct (Z.ltb_spec CareerController.maxSize (size file)) as [Hbig | _]; [lia |].
  rewrite (createApplication_steps B E b file n e ph l [] Hf He Hp Hl).
  rewrite uploadResume_outcome. cbn [app].
  destruct (B (resume_upload E file)) as [u | x].
  2: { eexists _, _. split; [reflexivity |]. left. eauto. }
  destruct (error u) as [x |].
  { eexists _, _. split; [reflexivity |]. left. eauto. }
  cbv zeta. cbn [get assoc String.eqb Ascii.eqb Bool.eqb]. fold row.
  destruct (insertApplication_outcome B row [resume_upload E file])
    as [o [Ho | Ho]]; rewrite Ho; cbn [app];
    (destruct o as [d | x];
     [| eexists _, _; split; [reflexivity |]; right; split; [auto | right; eauto]]);
    unfold prop_of, throw, ret;
    (destruct d as [| | b0 | z | s | items | fields];
     try (eexists _, _; split; [reflexivity |]; right; split; [auto | right; eauto]; fail));
    (destruct (get "id" _) as [| | b' | z' | s' | items' | fields']);
    eexists _, _; (split; [reflexivity |]); right; (split; [auto |]);
    first [ right; eexists; reflexivity
          | left; cbn; repeat split; reflexivity ].
Qed.

(** *** The career route on any request *)

Lemma single_accepts (parts : list upload_file) (file : upload_file) :
  Multer.single parts = inr (Some file) ->
  parts = [file] /\ fieldname file = "resume" /\
  existsb (String.eqb (mimetype file)) CareerController.allowedTypes = true /\
  (size file <= CareerController.maxSize)%Z.
Proof.
  unfold Multer.single, Multer.fileFilter.
  destruct parts as [| f more]; [discriminate |].
  destruct (String.eqb_spec (fieldname f) "resume") as [Hname | _];
    [| discriminate]. cbn [negb].
  destruct (existsb _ _) eqn:Htype; [| discriminate].
  destruct (Z.ltb_spec Multer.fileSizeLimit (size f)) as [_ | Hsize];
    [discriminate |].
  destruct more; [| discriminate]. intros H. injection H as <-.
  repeat split; auto.
Qed.

Lemma single_none (parts : list upload_file) :
  Multer.single parts = inr None -> parts = [].
Proof.
  unfold Multer.single. destruct parts as [| f more]; [reflexivity |].
  destruct (negb _); [discriminate |].
  destruct (Multer.fileFilter f); [discriminate |].
  destruct (_ <? _)%Z; [discriminate |]. destruct more; discriminate.
Qed.

(** The error middleware of the career router answers every refusal of
    the file intake with a 400, except a file under an unexpected field,
    which it passes on. *)
Lemma intake_refusal (parts : list upload_file) (e : Multer.intake_error) :
  Multer.single parts = inl e ->
  (exists r, Multer.handle_error e = Some r /\ status r = 400 /\
             get "error" (body r) = JUndef) \/
  (e = Multer.LIMIT_UNEXPECTED_FILE /\ Multer.handle_error e = None /\
   exists f more, parts = f :: more /\ fieldname f <> "resume").
Proof.
  unfold Multer.single, Multer.fileFilter.
  destruct parts as [| f more]; [discriminate |].
  destruct (String.eqb_spec (fieldname f) "resume") as [Hname | Hname];
    cbn [negb].
  - destruct (existsb _ _).
    + destruct (_ <? _)%Z.
      * intros [= <-]. left. eexists. repeat split.
      * destruct more; [discriminate |]. intros [= <-]. left.
        eexists. repeat split.
    + intros [= <-]. left. eexists. split; [vm_compute; reflexivity |].
      split; reflexivity.
  - intros [= <-]. right. split; [reflexivity |]. split; [reflexivity |]. eauto.
Qed.

Lemma career_row_valid (E : env) (n e ph l p x q consent url file : string)
    (cover : option string) :
  Js.trim n = n -> Js.trim ph = ph -> Js.trim l = l ->
  2 <= Js.len n <= 100 -> matches Patterns.career_name_re n = true ->
  10 <= Js.len ph <= 15 -> matches Patterns.phone_re ph = true ->
  2 <= Js.len l <= 100 ->
  isIn Rules.validPositions p = true ->
  isIn Rules.validExperience x = true ->
  isIn Rules.validQualifications q = true ->
  (cover = None \/ exists t, cover = Some t /\ Js.trim t = t /\ Js.len t <= 2000) ->
  notEmpty e = true -> Re.test Patterns.email_re e = true ->
  valid_application_row E
    (CareerService.insertData E n e ph l (Some p) (Some x) (Some q) cover
       (Some consent) (JStr url) (JStr file)).
Proof.
  intros Htn Htp Htl Hn Hnpat Hp Hppat Hl Hpos Hexp Hq Hcover Hene Hepat.
  unfold matches in *.
  apply anchored_class_iff in Hnpat as [_ Hnall].
  apply phone_iff in Hppat as [_ Hpall].
  apply email_pattern_no_space in Hepat.
  pose proof (toLowerCase_no_space e Hepat) as Hlow.
  apply isIn_In in Hpos, Hexp, Hq.
  unfold valid_application_row, CareerService.insertData.
  cbn [get assoc String.eqb Ascii.eqb Bool.eqb of_option].
  rewrite Htn, Htp, Htl, (trim_no_space _ Hlow).
  split; [eauto |]. split.
  { exists (Js.toLowerCase e). repeat split; auto.
    - destruct e; [discriminate Hene | discriminate].
    - apply toLowerCase_not_upper. }
  split; [eauto |]. split; [eauto |]. split; [eauto |]. split; [eauto |].
  split; [eauto |]. split.
  { destruct Hcover as [-> | [t [-> [Ht Hlen]]]]; [now left |].
    cbn [field_truthy toString default from_option id].
    destruct (notEmpty t) eqn:Hne; [| now left].
    right. exists t. rewrite Ht. split; [reflexivity |].
    apply notEmpty_len in Hne. lia. }
  split; [eauto |]. split; reflexivity.
Qed.

Lemma post_careers_outcome (V : validatorjs) (B : backend) (E : env)
    (store : gmap string RateLimit.client) (req : Routes.request) :
  (exists store' e f more,
     Routes.post_careers_apply V B E store req
     = (store', Routes.PassedOn (Multer.error_message e), []) /\
     Multer.single (Routes.files req) = inl e /\
     Multer.handle_error e = None /\
     Routes.files req = f :: more /\ fieldname f <> "resume") \/
  exists store' r,
    (Routes.post_careers_apply V B E store req).1 = (store', Routes.Sent r) /\
    (((status r = 429 \/ status r = 400) /\
      (Routes.post_careers_apply V B E store req).2 = [] /\
      get "error" (body r) = JUndef) \/
     exists file,
       Routes.files req = [file] /\
       existsb (String.eqb (mimetype file)) CareerController.allowedTypes = true /\
       (size file <= CareerController.maxSize)%Z /\
       (((Routes.post_careers_apply V B E store req).2 = [resume_upload E file] /\
         exists x, r = CareerController.on_error E x) \/
        exists row,
          valid_application_row E row /\
          get "resume_url" row
          = JStr (publicUrl E CareerService.bucket (resume_path E file)) /\
          ((Routes.post_careers_apply V B E store req).2
           = [resume_upload E file; InsertRow CareerService.table row] \/
           (Routes.post_careers_apply V B E store req).2
           = [resume_upload E file; InsertRow CareerService.table row;
              procedure_call row]) /\
          ((status r = 201 /\ get "success" (body r) = JBool true /\
            get "error" (body r) = JUndef) \/
           exists x, r = CareerController.on_error E x))).
Proof.
  unfold Routes.post_careers_apply.
  destruct (RateLimit.limit _ _ _ _ _) as [store' [| cl]].
  2: { right. exists store', (RateLimit.careerTooMany E).
       split; [reflexivity |]. left. repeat split; auto. }
  destruct (Multer.single (Routes.files req)) as [err | req_file] eqn:Hsingle.
  { pose proof Hsingle as Hrefused.
    apply intake_refusal in Hsingle
      as [[r [-> [Hst Herr]]] | [-> [-> [f [more [Hfiles Hname]]]]]].
    - right. exists store', r. split; [reflexivity |]. left. auto.
    - left. exists store', Multer.LIMIT_UNEXPECTED_FILE, f, more.
      repeat split; auto. }
  right.
  destruct (run_chains _ _) as [b2 errors] eqn:Hrun.
  destruct errors as [| e0 errors].
  2: { unfold CareerController.submitApplication, run, try_catch, ret.
       eexists _, _. split; [reflexivity |]. left. repeat split; auto. }
  apply career_service_after_chains in Hrun
    as [n [e [ph [l [p [x [q [consent
         [[Hf [He [Hp [Hl [Hpo [Hex [Hqu Hco]]]]]]]
            [[Htn [Htp Htl]] [[Hn Hnpat] [[Hph Hppat] [Hloc
               [[Hpos [Hexp Hq]] [Hcons [Hcover Hval]]]]]]]]]]]]]]]].
  destruct (CareerService.validateApplicationData b2) as [| v0 vs] eqn:Hv.
  2: { unfold CareerController.submitApplication, run, try_catch, ret.
       rewrite Hv. eexists _, _. split; [reflexivity |]. left. repeat split; auto. }
  destruct req_file as [file |].
  2: { unfold CareerController.submitApplication, run, try_catch, ret.
       rewrite Hv. eexists _, _. split; [reflexivity |]. left. repeat split; auto. }
  apply single_accepts in Hsingle as [Hfiles [_ [Htype Hsize]]].
  destruct (career_controller_valid B E b2 file n e ph l Hf He Hp Hl Hv Htype Hsize)
    as [r [tr [Hrun Hr]]].
  rewrite Hrun. exists store', r. split; [reflexivity |]. right.
  exists file. split; [exact Hfiles |]. split; [exact Htype |].
  split; [exact Hsize |]. cbn [snd].
  destruct Hr as [[-> Hx] | [Htr Hr]]; [left; auto |]. right.
  eexists. split; [| split; [| split; [exact Htr | exact Hr]]]; [| reflexivity].
  symmetry in Hval. apply if_nil_inv in Hval as [Hreq Hval].
  destruct (notEmpty e && _) eqn:Hepat; [discriminate Hval |].
  apply orb_false_elim in Hreq as [Hene _]. apply negb_false_iff in Hene.
  rewrite Hene in Hepat. cbn [andb] in Hepat. apply negb_false_iff in Hepat.
  rewrite Hpo, Hex, Hqu, Hco.
  apply career_row_valid; auto.
Qed.

(** For a request whose body fields are all strings (no repeated or
    bracketed field name, for which multer builds an array or an object):
    every row POST /api/careers/apply inserts follows the upload of the
    request's one file, of an accepted type and of at most 5 MB, carries
    the public URL of that upload, and is within the bounds of the route's
    rules with the status pending; the stored procedure is only called
    after such an insert, with the same row. *)
Theorem inserted_applications_follow_upload (V : validatorjs) (B : backend)
    (E : env) (store : gmap string RateLimit.client) (req : Routes.request) :
  (Routes.post_careers_apply V B E store req).2 = [] \/
  exists file,
    Routes.files req = [file] /\
    In (mimetype file) CareerController.allowedTypes /\
    (size file <= 5 * 1024 * 1024)%Z /\
    ((Routes.post_careers_apply V B E store req).2 = [resume_upload E file] \/
     exists row,
       valid_application_row E row /\
       get "resume_url" row
       = JStr (publicUrl E CareerService.bucket (resume_path E file)) /\
       ((Routes.post_careers_apply V B E store req).2
        = [resume_upload E file; InsertRow CareerService.table row] \/
        (Routes.post_careers_apply V B E store req).2
        = [resume_upload E file; InsertRow CareerService.table row;
           procedure_call row])).
Proof.
  destruct (post_careers_outcome V B E store req)
    as [[store' [m [f [more [-> _]]]]]
       | [store' [r [_ [[_ [Htr _]]
                       | [file [Hfiles [Htype [Hsize Hcases]]]]]]]]].
  - now left.
  - now left.
  - right. exists file. split; [exact Hfiles |].
    split; [now apply isIn_In |]. split; [exact Hsize |].
    destruct Hcases as [[Htr _] | [row [Hrow [Hurl [Htr _]]]]]; [now left |].
    right. exists row. auto.
Qed.





(** *** Errors of the backend *)

Lemma prefix_app (t a b : string) :
  String.prefix t a = true -> String.prefix t (a +:+ b) = true.
Proof.
  revert a. induction t as [| c t IH]; intros a H.
  - now destruct (a +:+ b).
  - destruct a as [| c' a]; [discriminate |]. rewrite app_cons. cbn in *.
    destruct (ascii_dec c c'); [now apply IH | discriminate].
Qed.

Lemma includes_app (t a b : string) :
  Js.includes t a = true -> Js.includes t (a +:+ b) = true.
Proof.
  induction a as [| c a IH]; intros H.
  - cbn in H. rewrite orb_false_r in H.
    destruct t; [| discriminate]. cbn. now destruct b.
  - rewrite app_cons. cbn [Js.includes] in *.
    apply orb_prop in H as [H | H].
    + rewrite <- app_cons, (prefix_app _ _ _ H). reflexivity.
    + rewrite (IH H). apply orb_true_r.
Qed.

(** An error result of the storage or of the insert is answered 503, by
    the wording of the service's error; after a refused upload nothing is
    inserted, after a refused insert the uploaded file stays in storage. *)
Theorem career_backend_errors_are_503 (B : backend) (E : env)
    (b : gmap string string) (file : upload_file) (n e ph l : string)
    (pg : pg_error) :
  b !! "fullName" = Some n -> b !! "email" = Some e ->
  b !! "phone" = Some ph -> b !! "location" = Some l ->
  CareerService.validateApplicationData b = [] ->
  existsb (String.eqb (mimetype file)) CareerController.allowedTypes = true ->
  (size file <= CareerController.maxSize)%Z ->
  let row :=
    CareerService.insertData E n e ph l (b !! "position") (b !! "experience")
      (b !! "qualification") (b !! "coverLetter") (b !! "consent")
      (JStr (publicUrl E CareerService.bucket (resume_path E file)))
      (JStr (originalname file)) in
  ((exists d c, B (resume_upload E file) = Resolved (Result d (Some pg) c)) ->
   exists r,
     run (CareerController.submitApplication B E b (Some file) [])
     = (Ok r, [resume_upload E file]) /\ status r = 503) /\
  ((exists d c, B (resume_upload E file) = Resolved (Result d None c)) ->
   (exists d c, B (InsertRow CareerService.table row)
                = Resolved (Result d (Some pg) c)) ->
   exists r,
     run (CareerController.submitApplication B E b (Some file) [])
     = (Ok r, [resume_upload E file; InsertRow CareerService.table row]) /\
     status r = 503).
Proof.
  intros Hf He Hp Hl Hval Htype Hsize row.
  assert (Hstart :
    run (CareerController.submitApplication B E b (Some file) []) =
    try_catch
      (bind (CareerService.createApplication B E b (Some file))
         (fun application =>
            ret (Response 201
                   (JObj [("success", JBool true);
                          ("message", JStr "Thank you for your application! We have received your details and will get back to you soon.");
                          ("data",
                           JObj [("applicationNumber", get "applicationNumber" application);
                                 ("id", get "id" application);
                                 ("submittedAt", get "submittedAt" application);
                                 ("position", get "position" application);
                                 ("status", get "status" application)])]))))
      (fun x => ret (CareerController.on_error E x)) []).
  { unfold CareerController.submitApplication, run.
    rewrite Hval, Htype. cbn [negb].
    destruct (Z.ltb_spec CareerController.maxSize (size file)) as [Hbig | _];
      [lia | reflexivity]. }
  rewrite Hstart. unfold try_catch, bind.
  rewrite (createApplication_steps B E b file n e ph l [] Hf He Hp Hl).
  rewrite uploadResume_outcome. cbn [app].
  split.
  - intros [d [c HB]]. rewrite HB. cbn [error].
    eexists. split; [reflexivity |].
    unfold CareerController.on_error. cbn [status err_message new_Error].
    rewrite (includes_app "upload" "File upload failed: " (pg_message pg))
      by (vm_compute; reflexivity).
    now rewrite orb_true_r.
  - intros [d [c HB]] [d' [c' HI]]. rewrite HB. cbn [error].
    cbv zeta. cbn [get assoc String.eqb Ascii.eqb Bool.eqb]. fold row.
    unfold CareerService.insertApplication, bind, try_catch, await, throw.
    rewrite HI. cbn [error app].
    eexists. split; [reflexivity |].
    unfold CareerController.on_error. cbn [status err_message new_Error].
    now rewrite (includes_app "Database" "Database insertion failed: "
                   (pg_message pg)) by (vm_compute; reflexivity).
Qed.

Lemma career_backend_errors_are_503_witness :
  exists r,
    run (CareerController.submitApplication (Sample.denying (JNum 7))
           Sample.production Sample.application (Some Sample.resume) [])
    = (Ok r,
       [resume_upload Sample.production Sample.resume;
        InsertRow CareerService.table application_row]) /\
    status r = 503.
Proof.
  refine (proj2 (career_backend_errors_are_503 (Sample.denying (JNum 7))
                   Sample.production Sample.application Sample.resume
                   "John Doe" "john.doe@test.com" "+1234567890" "Test City"
                   Sample.rls_denied _ _ _ _ _ _ _) _ _).
  - reflexivity.
  - reflexivity.
  - reflexivity.
  - reflexivity.
  - vm_compute. reflexivity.
  - reflexivity.
  - vm_compute. discriminate.
  - eexists _, _. reflexivity.
  - eexists _, _. reflexivity.
Defined.

(** *** Created records *)

Lemma len_drop (n : nat) (s : string) : Js.len (Js.drop n s) = Js.len s - n.
Proof.
  revert s. induction n as [| n IH]; intros s.
  - cbn [Js.drop]. now rewrite Nat.sub_0_r.
  - destruct s as [| c t]; [reflexivity |]. cbn [Js.drop]. rewrite IH. reflexivity.
Qed.

Lemma len_map_chars (f : ascii -> ascii) (s : string) :
  Js.len (Js.map_chars f s) = Js.len s.
Proof. induction s as [| c t IH]; [reflexivity |]. cbn. now f_equal. Qed.

Lemma len_replicate_chr (n : nat) (c : ascii) :
  Js.len (Js.replicate_chr n c) = n.
Proof. induction n as [| n IH]; [reflexivity |]. cbn. now f_equal. Qed.

(** A valid contact body whose insert the backend answers with a row that
    has a string id is answered 201: the data carries the id, the creation
    time of the row, or the current time when the row has none, and the
    reference AF- followed by the last eight characters of the id in upper
    case. *)
Theorem contact_created (B : backend) (E : env) (b : gmap string string)
    (n e c m id : string) (d cnt : json) :
  b !! "fullName" = Some n -> b !! "email" = Some e ->
  b !! "contact" = Some c -> b !! "message" = Some m ->
  ContactService.validateContactData b = [] ->
  B (InsertRow ContactService.table (ContactService.insertData n e c m))
  = Resolved (Result d None cnt) ->
  get "id" d = JStr id ->
  exists r,
    run (ContactController.createContact B E b [])
    = (Ok r, [InsertRow ContactService.table
                (ContactService.insertData n e c m)]) /\
    status r = 201 /\
    get "id" (get "data" (body r)) = JStr id /\
    get "submittedAt" (get "data" (body r))
    = (if truthy (get "created_at" d) then get "created_at" d
       else JStr (now_iso E)) /\
    get "reference" (get "data" (body r))
    = JStr ("AF-" +:+ Js.toUpperCase (Js.slice_last 8 id)) /\
    Js.len ("AF-" +:+ Js.toUpperCase (Js.slice_last 8 id))
    = 3 + Nat.min 8 (Js.len id).
Proof.
  intros Hf He Hc Hm Hval HB Hid.
  unfold ContactController.createContact, run, try_catch, bind.
  rewrite Hval.
  rewrite (createContact_inserts B E b n e c m [] Hf He Hc Hm).
  cbv zeta. rewrite HB. cbn [error data app].
  destruct d as [| | b0 | z | s | items | fields]; try discriminate Hid.
  unfold prop_of. rewrite Hid.
  cbn [ret get assoc String.eqb Ascii.eqb Bool.eqb ContactController.reference_of].
  eexists. split; [reflexivity |]. cbn [status body get assoc String.eqb Ascii.eqb Bool.eqb].
  repeat split.
  rewrite len_app. unfold Js.toUpperCase, Js.slice_last.
  rewrite len_map_chars, len_drop. cbn [Js.len String.length]. lia.
Qed.

Lemma contact_created_witness :
  exists r,
    run (ContactController.createContact (Sample.accepting (JStr Sample.uuid))
           Sample.production
           (<["email" := "john@example.com"]> Sample.john_doe) [])
    = (Ok r, [InsertRow ContactService.table Sample.john_row]) /\
    status r = 201 /\
    get "id" (get "data" (body r)) = JStr Sample.uuid /\
    get "submittedAt" (get "data" (body r)) = JStr "2024-01-15T10:30:01.000Z" /\
    get "reference" (get "data" (body r)) = JStr "AF-E2A1B7F4" /\
    Js.len "AF-E2A1B7F4" = 11.
Proof.
  apply (contact_created (Sample.accepting (JStr Sample.uuid)) Sample.production
           (<["email" := "john@example.com"]> Sample.john_doe)
           "John Doe" "john@example.com" "+14155550100"
           "Hello, I have a question about your products." Sample.uuid
           (JObj (("id", JStr Sample.uuid)
                  :: ("created_at", JStr "2024-01-15T10:30:01.000Z")
                  :: Sample.fields_of Sample.john_row)) JNull).
  - reflexivity.
  - reflexivity.
  - reflexivity.
  - reflexivity.
  - vm_compute. reflexivity.
  - reflexivity.
  - reflexivity.
Defined.

Lemma len_padStart0 (n : nat) (s : string) :
  Js.len (Js.padStart0 n s) = Nat.max n (Js.len s).
Proof.
  unfold Js.padStart0. rewrite len_app, len_replicate_chr. lia.
Qed.

Section ValidApplication.
Variable B : backend.
Variable E : env.
Variable b : gmap string string.
Variable file : upload_file.
Variables n e ph l : string.
Hypothesis has_fullName : b !! "fullName" = Some n.
Hypothesis has_email : b !! "email" = Some e.
Hypothesis has_phone : b !! "phone" = Some ph.
Hypothesis has_location : b !! "location" = Some l.
Hypothesis service_valid : CareerService.validateApplicationData b = [].
Hypothesis type_allowed :
  existsb (String.eqb (mimetype file)) CareerController.allowedTypes = true.
Hypothesis size_allowed : (size file <= CareerController.maxSize)%Z.
Hypothesis uploaded :
  exists d c, B (resume_upload E file) = Resolved (Result d None c).

Let row : json :=
  CareerService.insertData E n e ph l (b !! "position") (b !! "experience")
    (b !! "qualification") (b !! "coverLetter") (b !! "consent")
    (JStr (publicUrl E CareerService.bucket (resume_path E file)))
    (JStr (originalname file)).

Lemma valid_application_reaches_insert :
  run (CareerController.submitApplication B E b (Some file) []) =
  match CareerService.insertApplication B row [resume_upload E file] with
  | (Ok d, tr) =>
      match d with
      | JUndef =>
          (Ok (CareerController.on_error E (type_error_read "id")), tr)
      | JNull =>
          (Ok (CareerController.on_error E (type_error_read_of "null" "id")), tr)
      | _ =>
          match get "id" d with
          | JUndef =>
              (Ok (CareerController.on_error E (type_error_read "toString")), tr)
          | JNull =>
              (Ok (CareerController.on_error E
                     (type_error_read_of "null" "toString")), tr)
          | id =>
              (Ok (Response 201
                     (JObj [("success", JBool true);
                            ("message", JStr "Thank you for your application! We have received your details and will get back to you soon.");
                            ("data",
                             JObj [("applicationNumber",
                                    JStr ("AC-" +:+ Js.padStart0 6
                                                      (CareerService.js_toString id)));
                                   ("id", id);
                                   ("submittedAt", get "application_date" d);
                                   ("position", get "position" d);
                                   ("status", get "application_status" d)])])),
               tr)
          end
      end
  | (Throw x, tr) => (Ok (CareerController.on_error E x), tr)
  end.
Proof.
  destruct uploaded as [du [cu Hup]].
  unfold CareerController.submitApplication, run, try_catch, bind.
  rewrite service_valid, type_allowed. cbn [negb].
  destruct (Z.ltb_spec CareerController.maxSize (size file)) as [Hbig | _];
    [lia |].
  rewrite (createApplication_steps B E b file n e ph l []
             has_fullName has_email has_phone has_location).
  rewrite uploadResume_outcome, Hup. cbn [error app].
  cbv zeta. cbn [get assoc String.eqb Ascii.eqb Bool.eqb]. fold row.
  destruct (CareerService.insertApplication B row [resume_upload E file])
    as [[d | x] tr]; [| reflexivity].
  unfold prop_of, throw, ret.
  destruct d as [| | b0 | z | s | items | fields]; try reflexivity;
    (destruct (get "id" _) as [| | b' | z' | s' | items' | fields']);
    reflexivity.
Qed.

(** A valid application whose upload and direct insert the backend
    accepts, answering the insert with a row that has an id, is answered
    201 with the application number AC- followed by the id padded with
    zeros to six characters. *)
Theorem application_created (d cnt : json) :
  B (InsertRow CareerService.table row) = Resolved (Result d None cnt) ->
  get "id" d <> JUndef -> get "id" d <> JNull ->
  exists r,
    run (CareerController.submitApplication B E b (Some file) [])
    = (Ok r, [resume_upload E file; InsertRow CareerService.table row]) /\
    status r = 201 /\
    get "id" (get "data" (body r)) = get "id" d /\
    get "applicationNumber" (get "data" (body r))
    = JStr ("AC-" +:+ Js.padStart0 6 (CareerService.js_toString (get "id" d))) /\
    Js.len ("AC-" +:+ Js.padStart0 6 (CareerService.js_toString (get "id" d)))
    = 3 + Nat.max 6 (Js.len (CareerService.js_toString (get "id" d))) /\
    get "status" (get "data" (body r)) = get "application_status" d.
Proof.
  intros HB Hid1 Hid2. rewrite valid_application_reaches_insert.
  rewrite (insert_accepted B row d cnt _ HB). cbn [app].
  assert (Hlen : Js.len ("AC-" +:+ Js.padStart0 6
                           (CareerService.js_toString (get "id" d)))
                 = 3 + Nat.max 6 (Js.len (CareerService.js_toString (get "id" d)))).
  { rewrite len_app, len_padStart0. reflexivity. }
  destruct d as [| | b0 | z | s | items | fields];
    try (exfalso; apply Hid1; reflexivity).
  destruct (get "id" (JObj fields)) as [| | b' | z' | s' | items' | fields'];
    try (exfalso; apply Hid1; reflexivity);
    try (exfalso; apply Hid2; reflexivity);
    eexists; (split; [reflexivity |]); repeat split; exact Hlen.
Qed.

(** When the direct insert throws and the stored procedure succeeds, its
    result is the table of rows the procedure returns; the service reads
    [id] off that array, which has none, so the application is stored and
    the request is answered 500. *)
Theorem procedure_result_is_misread (x : thrown) (items : list json)
    (cnt : json) :
  B (InsertRow CareerService.table row) = Rejected x ->
  B (procedure_call row) = Resolved (Result (JArr items) None cnt) ->
  exists r,
    run (CareerController.submitApplication B E b (Some file) [])
    = (Ok r, [resume_upload E file; InsertRow CareerService.table row;
              procedure_call row]) /\
    status r = 500.
Proof.
  intros HI HP. rewrite valid_application_reaches_insert.
  unfold procedure_call in *.
  unfold CareerService.insertApplication, bind, try_catch, await, throw, ret.
  rewrite HI, HP. cbn [error data app get]. eexists. split; [reflexivity |].
  vm_compute. reflexivity.
Qed.

End ValidApplication.

Lemma application_created_witness :
  exists r,
    run (CareerController.submitApplication (Sample.accepting (JNum 7))
           Sample.production Sample.application (Some Sample.resume) [])
    = (Ok r,
       [resume_upload Sample.production Sample.resume;
        InsertRow CareerService.table application_row]) /\
    status r = 201 /\
    get "id" (get "data" (body r)) = get "id" application_stored /\
    get "applicationNumber" (get "data" (body r))
    = JStr ("AC-" +:+ Js.padStart0 6
                        (CareerService.js_toString (get "id" application_stored))) /\
    Js.len ("AC-" +:+ Js.padStart0 6
                        (CareerService.js_toString (get "id" application_stored)))
    = 3 + Nat.max 6 (Js.len (CareerService.js_toString
                               (get "id" application_stored))) /\
    get "status" (get "data" (body r))
    = get "application_status" application_stored.
Proof.
  refine (application_created (Sample.accepting (JNum 7)) Sample.production
            Sample.application Sample.resume
            "John Doe" "john.doe@test.com" "+1234567890" "Test City"
            _ _ _ _ _ _ _ _ application_stored JNull _ _ _).
  - reflexivity.
  - reflexivity.
  - reflexivity.
  - reflexivity.
  - vm_compute. reflexivity.
  - reflexivity.
  - vm_compute. discriminate.
  - eexists _, _. reflexivity.
  - reflexivity.
  - discriminate.
  - discriminate.
Defined.

Lemma procedure_result_is_misread_witness :
  exists r,
    run (CareerController.submitApplication (Sample.throwing (JNum 7))
           Sample.production Sample.application (Some Sample.resume) [])
    = (Ok r,
       [resume_upload Sample.production Sample.resume;
        InsertRow CareerService.table application_row;
        procedure_call application_row]) /\
    status r = 500.
Proof.
  refine (procedure_result_is_misread (Sample.throwing (JNum 7))
            Sample.production Sample.application Sample.resume
            "John Doe" "john.doe@test.com" "+1234567890" "Test City"
            _ _ _ _ _ _ _ _ (Thrown "TypeError" "fetch failed")
            [JObj (("id", JNum 7) :: Sample.fields_of application_row)]
            JNull _ _).
  - reflexivity.
  - reflexivity.
  - reflexivity.
  - reflexivity.
  - vm_compute. reflexivity.
  - reflexivity.
  - vm_compute. discriminate.
  - eexists _, _. reflexivity.
  - reflexivity.
  - reflexivity.
Defined.

(** ** The reachability probe and the endpoints that use it *)

Lemma probe_returns (B : backend) :
  forall budget attempts tr,
    exists r tr', Health.testConnection_from B budget attempts tr = (Ok r, tr').
Proof.
  induction budget as [| budget IH]; intros a t; cbn;
    unfold try_catch, bind, await, ret;
    (destruct (B (Query Health.probe_query)) as [r | e];
     [ destruct (error r); eauto
     | destruct (a <=? 1)%nat; eauto ]).
Qed.

(** The probe retries only a thrown error, until the attempts counted by
    the singleton reach [maxRetries]; the counter is not reset by a failure,
    so once it has reached the maximum a later probe that throws is not
    retried.  An error result is not retried either, and a success resets
    the counter. *)
Theorem probe_retries_thrown_errors (B : backend) (attempts : nat)
    (tr : list call) :
  let q := Query Health.probe_query in
  ((exists x, B q = Rejected x) ->
   let k := Nat.max 1 (Health.maxRetries - attempts) in
   Health.testConnection_from B Health.maxRetries attempts tr
   = (Ok (false, attempts + k), (tr ++ replicate k q)%list)) /\
  ((exists d pg c, B q = Resolved (Result d (Some pg) c)) ->
   Health.testConnection_from B Health.maxRetries attempts tr
   = (Ok (false, attempts), (tr ++ [q])%list)) /\
  ((exists d c, B q = Resolved (Result d None c)) ->
   Health.testConnection_from B Health.maxRetries attempts tr
   = (Ok (true, 0), (tr ++ [q])%list)).
Proof.
  intros q. split; [| split].
  - intros [x HB] k. subst k. unfold Health.maxRetries.
    destruct attempts as [| [| [| a]]];
      cbn [Health.testConnection_from Nat.sub Nat.max];
      unfold try_catch, bind, await, ret; fold q; rewrite ?HB;
      cbn [Nat.ltb Nat.leb Health.maxRetries];
      unfold try_catch, bind, await, ret; fold q; rewrite ?HB;
      cbn [Nat.ltb Nat.leb replicate]; rewrite <- ?app_assoc; cbn [app];
      repeat f_equal; lia.
  - intros [d [pg [c HB]]]. unfold Health.maxRetries.
    cbn [Health.testConnection_from]. unfold try_catch, bind, await, ret.
    fold q. now rewrite HB.
  - intros [d [c HB]]. unfold Health.maxRetries.
    cbn [Health.testConnection_from]. unfold try_catch, bind, await, ret.
    fold q. now rewrite HB.
Qed.

(** With the probe of the repository, which never throws, both endpoints
    of the contact router always answer with [success] true: the health
    check with 200 or 503, never with its [unhealthy] body, and the
    connection test with 200 even when the backend cannot be reached. *)
Theorem probe_endpoints_report_success (B : backend) (E : env)
    (attempts : nat) (tr : list call) :
  exists connected h t,
    (Health.testSupabaseConnection B attempts tr).1 = Ok connected /\
    (Health.healthCheck E (Health.testSupabaseConnection B attempts) tr).1 = Ok h /\
    (testConnection E (Health.testSupabaseConnection B attempts) tr).1 = Ok t /\
    get "success" (body h) = JBool true /\
    status h = (if connected then 200 else 503) /\
    get "status" (get "data" (body h))
    = JStr (if connected then "healthy" else "degraded") /\
    get "success" (body t) = JBool true /\
    status t = 200 /\
    get "connected" (get "data" (body t)) = JBool connected.
Proof.
  unfold Health.healthCheck, testConnection, Health.testSupabaseConnection,
    try_catch, bind.
  destruct (probe_returns B Health.maxRetries attempts tr) as [[c a] [tr' ->]].
  cbn [ret fst snd]. exists c. eexists _, _.
  split; [reflexivity |]. split; [reflexivity |]. split; [reflexivity |].
  destruct c; repeat split; reflexivity.
Qed.

(** ** Pages of a list operation *)

Lemma take_add_drop {A} (n m : nat) (l : list A) :
  take (n + m) l = (take n l ++ take m (drop n l))%list.
Proof.
  revert l. induction n as [| n IH]; intros l; [reflexivity |].
  destruct l as [| x l]; [now rewrite drop_nil, !take_nil |].
  cbn. now rewrite IH.
Qed.

Lemma page_of_rows (rows : list json) (limit page : nat) :
  1 <= page -> 1 <= limit ->
  page_of rows limit page = take limit (drop ((page - 1) * limit) rows).
Proof.
  intros Hp Hl. unfold page_of, Listing.rows_in_range.
  cbn [Listing.applications_query sel_range Listing.page Listing.limit].
  replace (Z.of_nat page - 1)%Z with (Z.of_nat (page - 1)) by lia.
  rewrite <- Nat2Z.inj_mul, Nat2Z.id. f_equal. lia.
Qed.

(** The ranges of consecutive pages tile the table: the rows returned for
    the pages 1 to [k], one after the other, are the first [k * limit] rows,
    each once and in order. *)
Theorem pages_tile_the_table (rows : list json) (limit k : nat) :
  1 <= limit ->
  concat (page_of rows limit <$> seq 1 k) = take (k * limit) rows.
Proof.
  intros Hl. induction k as [| k IH]; [reflexivity |].
  rewrite seq_S, fmap_app, concat_app, IH. cbn [fmap list_fmap concat].
  rewrite app_nil_r, page_of_rows by lia.
  replace (1 + k - 1) with k by lia.
  replace (S k * limit) with (k * limit + limit) by lia.
  now rewrite take_add_drop.
Qed.

Lemma pages_tile_the_table_witness :
  concat (page_of Sample.twenty_five_rows 10 <$> seq 1 3)
  = take (3 * 10) Sample.twenty_five_rows.
Proof. apply (pages_tile_the_table Sample.twenty_five_rows 10 3). lia. Defined.

(** ** Admin operations *)

(** GET of an application by id issues the one request for the row with
    that id and answers 200 with the row; a backend error is answered 404
    exactly when its code is the one of a [single] request that found no
    row, and 500 otherwise. *)
Theorem application_lookup_answers (B : Admin.backend) (E : env) (id : string) :
  let q := Admin.by_id CareerService.table (JStr id) in
  exists r,
    Admin.run (CareerAdmin.getApplicationById_endpoint B E id) = (Ok r, [q]) /\
    (forall res, B q = Resolved res ->
       match error res with
       | None => status r = 200 /\ get "data" (body r) = data res
       | Some e =>
           status r = (if String.eqb (pg_code e) "PGRST116" then 404 else 500) /\
           get "success" (body r) = JBool false
       end).
Proof.
  intros q.
  unfold CareerAdmin.getApplicationById_endpoint, CareerAdmin.getApplicationById,
    Admin.get_by_id, Admin.run, Admin.try_catch, Admin.bind, Admin.await.
  fold q. destruct (B q) as [res | x].
  - destruct (error res) as [e |] eqn:He.
    + unfold Admin.no_rows.
      destruct (String.eqb (pg_code e) "PGRST116") eqn:Hcode;
        cbn [Admin.throw Admin.ret app]; eexists; (split; [reflexivity |]);
        intros res' [= <-]; rewrite He, ?Hcode; split; reflexivity.
    + cbn [Admin.ret app]. eexists. split; [reflexivity |].
      intros res' [= <-]. rewrite He. split; reflexivity.
  - cbn [Admin.ret app]. eexists. split; [reflexivity |]. intros res' H.
    discriminate H.
Qed.

(** The status update accepts the six status names only: for any other
    value nothing is sent to the backend and the answer is 400.  For a
    listed name the one request is the update of the row with the given id,
    and it writes the notes only when they are truthy, so notes cannot be
    cleared by sending an empty string. *)
Theorem status_update_guard (B : Admin.backend) (E : env) (id : string)
    (body : list (string * json)) :
  let st := assoc "status" body in
  let notes :=
    match assoc "notes" body with
    | JUndef => JNull
    | _ => assoc "notes" body
    end in
  let values := CareerAdmin.updateData E st notes in
  ((forall s, st = JStr s -> ~ In s CareerAdmin.validStatuses) ->
   exists r,
     Admin.run (CareerAdmin.updateApplicationStatus_endpoint B E id body)
     = (Ok r, []) /\ status r = 400) /\
  ((exists s, st = JStr s /\ In s CareerAdmin.validStatuses) ->
   exists r,
     Admin.run (CareerAdmin.updateApplicationStatus_endpoint B E id body)
     = (Ok r, [Admin.updating CareerService.table values (JStr id)]) /\
     (status r = 200 \/ status r = 500) /\
     get "application_status" values = st /\
     get "updated_at" values = JStr (now_iso E) /\
     get "admin_notes" values
     = (if truthy (assoc "notes" body) then assoc "notes" body else JUndef)).
Proof.
  intros st notes values.
  unfold CareerAdmin.updateApplicationStatus_endpoint, Admin.run,
    Admin.try_catch.
  fold st. split.
  - intros Hnot.
    assert (Hlisted : match st with
                      | JStr s => existsb (String.eqb s) CareerAdmin.validStatuses
                      | _ => false
                      end = false).
    { destruct st as [| | b0 | z | s | items | fields] eqn:Hs; try reflexivity.
      destruct (existsb _ _) eqn:Hex; [| reflexivity].
      exfalso. apply (Hnot s eq_refl).
      apply existsb_exists in Hex as [x [Hin Heq]].
      apply String.eqb_eq in Heq. now subst. }
    rewrite Hlisted. cbn [negb Admin.ret]. eexists. split; reflexivity.
  - intros [s [Hs Hin]]. rewrite Hs.
    assert (Hlisted : existsb (String.eqb s) CareerAdmin.validStatuses = true).
    { apply existsb_exists. exists s. split; [exact Hin | apply String.eqb_refl]. }
    rewrite Hlisted. cbn [negb].
    unfold CareerAdmin.updateApplicationStatus, Admin.bind, Admin.await,
      Admin.or_throw.
    fold notes. rewrite <- Hs. fold values.
    assert (Hnotes : get "admin_notes" values
                     = (if truthy (assoc "notes" body) then assoc "notes" body
                        else JUndef)).
    { unfold values, CareerAdmin.updateData, notes.
      destruct (assoc "notes" body) as [| | b0 | z | t | items | fields];
        try reflexivity.
      - destruct b0; reflexivity.
      - cbn [truthy]. destruct (negb _); reflexivity.
      - cbn [truthy]. destruct (negb _); reflexivity. }
    destruct (B _) as [res | x]; [destruct (error res) |];
      cbn [Admin.throw Admin.ret app]; eexists;
      (split; [reflexivity |]); (split; [cbn; auto |]);
      (split; [reflexivity |]); (split; [reflexivity | exact Hnotes]).
Qed.

(** *** The status breakdown *)

Lemma counted_insert_new (m : gmap string Z) (k : string) (n : Z) :
  m !! k = None -> counted (<[k := n]> m) = (n + counted m)%Z.
Proof.
  intros Hk. unfold counted. rewrite map_fold_insert_L; [reflexivity | | exact Hk].
  intros. lia.
Qed.

Lemma counted_tally (acc : gmap string Z) (k : string) :
  counted (CareerAdmin.tally acc k) = (counted acc + 1)%Z.
Proof.
  unfold CareerAdmin.tally. destruct (acc !! k) as [n |] eqn:Hk.
  - rewrite <- insert_delete_eq.
    rewrite counted_insert_new by apply lookup_delete_eq.
    rewrite <- (insert_delete_id acc k n Hk) at 2.
    rewrite counted_insert_new by apply lookup_delete_eq.
    cbn [default from_option id]. lia.
  - rewrite counted_insert_new by exact Hk. cbn. lia.
Qed.

Lemma rows_with_status_cons (key : string) (app : json) (rest : list json) :
  rows_with_status key (app :: rest)
  = (if decide (CareerAdmin.property_key (get "application_status" app) = key)
     then 1 else 0) + rows_with_status key rest.
Proof.
  unfold rows_with_status. rewrite filter_cons.
  destruct (decide _); reflexivity.
Qed.

Lemma tally_lookup (acc : gmap string Z) (k key : string) :
  default 0%Z (CareerAdmin.tally acc k !! key)
  = (default 0%Z (acc !! key) + (if decide (k = key) then 1 else 0))%Z.
Proof.
  unfold CareerAdmin.tally. destruct (decide (k = key)) as [-> | Hne].
  - now rewrite lookup_insert_eq.
  - rewrite lookup_insert_ne by exact Hne. lia.
Qed.

(** From any accumulator the reduction adds, under each key, the number of
    rows that carry it, and one per row in all. *)
Lemma breakdown_from_counts (rows : list json) :
  forall acc m,
    CareerAdmin.breakdown_from acc rows = Ok (Some m) ->
    (forall key,
       default 0%Z (m !! key)
       = (default 0%Z (acc !! key) + Z.of_nat (rows_with_status key rows))%Z) /\
    counted m = (counted acc + Z.of_nat (length rows))%Z.
Proof.
  induction rows as [| app rest IH]; intros acc m H.
  - injection H as <-. split; [intros key |]; cbn; lia.
  - cbn [CareerAdmin.breakdown_from] in H.
    set (k := CareerAdmin.property_key (get "application_status" app)) in *.
    assert (Hrest : CareerAdmin.breakdown_from (CareerAdmin.tally acc k) rest
                    = Ok (Some m)).
    { destruct app; try discriminate H;
        (destruct (bool_decide (k ∈ CareerAdmin.inherited));
         [discriminate H | exact H]). }
    apply IH in Hrest as [Hkeys Hsum]. split.
    + intros key. rewrite Hkeys, tally_lookup, rows_with_status_cons. fold k.
      destruct (decide (k = key)); lia.
    + rewrite Hsum, counted_tally. cbn [length]. lia.
Qed.

(** The statistics of the applications.  The operation sends its three
    requests in order and stops at the first that fails.  When it returns,
    the total and today's numbers are the counts the backend reported, null
    read as zero, and the breakdown holds under each status the number of
    the rows of the second answer that carry it, which add up to the number
    of those rows. *)
Theorem application_stats_count_rows (B : Admin.backend) (E : env) :
  let q1 := Admin.counting CareerService.table [] in
  let q2 := CareerAdmin.status_query in
  let q3 := Admin.counting CareerService.table
              (Admin.today_filters E "application_date") in
  (exists x tr,
     Admin.run (CareerAdmin.getApplicationStats B E) = (Throw x, tr) /\
     (tr = [q1] \/ tr = [q1; q2] \/ tr = [q1; q2; q3])) \/
  (exists s r1 r2 rows r3,
     Admin.run (CareerAdmin.getApplicationStats B E) = (Ok s, [q1; q2; q3]) /\
     B q1 = Resolved r1 /\ B q2 = Resolved r2 /\ B q3 = Resolved r3 /\
     data r2 = JArr rows /\
     CareerAdmin.total s = Admin.or_zero (count r1) /\
     CareerAdmin.today s = Admin.or_zero (count r3) /\
     CareerAdmin.lastUpdated s = now_iso E /\
     (forall m, CareerAdmin.by_status s = Some m ->
        (forall key, default 0%Z (m !! key)
                     = Z.of_nat (rows_with_status key rows)) /\
        counted m = Z.of_nat (length rows))).
Proof.
  intros q1 q2 q3.
  unfold CareerAdmin.getApplicationStats, Admin.run, Admin.bind, Admin.await,
    Admin.or_throw.
  fold q1 q2 q3.
  destruct (B q1) as [r1 | x1]; [| left; eexists _, _; split; [reflexivity | auto]].
  destruct (error r1);
    [left; eexists _, _; split; [reflexivity | auto] |].
  cbn [Admin.ret app].
  destruct (B q2) as [r2 | x2]; [| left; eexists _, _; split; [reflexivity | auto]].
  destruct (error r2);
    [left; eexists _, _; split; [reflexivity | auto] |].
  cbn [Admin.ret app].
  destruct (CareerAdmin.statusBreakdown (data r2)) as [breakdown | x] eqn:Hb;
    [| left; eexists _, _; split; [reflexivity | auto]].
  destruct (B q3) as [r3 | x3]; [| left; eexists _, _; split; [reflexivity | auto]].
  destruct (error r3);
    [left; eexists _, _; split; [reflexivity | auto] |].
  cbn [Admin.ret app]. right.
  unfold CareerAdmin.statusBreakdown in Hb.
  destruct (data r2) as [| | b0 | z | t | rows | fields] eqn:Hd; try discriminate Hb.
  eexists _, r1, r2, rows, r3. split; [reflexivity |].
  split; [reflexivity |]. split; [reflexivity |]. split; [reflexivity |].
  split; [exact Hd |]. split; [reflexivity |]. split; [reflexivity |].
  split; [reflexivity |].
  cbn [CareerAdmin.by_status]. intros m ->.
  apply breakdown_from_counts in Hb as [Hkeys Hsum]. split.
  - intros key. rewrite Hkeys, lookup_empty. cbn. lia.
  - rewrite Hsum. unfold counted. rewrite map_fold_empty. lia.
Qed.

(** Three applications, two of them pending. *)
Example three_applications_counted :
  exists m,
    (Admin.run (CareerAdmin.getApplicationStats
                  (applications_backend three_applications) Sample.production)).1
    = Ok (CareerAdmin.Stats (JNum 3) (JNum 3) (Some m)
            "2024-01-15T10:30:00.000Z") /\
    m !! "pending" = Some 2%Z /\ m !! "hired" = Some 1%Z /\
    m !! "rejected" = None.
Proof. eexists. split; [reflexivity |]. repeat split; vm_compute; reflexivity. Qed.

(** ** The configuration-driven rules and the service *)

(** For a body whose fields are all strings: when the
    configuration-driven chains accept it, it passes the service-level
    validation, which reads the same configuration, except that the message
    is escaped after its length was checked: the service can still find it
    longer than 1000 characters.  (A field that holds an array is checked by
    the chains element by element and by the service as a whole; such
    bodies are not covered.) *)
Theorem clean_rules_agree_with_service (V : validatorjs)
    (body : gmap string string) :
  (run_chains (Clean.validateContactForm V) body).2 = [] ->
  ContactService.validateContactData
    (run_chains (Clean.validateContactForm V) body).1
  ⊆ ["Message must not exceed 1000 characters"].
Proof.
  destruct (run_chains _ body) as [body' errs] eqn:H. cbn [fst snd].
  intros ->. unfold Clean.validateContactForm in H.
  apply run_chains_nil_inv in H as [b1 [H1 H]].
  apply run_chains_nil_inv in H as [b2 [H2 H]].
  apply run_chains_nil_inv in H as [b3 [H3 H]].
  apply run_chains_nil_inv in H as [b4 [H4 H]].
  cbn [run_chains] in H. injection H as <-.
  apply trimmed_chain_inv in H1 as [x1 [H1 ->]].
  apply run_steps_check_ok in H1 as [Hn1 H1].
  apply run_steps_check_ok in H1 as [Hn2 H1].
  apply run_steps_check_ok in H1 as [Hn3 H1].
  apply run_steps_done in H1 as ->.
  apply trimmed_chain_inv in H2 as [x2 [H2 ->]].
  apply run_steps_check_ok in H2 as [He1 H2].
  apply run_steps_check_ok in H2 as [He2 H2].
  rewrite run_steps_sanitize in H2.
  apply run_steps_check_ok in H2 as [He3 H2].
  apply run_steps_done in H2 as ->.
  apply trimmed_chain_inv in H3 as [x3 [H3 ->]].
  apply run_steps_check_ok in H3 as [Hc1 H3].
  apply run_steps_check_ok in H3 as [Hc2 H3].
  apply run_steps_check_ok in H3 as [Hc3 H3].
  apply run_steps_done in H3 as ->.
  apply trimmed_chain_inv in H4 as [x4 [H4 ->]].
  apply run_steps_check_ok in H4 as [Hm1 H4].
  apply run_steps_check_ok in H4 as [Hm2 H4].
  rewrite run_steps_sanitize in H4.
  apply run_steps_done in H4 as ->.
  cbn [toString default from_option id] in *.
  set (n := Js.trim (toString (body !! "fullName"))) in *.
  set (b1 := <["fullName" := n]> body) in *.
  set (e := normalizeEmail V (Js.trim (toString (b1 !! "email")))) in *.
  set (b2 := <["email" := e]> b1) in *.
  set (c := Js.trim (toString (b2 !! "contact"))) in *.
  set (b3 := <["contact" := c]> b2) in *.
  set (m := Js.trim (toString (b3 !! "message"))) in *.
  unfold Clean.within in *.
  apply isLength_bounds in Hn2, Hc2, Hm2.
  cbn [minLength maxLength fullName_rule contact_rule message_rule] in *.
  unfold matches in *.
  assert (Hf : <["message" := escape m]> b3 !! "fullName" = Some n).
  { unfold b3, b2, b1. rewrite !lookup_insert_ne by discriminate.
    apply lookup_insert_eq. }
  assert (Hem : <["message" := escape m]> b3 !! "email" = Some e).
  { unfold b3, b2. rewrite !lookup_insert_ne by discriminate.
    apply lookup_insert_eq. }
  assert (Hco : <["message" := escape m]> b3 !! "contact" = Some c).
  { unfold b3. rewrite !lookup_insert_ne by discriminate.
    apply lookup_insert_eq. }
  unfold ContactService.validateContactData.
  rewrite Hf, Hem, Hco, lookup_insert_eq.
  cbn [field_truthy toString default from_option id].
  pose proof (len_escape m) as Hesc.
  assert (Hene : notEmpty e = true).
  { destruct e; [vm_compute in He3; discriminate He3 | reflexivity]. }
  rewrite (notEmpty_of_len n) by lia.
  rewrite (notEmpty_of_len c) by lia.
  rewrite (notEmpty_of_len (escape m)) by lia.
  rewrite Hene, Hn3, He3, Hc3.
  unfold n at 1. rewrite trim_idempotent. fold n.
  unfold m at 1. rewrite trim_escape_trim. fold m.
  cbn [Config.minLength Config.maxLength Config.fullName_rule
       Config.contact_rule Config.message_rule negb orb andb].
  destruct (Nat.ltb_spec (Js.len n) 2); [lia |].
  destruct (Nat.ltb_spec 50 (Js.len n)); [lia |].
  destruct (Nat.ltb_spec (Js.len c) 10); [lia |].
  destruct (Nat.ltb_spec (Js.len (escape m)) 10); [lia |].
  cbn [app]. destruct (1000 <? _)%nat; [reflexivity |].
  apply list_subseteq_nil.
Qed.

Lemma clean_rules_agree_with_service_witness :
  ContactService.validateContactData
    (run_chains (Clean.validateContactForm Sample.validator)
       (Clean.sanitizeInput Sample.john_doe)).1
  ⊆ ["Message must not exceed 1000 characters"].
Proof.
  apply (clean_rules_agree_with_service Sample.validator
           (Clean.sanitizeInput Sample.john_doe)).
  vm_compute. reflexivity.
Defined.

(** ** The hero slider *)

Lemma only_active_length (n c : nat) : length (HeroSlider.only_active n c) = n.
Proof. unfold HeroSlider.only_active. now rewrite length_fmap, length_seq. Qed.

Lemma only_active_lookup (n c i : nat) :
  i < n -> HeroSlider.only_active n c !! i = Some (bool_decide (i = c)).
Proof.
  intros Hi. unfold HeroSlider.only_active.
  rewrite list_lookup_fmap, lookup_seq_lt by exact Hi. reflexivity.
Qed.

(** Moving the class from the current slide to another one. *)
Lemma move_active (n c c' : nat) :
  c < n -> c' < n ->
  <[c' := true]> (<[c := false]> (HeroSlider.only_active n c))
  = HeroSlider.only_active n c'.
Proof.
  intros Hc Hc'. apply list_eq. intros i.
  destruct (decide (i < n)) as [Hi | Hi].
  - rewrite (only_active_lookup n c' i Hi).
    destruct (decide (i = c')) as [-> | Hne].
    + rewrite list_lookup_insert_eq
        by (rewrite length_insert, only_active_length; exact Hc').
      now rewrite bool_decide_eq_true_2.
    + rewrite list_lookup_insert_ne by congruence.
      rewrite bool_decide_eq_false_2 by exact Hne.
      destruct (decide (i = c)) as [-> | Hne'].
      * now rewrite list_lookup_insert_eq by (rewrite only_active_length; exact Hc).
      * rewrite list_lookup_insert_ne by congruence.
        rewrite (only_active_lookup n c i Hi).
        now rewrite bool_decide_eq_false_2.
  - rewrite !lookup_ge_None_2; [reflexivity | |];
      rewrite ?length_insert, only_active_length; lia.
Qed.

Lemma nextSlide_consistent (s : HeroSlider.slider) :
  HeroSlider.consistent s ->
  exists s',
    HeroSlider.nextSlide s = Some s' /\ HeroSlider.consistent s' /\
    length (HeroSlider.slides s') = length (HeroSlider.slides s) /\
    HeroSlider.currentSlide s'
    = (HeroSlider.currentSlide s + 1) mod length (HeroSlider.slides s).
Proof.
  destruct s as [sl c]. unfold HeroSlider.consistent. cbn.
  set (n := length sl). intros [Hc Hsl].
  assert (Hnext : (c + 1) mod n < n) by (apply Nat.mod_upper_bound; lia).
  unfold HeroSlider.nextSlide. cbn [HeroSlider.slides HeroSlider.currentSlide].
  destruct (lookup_lt_is_Some_2 sl c Hc) as [b ->]. fold n.
  eexists. split; [reflexivity |]. cbn [HeroSlider.slides HeroSlider.currentSlide].
  rewrite !length_insert. fold n. repeat split; try assumption.
  rewrite Hsl at 1. now apply move_active.
Qed.

Lemma goToSlide_consistent (index : Z) (s : HeroSlider.slider) :
  HeroSlider.consistent s ->
  exists s',
    HeroSlider.goToSlide index s = Some s' /\ HeroSlider.consistent s' /\
    length (HeroSlider.slides s') = length (HeroSlider.slides s) /\
    HeroSlider.currentSlide s'
    = if ((0 <=? index) && (index <? Z.of_nat (length (HeroSlider.slides s))))%Z
      then Z.to_nat index else HeroSlider.currentSlide s.
Proof.
  destruct s as [sl c]. unfold HeroSlider.consistent, HeroSlider.goToSlide.
  cbn [HeroSlider.slides HeroSlider.currentSlide].
  set (n := length sl). intros [Hc Hsl].
  destruct ((0 <=? index) && (index <? Z.of_nat n))%Z eqn:Hin.
  - apply andb_prop in Hin as [H0 H1].
    apply Z.leb_le in H0. apply Z.ltb_lt in H1.
    assert (Hi : Z.to_nat index < n) by lia.
    destruct (lookup_lt_is_Some_2 sl c Hc) as [b ->].
    eexists. split; [reflexivity |].
    cbn [HeroSlider.slides HeroSlider.currentSlide].
    rewrite !length_insert. fold n. repeat split; try assumption.
    rewrite Hsl at 1. now apply move_active.
  - eexists. split; [reflexivity |]. cbn. fold n. auto.
Qed.

(** Both moves of the slider keep exactly the current slide active. *)
Theorem slider_keeps_one_active (index : Z) (s : HeroSlider.slider) :
  HeroSlider.consistent s ->
  (exists s',
     HeroSlider.nextSlide s = Some s' /\ HeroSlider.consistent s' /\
     length (HeroSlider.slides s') = length (HeroSlider.slides s) /\
     HeroSlider.currentSlide s'
     = (HeroSlider.currentSlide s + 1) mod length (HeroSlider.slides s)) /\
  (exists s',
     HeroSlider.goToSlide index s = Some s' /\ HeroSlider.consistent s' /\
     length (HeroSlider.slides s') = length (HeroSlider.slides s) /\
     HeroSlider.currentSlide s'
     = if ((0 <=? index) && (index <? Z.of_nat (length (HeroSlider.slides s))))%Z
       then Z.to_nat index else HeroSlider.currentSlide s).
Proof.
  intros H. split; [now apply nextSlide_consistent | now apply goToSlide_consistent].
Qed.

Lemma slider_keeps_one_active_witness :
  HeroSlider.consistent (HeroSlider.Slider [false; true; false] 1) /\
  (exists s',
     HeroSlider.nextSlide (HeroSlider.Slider [false; true; false] 1) = Some s' /\
     HeroSlider.consistent s' /\
     length (HeroSlider.slides s') = 3 /\
     HeroSlider.currentSlide s' = 2) /\
  (exists s',
     HeroSlider.goToSlide 0 (HeroSlider.Slider [false; true; false] 1) = Some s' /\
     HeroSlider.consistent s' /\
     length (HeroSlider.slides s') = 3 /\
     HeroSlider.currentSlide s' = 0).
Proof.
  assert (H : HeroSlider.consistent (HeroSlider.Slider [false; true; false] 1)).
  { split; [cbn; lia | reflexivity]. }
  split; [exact H |].
  exact (slider_keeps_one_active 0 (HeroSlider.Slider [false; true; false] 1) H).
Defined.

Lemma advance_consistent (k : nat) :
  forall n c, c < n ->
    HeroSlider.advance k (HeroSlider.Slider (HeroSlider.only_active n c) c)
    = Some (HeroSlider.Slider (HeroSlider.only_active n ((c + k) mod n))
              ((c + k) mod n)).
Proof.
  induction k as [| k IH]; intros n c Hc.
  - cbn [HeroSlider.advance]. rewrite Nat.add_0_r, Nat.mod_small by exact Hc.
    reflexivity.
  - cbn [HeroSlider.advance].
    assert (Hnext : (c + 1) mod n < n) by (apply Nat.mod_upper_bound; lia).
    unfold HeroSlider.nextSlide.
    cbn [HeroSlider.slides HeroSlider.currentSlide].
    rewrite (only_active_lookup n c c Hc), only_active_length.
    rewrite move_active by assumption.
    rewrite IH by exact Hnext.
    replace (((c + 1) mod n + k) mod n) with ((c + S k) mod n); [reflexivity |].
    rewrite Nat.Div0.add_mod_idemp_l. f_equal. lia.
Qed.

(** As many steps as there are slides bring the slider back to where
    it was. *)
Theorem slider_cycles (s : HeroSlider.slider) :
  HeroSlider.consistent s ->
  HeroSlider.advance (length (HeroSlider.slides s)) s = Some s.
Proof.
  destruct s as [sl c]. unfold HeroSlider.consistent.
  cbn [HeroSlider.slides HeroSlider.currentSlide].
  set (n := length sl). intros [Hc Hsl].
  rewrite Hsl at 1. rewrite (advance_consistent n n c Hc).
  replace ((c + n) mod n) with c.
  - now rewrite <- Hsl.
  - rewrite <- (Nat.mul_1_l n) at 1. rewrite Nat.Div0.mod_add.
    now rewrite Nat.mod_small.
Qed.

Lemma slider_cycles_witness :
  HeroSlider.consistent (HeroSlider.Slider [false; true; false] 1) /\
  HeroSlider.advance 3 (HeroSlider.Slider [false; true; false] 1)
  = Some (HeroSlider.Slider [false; true; false] 1).
Proof.
  assert (H : HeroSlider.consistent (HeroSlider.Slider [false; true; false] 1)).
  { split; [cbn; lia | reflexivity]. }
  split; [exact H |].
  exact (slider_cycles (HeroSlider.Slider [false; true; false] 1) H).
Defined.

(** ** The browser's field validation *)

(** Replacing every match of a one-character class by nothing drops the
    characters of the class. *)
Lemma remove_from_chr (p : ascii -> bool) (fuel : nat) :
  forall prev s, Js.len s <= fuel ->
    Re.remove_from fuel (Re.Chr p) prev s = without p s.
Proof.
  induction fuel as [| fuel IH]; intros prev s Hs.
  - destruct s; [reflexivity | cbn in Hs; lia].
  - cbn [Re.remove_from]. unfold Re.match_here. cbn [Re.rmatch].
    destruct s as [| c t]; [reflexivity |].
    cbn [without].
    destruct (p c).
    + assert (Hlt : (Js.len t <? Js.len (String c t))%nat = true)
        by (apply Nat.ltb_lt; unfold Js.len; cbn [String.length]; lia).
      rewrite Hlt. apply IH. unfold Js.len in *. cbn [String.length] in Hs. lia.
    + f_equal. apply IH. unfold Js.len in *. cbn [String.length] in Hs. lia.
Qed.

Lemma remove_all_chr (p : ascii -> bool) (s : string) :
  Re.remove_all (Re.Chr p) s = without p s.
Proof. unfold Re.remove_all. apply remove_from_chr. lia. Qed.

Lemma without_none (p q : ascii -> bool) (s : string) :
  (forall c, q c = true -> p c = false) ->
  Js.all q s = true -> without p s = s.
Proof.
  intros Hpq. induction s as [| c t IH]; [reflexivity |].
  cbn [Js.all without]. intros H. apply andb_prop in H as [Hc Ht].
  rewrite (Hpq c Hc). now rewrite IH.
Qed.

Lemma notEmpty_false (s : string) : notEmpty s = false <-> s = "".
Proof.
  unfold notEmpty. destruct (String.eqb_spec s ""); cbn; split; congruence.
Qed.

Lemma validateField_tel (v : string) (r : bool) :
  let digits := without FormValidation.separator (Js.trim v) in
  FormValidation.validateField (FormValidation.Field v "tel" r) = None <->
  (Js.trim v = "" /\ r = false) \/
  (number_shape digits = true /\ Js.len (after_plus digits) <= 16).
Proof.
  intros digits. unfold FormValidation.validateField.
  cbn [FormValidation.value FormValidation.type FormValidation.required].
  change (String.eqb "tel" "email") with false.
  change (String.eqb "tel" "tel") with true.
  cbn [andb]. rewrite remove_all_chr. fold digits.
  destruct (notEmpty (Js.trim v)) eqn:Hne.
  - rewrite andb_false_r. cbn [negb].
    assert (Hv : Js.trim v <> "").
    { intros E. apply notEmpty_false in E. congruence. }
    destruct (Re.test Patterns.contact_number_re digits) eqn:Ht; cbn [negb].
    + apply contact_number_iff in Ht. split; auto.
    + split; [discriminate |]. intros [[E _] | H]; [contradiction |].
      apply contact_number_iff in H. congruence.
  - apply notEmpty_false in Hne. cbn [negb]. rewrite andb_true_r.
    assert (Hd : digits = "") by (unfold digits; now rewrite Hne).
    destruct r; cbn.
    + split; [discriminate |]. intros [[_ E] | [H _]]; [discriminate |].
      rewrite Hd in H. discriminate.
    + split; auto.
Qed.

(** The telephone check of the browser, exactly. *)
Theorem tel_field_exact (v : string) (r : bool) :
  let digits := without FormValidation.separator (Js.trim v) in
  FormValidation.validateField (FormValidation.Field v "tel" r) = None <->
  (Js.trim v = "" /\ r = false) \/
  (number_shape digits = true /\ Js.len (after_plus digits) <= 16).
Proof. apply validateField_tel. Qed.

(** The number the contact chains accepted, in terms of the body they
    were given. *)
Lemma contact_chains_number (V : validatorjs) (body body' : gmap string string) :
  run_chains (Rules.validateContactForm V) body = (body', []) ->
  matches Patterns.contact_number_re (Js.trim (toString (body !! "contact")))
  = true.
Proof.
  unfold Rules.validateContactForm. intros H.
  apply run_chains_nil_inv in H as [b1 [H1 H]].
  apply run_chains_nil_inv in H as [b2 [H2 H]].
  apply run_chains_nil_inv in H as [b3 [H3 _]].
  assert (E1 : b1 !! "contact" = body !! "contact").
  { match type of H1 with
    | run_chain ?c _ = _ => pose proof (run_chain_lookup_ne c body "contact") as E
    end.
    rewrite H1 in E. apply E. discriminate. }
  assert (E2 : b2 !! "contact" = b1 !! "contact").
  { match type of H2 with
    | run_chain ?c _ = _ => pose proof (run_chain_lookup_ne c b1 "contact") as E
    end.
    rewrite H2 in E. apply E. discriminate. }
  apply trimmed_chain_inv in H3 as [x3 [H3 _]].
  apply run_steps_check_ok in H3 as [_ H3].
  apply run_steps_check_ok in H3 as [Hc _].
  cbn [toString default from_option id] in Hc.
  now rewrite E2, E1 in Hc.
Qed.

Lemma number_chr_not_separator (c : ascii) :
  (Js.chr_eqb c "+" || Js.is_digit c) = true ->
  FormValidation.separator c = false.
Proof.
  destruct c as [[] [] [] [] [] [] [] []]; vm_compute; intros H;
    first [reflexivity | discriminate H].
Qed.

Lemma in_range_digit (c : ascii) :
  Js.in_range 49 57 c = true -> Js.is_digit c = true.
Proof.
  destruct c as [[] [] [] [] [] [] [] []]; vm_compute; intros H;
    first [reflexivity | discriminate H].
Qed.

Lemma all_weaken (p q : ascii -> bool) (s : string) :
  (forall c, p c = true -> q c = true) ->
  Js.all p s = true -> Js.all q s = true.
Proof.
  intros Hpq. induction s as [| c t IH]; [reflexivity |].
  cbn [Js.all]. intros H. apply andb_prop in H as [Hc Ht].
  now rewrite (Hpq c Hc), IH.
Qed.

(** A string of the shape of a number holds no separator. *)
Lemma number_shape_plain (s : string) :
  number_shape s = true ->
  Js.all (fun c => Js.chr_eqb c "+" || Js.is_digit c) s = true.
Proof.
  unfold number_shape, after_plus.
  assert (Hd : forall t, Js.all Js.is_digit t = true ->
             Js.all (fun c => Js.chr_eqb c "+" || Js.is_digit c) t = true).
  { intros t. apply all_weaken. intros c ->. apply orb_true_r. }
  destruct s as [| c t]; [discriminate |].
  destruct (Js.chr_eqb c "+") eqn:Hp.
  - destruct t as [| d ds]; [discriminate |]. intros H.
    apply andb_prop in H as [H1 H2]. apply in_range_digit in H1.
    cbn [Js.all]. rewrite Hp, H1, orb_true_r. cbn [orb andb]. now apply Hd.
  - intros H. apply andb_prop in H as [H1 H2]. apply in_range_digit in H1.
    cbn [Js.all]. rewrite H1, orb_true_r. cbn [andb]. now apply Hd.
Qed.

(** A contact number the route's rules accept passes the browser's
    telephone check as well. *)
Theorem browser_accepts_route_numbers (V : validatorjs)
    (body : gmap string string) (r : bool) :
  (run_chains (Rules.validateContactForm V) body).2 = [] ->
  FormValidation.validateField
    (FormValidation.Field (toString (body !! "contact")) "tel" r) = None.
Proof.
  destruct (run_chains (Rules.validateContactForm V) body) as [body' e] eqn:H.
  cbn [snd]. intros ->.
  apply contact_chains_number in H. unfold matches in H.
  apply contact_number_iff in H as [Hs Hl].
  apply validateField_tel. right.
  rewrite (without_none FormValidation.separator
             (fun c => Js.chr_eqb c "+" || Js.is_digit c)).
  - auto.
  - apply number_chr_not_separator.
  - now apply number_shape_plain.
Qed.

Lemma browser_accepts_route_numbers_witness :
  FormValidation.validateField
    (FormValidation.Field (toString (Sample.john_doe !! "contact")) "tel" true)
  = None.
Proof.
  apply (browser_accepts_route_numbers Sample.validator Sample.john_doe true).
  vm_compute. reflexivity.
Defined.

(** ** The product catalogue *)

Lemma take_nil_inv {A} (n : nat) (l : list A) :
  1 <= n -> take n l = [] -> l = [].
Proof. destruct n; [lia |]. destruct l; [reflexivity | discriminate]. Qed.

Lemma renderProducts_rendered (m : ProductManager.manager)
    (d : ProductManager.document) :
  ProductManager.products m = ProductManager.productData ->
  ProductManager.filteredProducts m = ProductManager.matching m ->
  1 <= ProductManager.currentPage m ->
  is_Some (ProductManager.productsGrid d) ->
  ProductManager.rendered (m, ProductManager.renderProducts m d).
Proof.
  intros Hp Hf Hpage [g Hg]. unfold ProductManager.rendered. cbn [fst snd].
  split; [exact Hp |]. split; [exact Hf |]. split; [exact Hpage |].
  unfold ProductManager.renderProducts. rewrite Hg, Hf.
  destruct (take _ (ProductManager.matching m)) as [| x l] eqn:Ht.
  - apply take_nil_inv in Ht; [| unfold ProductManager.productsPerPage; lia].
    cbn [ProductManager.productsGrid ProductManager.loadMore].
    split; [exact Ht |]. intros Hne. contradiction.
  - assert (Hne : ProductManager.matching m <> []).
    { intros E. rewrite E, take_nil in Ht. discriminate. }
    unfold ProductManager.updateLoadMoreButton.
    cbn [ProductManager.productsGrid ProductManager.loadMore].
    destruct (ProductManager.loadMore d) as [b |].
    + rewrite Hf.
      destruct (length (ProductManager.matching m) <=? _)%nat;
        cbn [ProductManager.productsGrid ProductManager.loadMore
             ProductManager.display]; auto.
    + cbn [ProductManager.productsGrid ProductManager.loadMore]. auto.
Qed.

Lemma renderProducts_grid (m : ProductManager.manager)
    (d : ProductManager.document) :
  is_Some (ProductManager.productsGrid (ProductManager.renderProducts m d))
  <-> is_Some (ProductManager.productsGrid d).
Proof.
  unfold ProductManager.renderProducts, ProductManager.updateLoadMoreButton.
  destruct (ProductManager.productsGrid d) as [g |] eqn:Hg.
  - destruct (take _ _); cbn [ProductManager.productsGrid ProductManager.loadMore].
    + split; eauto.
    + destruct (ProductManager.loadMore d); [destruct (_ <=? _)%nat |];
        cbn [ProductManager.productsGrid]; split; eauto.
  - rewrite Hg. reflexivity.
Qed.

Lemma rendered_grid (st : ProductManager.manager * ProductManager.document) :
  ProductManager.rendered st -> is_Some (ProductManager.productsGrid st.2).
Proof.
  intros (_ & _ & _ & H & _). destruct (ProductManager.productsGrid st.2); [eauto | contradiction].
Qed.

Lemma handle_rendered (e : ProductManager.event)
    (st : ProductManager.manager * ProductManager.document) :
  ProductManager.rendered st -> ProductManager.rendered (ProductManager.handle e st).
Proof.
  intros H. pose proof (rendered_grid st H) as Hg.
  destruct H as (Hp & Hf & Hpage & _). destruct st as [m d]. cbn [fst snd] in *.
  destruct e as [cat | term |]; cbn [ProductManager.handle fst snd].
  - unfold ProductManager.filterByCategory, ProductManager.applyFilters.
    cbn [ProductManager.products ProductManager.currentCategory
         ProductManager.currentSearch ProductManager.currentPage].
    apply renderProducts_rendered; auto.
  - unfold ProductManager.handleSearch, ProductManager.applyFilters.
    cbn [ProductManager.products ProductManager.currentCategory
         ProductManager.currentSearch ProductManager.currentPage].
    apply renderProducts_rendered; auto.
  - unfold ProductManager.loadMoreProducts.
    apply renderProducts_rendered; auto.
    cbn [ProductManager.currentPage]. lia.
Qed.

Lemma create_rendered (d : ProductManager.document) :
  is_Some (ProductManager.productsGrid d) ->
  ProductManager.rendered (ProductManager.create d).
Proof.
  intros Hg. unfold ProductManager.create.
  apply renderProducts_rendered; auto.
Qed.

(** Whatever the visitor does, the grid shows the first pages of the
    products that match the category and the search term, in the order of
    the catalogue, or the no-results block when none matches. *)
Theorem catalogue_view (es : list ProductManager.event)
    (g : ProductManager.grid) (b : option ProductManager.button) :
  ProductManager.rendered
    (ProductManager.handle_all es
       (ProductManager.create (ProductManager.Document (Some g) b))).
Proof.
  unfold ProductManager.handle_all.
  assert (H : ProductManager.rendered
                (ProductManager.create (ProductManager.Document (Some g) b))).
  { apply create_rendered. cbn. eauto. }
  revert H. generalize (ProductManager.create (ProductManager.Document (Some g) b)).
  induction es as [| e es IH]; intros st H; [exact H |].
  cbn [fold_left]. apply IH. now apply handle_rendered.
Qed.

Lemma renderProducts_empty (m : ProductManager.manager)
    (d : ProductManager.document) :
  ProductManager.filteredProducts m = [] ->
  ProductManager.loadMore (ProductManager.renderProducts m d)
  = ProductManager.loadMore d /\
  ProductManager.productsGrid (ProductManager.renderProducts m d)
  = match ProductManager.productsGrid d with
    | Some _ => Some ProductManager.NoResults
    | None => None
    end.
Proof.
  intros Hf. unfold ProductManager.renderProducts. rewrite Hf, take_nil.
  destruct (ProductManager.productsGrid d) as [g |] eqn:Hg.
  - cbn. auto.
  - auto.
Qed.

(** When an event leaves no product to show, the load-more button is
    left as it was, shown or hidden, with the text it had. *)
Theorem empty_result_leaves_button (e : ProductManager.event)
    (st : ProductManager.manager * ProductManager.document) :
  ProductManager.filteredProducts (ProductManager.handle e st).1 = [] ->
  ProductManager.loadMore (ProductManager.handle e st).2
  = ProductManager.loadMore st.2 /\
  ProductManager.productsGrid (ProductManager.handle e st).2
  = match ProductManager.productsGrid st.2 with
    | Some _ => Some ProductManager.NoResults
    | None => None
    end.
Proof.
  destruct st as [m d]. cbn [fst snd].
  destruct e as [cat | term |]; cbn [ProductManager.handle fst snd];
    unfold ProductManager.filterByCategory, ProductManager.handleSearch,
      ProductManager.applyFilters, ProductManager.loadMoreProducts;
    cbn [fst snd]; intros Hf; apply renderProducts_empty; exact Hf.
Qed.

Lemma empty_result_leaves_button_witness :
  ProductManager.loadMore
    (ProductManager.handle (ProductManager.Search "Aspirin")
       (ProductManager.create ProductManager.page)).2
  = ProductManager.loadMore (ProductManager.create ProductManager.page).2 /\
  ProductManager.productsGrid
    (ProductManager.handle (ProductManager.Search "Aspirin")
       (ProductManager.create ProductManager.page)).2
  = match ProductManager.productsGrid
            (ProductManager.create ProductManager.page).2 with
    | Some _ => Some ProductManager.NoResults
    | None => None
    end.
Proof.
  apply (empty_result_leaves_button (ProductManager.Search "Aspirin")
           (ProductManager.create ProductManager.page)).
  vm_compute. reflexivity.
Defined.

(** The button of the sample page after the script ran, and after a
    search that finds nothing. *)
Example stale_button :
  ProductManager.loadMore (ProductManager.create ProductManager.page).2
  = Some (ProductManager.Button "inline-flex"
            "Load More Products (4 remaining)") /\
  ProductManager.loadMore
    (ProductManager.handle (ProductManager.Search "Aspirin")
       (ProductManager.create ProductManager.page)).2
  = Some (ProductManager.Button "inline-flex"
            "Load More Products (4 remaining)").
Proof. split; vm_compute; reflexivity. Qed.
